(* ===== verification/_CoqProject ===== *)
-Q . S2P
Prelude.v
Python.v
PyString.v
FloatConv.v
ObjectId.v
PyRepr.v
Regex.v
RegexSpec.v
RegexPrint.v
Filter.v
Pricing.v
PricingExact.v
Query.v
Store.v
Api.v
Server.v
Pydantic.v
Schemas.v
Params.v
Cors.v
App.v
