(* ===== verification/Prelude.v ===== *)
(** * A verification development of the E-Commerce API backend

    The program ([src/main.py], one FastAPI module) exposes five HTTP
    endpoints over a MongoDB document store reached through [database.py]
    (not in [src/]) and the pymongo/bson libraries:

    - [list_products] (lines 35-54) builds a Mongo filter from the optional
      query parameters [category] and [q] and returns at most [limit]
      products, their [_id] rendered as strings;
    - [create_product] (57-63) inserts a product and returns its id;
    - [get_product] (66-75) looks up [db["product"]], parses the path
      parameter as an [ObjectId], finds the product and returns it;
    - [create_order] (78-90) computes [subtotal] and [total] server side
      with Python's [sum] and float arithmetic, persists the order with
      them and returns the id and the total;
    - [test_database] (93-127) and [read_root] (30-32) are diagnostics.

    Every handler wraps its body in [try ... except Exception] and turns any
    exception into an [HTTPException(500, str(e))]; FastAPI then renders
    the returned value as JSON, which fails on non-finite floats.

    ** Layout of the library (in dependency order)

    - [Prelude] (this file): the [result] error monad with the bind
      notation [x <- c ;; k] in [shop_scope] (Python's exceptions as [Err]
      values), [map_result] (a generator consumed left to right, stopping
      at the first exception), ASCII case folding and the spec's
      case-insensitive [contains_ci], the [shop] hint databases and the
      tactics [inv], [simp_res], [split_res].
    - [Python]: the runtime the handlers rely on.  Exceptions [exc] and
      [str(e)] ([str_exc]); [int] as [Z] and [float] as Rocq's primitive
      binary64 floats; [float(int)] ([float_of_int], [OverflowError] when
      the rounded value is infinite); mixed [+] and [*]; truthiness; the
      builtin [sum] under the two CPython algorithms ([pyversion]:
      sequential before 3.12, Neumaier-compensated from 3.12); values
      ([value]) and [dict]s as association lists with insertion order and
      in-place assignment ([dict_set]); JSON renderability ([renderable]).
    - [PyString]: Python's [str.join], [split], [strip] (stripping as a
      [Section] over the class of whitespace: Python's [str.isspace], or
      the narrower class [is_num_space] that [int()] and Rust's
      [str::trim] skip), [repr], and the builtin [int] on a string
      ([py_int]) with CPython's 4300-digit limit, checked on the run of
      digits before the rest of the literal ([digit_run]).
    - [FloatConv]: the rounding code of [binary_normalize] followed step
      by step (shifts with round and sticky bits, ties to even,
      renormalisation), giving the overflow threshold of [float(int)].
    - [ObjectId]: bson's [ObjectId(str)] ([parse_oid]: 24 characters that
      [bytes.fromhex] decodes, which skips whitespace) and [str(oid)]
      ([oid_str], lowercase hex).
    - [PyRepr]: [repr] and [str] of Python values ([str_value], the
      [str(p["_id"])] of line 51 and the [str(inserted_id)] of
      [create_document]): [float_repr] is CPython's shortest round-trip
      [repr] of a double (checked against Python on 1510 doubles), on
      top of [decimal_to_float], the correctly rounded decimal-to-binary
      conversion that pydantic's float parser also uses.
    - [Regex]: the PCRE subset that Mongo's [$regex] interprets: a
      structural parser [compile] (accepting, rejecting with PCRE's
      message, or flagging syntax outside the subset) and a matcher
      [regex_search] by Brzozowski derivatives with a line context for
      [^]/[$] and caseless comparison.
    - [RegexSpec]: PCRE's meaning of the same syntax as an inductive
      relation [mat] (a pattern matches a subject between two positions),
      and the proof that [regex_search] decides it.
    - [RegexPrint]: a printer from patterns to PCRE text, pattern
      equivalence as a setoid ([re_equiv] with its [Proper] instances), and
      the round trip: [compile] reads printed text back as an equivalent
      pattern.
    - [Filter]: the meaning of a filter document under MongoDB's query
      semantics ([matches], and [filter_error] for filters the server
      rejects), over the interface [RegexEngine] with its laws
      [RegexEngineLaws]; [pcre_engine] implements it with [Regex].
    - [Pricing]: the order pricing of [create_order] (lines 82-86):
      [item_amount], [order_totals] and the persisted [order_payload],
      with the spec's exact contract [spec_subtotal] over rationals.
    - [PricingExact]: whole-number floats ([rep n f]: the float [f] is
      the integer [n]), the exactness of [float(int)], [*], [+] and [-] on
      them below [2^53] (following [SFmul]/[SFadd]/[SFsub] through
      [binary_round]), and of both [sum] loops: Neumaier's compensation
      stays a zero.
    - [Query]: the filter dict of [list_products] (lines 38-47),
      [build_filter], and the spec's predicate [spec_product_match].
    - [Store]: the store behind [database.py] as an interface, the
      typeclass [Gateway] with its laws [GatewayLaws] (insertion with a
      fresh [ObjectId], or under the document's own [_id], which the
      unique index accepts once; [find] with filter, order and limit,
      [find_one], outages as [OperationFailure]/[DbError]), and an
      implementation [store] (collections in a [gmap], fresh ids from a
      96-bit counter, [_id] keys compared as MongoDB does by [bson_eq])
      with its step relation [store_step], the invariant [store_inv] of
      every state, and [store_wf], the stores whose ids are all the
      store's own.
    - [Api]: the product schema [Product] (declared fields and the extra
      fields kept as given, [product_dump] for [model_dump]) and the
      handlers ([list_products], [create_product],
      [get_product], [create_order], [test_database], [read_root]), each
      as a [..._body] of type [py _] wrapped by [reraise_500] and rendered
      by [respond] into a [response].  They are written against any
      [GatewayLaws] instance; the database handle is [option St] ([None]
      when [database.py] found no connection).
    - [Server]: the route table ([request], [handle]) and sessions of
      requests ([serve]) threading the store from one request to the next,
      the only state that survives a request.
    - [Pydantic]: pydantic's lax validators of scalars: [int] from a
      string ([pyd_int]: Rust's trim, sign, underscores, a trailing point
      with zeros, the 4300-character bound), [float] from a string
      ([pyd_float_str]: Rust's [f64] grammar on the trimmed text, then the
      text with its underscores removed, correctly rounded to binary64
      through SpecFloat's [SFdiv_core_binary] and [binary_round_aux]), the
      validators [v_str], [v_float], [v_int] of a decoded JSON value, and
      FastAPI's error entries [verror] (type, loc, msg, input).
    - [Schemas]: the bodies of the [POST] routes, the models [Product],
      [Order] and [OrderItem] of [schemas.py] (lines 22-27 subclass them),
      validated field by field with every error collected in order
      ([validate_product], [validate_order], [validate_items] with the
      index of each item, [validate_body] for an absent body).
    - [Params]: what happens between the HTTP request and the handler
      for the parameters of [list_products] (line 36): Starlette's
      [QueryParams] ([parse_qsl]: fields split on [&], [+] and percent
      escapes decoded, blank values kept; [qp_get]: the last value of a
      name), FastAPI's defaults, pydantic's lax [int] for [limit]
      ([pyd_int]) and the [422] answer with FastAPI's error list;
      [raw_request] is a request as it arrives (the [POST] bodies as the
      value [json.loads] made of them), [resolve] validates it into a
      [Server.request] and [dispatch] runs the handler or answers [422]
      (a [500] when the error list itself cannot be rendered).
    - [Cors]: Starlette's [CORSMiddleware] as lines 13-19 configure it:
      case-insensitive header lists ([hget], [hset], [hupdate]), the
      constructor [cors_init], preflight answers and the headers added to
      the application's responses ([cors_call]).
    - [App]: the middleware stack (ServerErrorMiddleware, CORS, routes
      through [dispatch]) as one application [asgi] on raw requests,
      sessions of them ([asgi_serve]), and the entry point's port
      [entry_port] (lines 130-132).

    ** What the theorems show (the claims C1-C37 of the manifest)

    - orders (Api, Pricing, PricingExact): [create_order] persists exactly
      one document, the payload with the server's totals under an id no
      order had (C1), and the client cannot choose the stored subtotal or
      total (C2); pricing raises only on quantities too large for [float]
      (C3), whose exact boundary is proved for every integer (C16); the
      empty order (C4); with whole-number prices and shipping whose
      magnitudes sum to less than [2^53], subtotal and total are the
      spec's exact values (C31) and both CPython versions agree (C32);
    - listing (Api, Query, Regex, RegexSpec): refinement of the spec's
      category-and-substring contract when [q] has no metacharacter (C5,
      C9), the meaning of the [$regex] condition for any pattern against
      the declarative semantics (C14), only products of the requested
      category (C15), the [limit] bound (C6), invalid patterns (C17);
    - the query parameters of the listing (Params): a [limit] pydantic
      rejects answers [422] without running the handler, even with no
      database (C20); the last of repeated [limit]s wins and [str(n)] reads
      back (C21); the [limit] the handler sees is bounded only by the
      length of its [str] (C22); pydantic's lax spellings with whitespace
      and [.0] (C23);
    - the request bodies (Pydantic, Schemas, Params, App): [str(n)] read
      as a float is [float(n)], or an infinity where [float(n)] overflows
      (C24); an item whose [quantity] is rejected answers [422] with the
      error at [("body", "items", i, "quantity")] and leaves the store
      alone (C26); a [quantity] of [Infinity] or [NaN] turns that [422]
      into a bare [500] without CORS headers (C27);
    - products by id (Api, ObjectId): create-then-get round trip, extra
      fields included (C7), a missing product answering 500 instead of 404
      (C8), malformed ids (C18, C28), every listed product fetched back by
      the id string the listing shows, in a store of the store's own ids
      (C13);
    - ids chosen by the client (Store, Server, Api): the unique index
      holds after every session of requests, whatever the bodies (C10); a product body's extra [_id] becomes
      the product's id, so a client can make a new product show the id of
      an existing one (C12), and a key already taken is refused with
      pymongo's [DuplicateKeyError], a 500 (C25);
    - sessions and failures (Server, Api): the ids of a session whose
      bodies bring no [_id] are pairwise distinct and fresh (C11); the
      handlers without database (C29) or with the store unreachable (C19),
      and the diagnostics endpoint (C30);
    - the HTTP layer (Cors, App): any origin gets credentialed read access
      (C33), preflights are answered without reaching a handler (C34), a
      response that fails to render loses its CORS headers (C35), the
      entry point reads back any port written by [str] within CPython's
      digit limit and fails beyond it (C36), and every request of a
      session gets exactly one answer with a status among 200, 201, 400,
      422 and 500 (C37).

    The round trips of [ObjectId] ([parse_oid_str], [oid_str_parse_oid]),
    the whitespace [bytes.fromhex] skips in an id ([parse_oid_whitespace]),
    the version dependence of [sum] ([order_totals_version_dependent]), an
    infinite total stored while the client gets a 500
    ([create_order_inf_total]), a product with a non-finite price created
    but not readable ([get_product_inf_price]), the default limit cutting
    the spec's inclusion property ([list_products_default_limit]),
    metacharacters in [q] ([compile_meta_diverges]), the float subtotal
    of [0.1 * 3] ([order_subtotal_inexact]), the printer of patterns read
    back by [compile] ([regex_cond_print]) and the type of what the
    server sends ([asgi_body_json]) are proved as well; some back the
    findings of the manifest.

    ** Bounds and fuel

    Every function is structurally recursive (the parsers of query
    strings, literals and patterns recurse on the text, the sessions on
    the list of requests), so no fuel is needed and Rocq's guard checker
    is the termination proof: there is no loop whose termination needs a
    theorem of its own.  Ids
    are the 12 big-endian bytes of a counter; [store_room] (counter below
    [2^96]) is the hypothesis under which an insertion gets a fresh id,
    which holds for every store reached by fewer than [2^96] insertions;
    [serve_ids_unique] asks that the counter plus the length of the
    session stay within [2^96].  The exactness of [PricingExact] asks
    that the magnitudes of the line amounts (and of the shipping fee) sum
    to less than [2^53]: every partial sum is then an integer of at most
    53 bits, which binary64 holds exactly; the bound is the precision of
    the format, and [order_subtotal_inexact] shows that whole-number
    prices are needed.  [float_repr] tries the precisions 1 to 17 in
    turn (a list of 17, so no fuel): 17 significant digits always
    determine a double, and its last resort rounds to 17 digits.
    Integers are unbounded [Z] as in Python; floats are binary64.  The
    two limits on the length of an [int] literal are the libraries' own:
    CPython's [sys.get_int_max_str_digits()] default of 4300 digits for
    [int(str)] ([max_str_digits]) and pydantic's 4300 characters of [str]
    of the value ([max_int_str_len]).  [decimal_to_float] computes
    [m * 10^e] exactly (an integer for [e >= 0], a quotient with its
    remainder class for [e < 0]) and rounds once; it short-cuts to an
    infinity for [e >= 310] (the value is at least [10^310], above the
    largest double) and to a zero when [m] has [d] digits with
    [d + e <= -324] (the value is below [10^-324], less than half the
    least subnormal), so the powers of ten it builds stay small.

    ** Not modelled

    The imports and [app = FastAPI(title=...)] (lines 1-11: the title
    only shows in the generated docs), [uvicorn.run] (line 133, I/O),
    the [Content-Length] of JSON responses, CORS's [allow_origin_regex]
    (unset), the decoding of the JSON text of a body ([json.loads]: the
    model starts from the decoded value, whose objects have distinct
    keys), [schemas.py] itself (not in [src/]: the models are the spec's
    section 3, validated as pydantic does, see [Schemas]), which of [int_parsing] and [int_parsing_size] pydantic
    names for an oversized [limit] literal (it depends on the spelling:
    a parameter [oversize] of [pyd_int]), what pymongo does with a
    [limit] beyond 64 bits and its [OverflowError] for a document holding
    an [int] outside 64 bits (pymongo is not available to check it
    against; the store accepts such documents), MongoDB's refusal of an
    embedded-document [_id] with a [$]-prefixed field, the exact text of
    the server's duplicate-key message (no theorem depends on it),
    timestamps [database.py] may add, non-ASCII
    text (a percent escape of a byte above 127 is decoded as UTF-8 by
    Python and kept as the byte here), and PCRE syntax beyond the subset (classes, counted repetition,
    [(?] groups, letter escapes), which [compile] flags as unsupported.
    Later work: exactness for prices with a bounded number of binary
    digits after the point. *)

From Stdlib Require Import ZArith List String Ascii Bool Lia.
Import ListNotations.

Declare Scope shop_scope.
Delimit Scope shop_scope with shop.

(** ** The error monad

    A computation that can raise is a [result A E]: [Ok a] or [Err e]. *)

Inductive result (A E : Type) : Type :=
| Ok (a : A)
| Err (e : E).
Arguments Ok {A E} a.
Arguments Err {A E} e.

Definition bind_result {A B E : Type} (r : result A E) (k : A -> result B E)
  : result B E :=
  match r with
  | Ok a => k a
  | Err e => Err e
  end.

Notation "x <- c ;; k" := (bind_result c (fun x => k))
  (at level 100, c at next level, right associativity) : shop_scope.

Open Scope shop_scope.

(** [map_result f l] applies [f] to the elements of [l] from left to right
    and stops at the first error, as a Python generator consumed by a loop
    does. *)
Fixpoint map_result {A B E : Type} (f : A -> result B E) (l : list A)
  : result (list B) E :=
  match l with
  | [] => Ok []
  | x :: r => y <- f x ;; ys <- map_result f r ;; Ok (y :: ys)
  end.

Definition is_ok {A E : Type} (r : result A E) : bool :=
  match r with Ok _ => true | Err _ => false end.

Lemma bind_ok {A B E : Type} (a : A) (k : A -> result B E) :
  bind_result (Ok a) k = k a.
Proof. reflexivity. Qed.

Lemma bind_err {A B E : Type} (e : E) (k : A -> result B E) :
  bind_result (Err e) k = Err e.
Proof. reflexivity. Qed.

Lemma bind_result_Ok_inv {A B E : Type} (r : result A E) (k : A -> result B E) b :
  bind_result r k = Ok b -> exists a, r = Ok a /\ k a = Ok b.
Proof. destruct r; simpl; [eauto | discriminate]. Qed.

Lemma map_result_Ok_length {A B E : Type} (f : A -> result B E) l ys :
  map_result f l = Ok ys -> List.length ys = List.length l.
Proof.
  revert ys; induction l as [|x r IH]; simpl; intros ys H.
  - injection H as <-; reflexivity.
  - destruct (f x); simpl in H; [|discriminate].
    destruct (map_result f r) eqn:Hr; simpl in H; [|discriminate].
    injection H as <-; simpl; f_equal; apply IH; reflexivity.
Qed.

Lemma map_result_map {A B E : Type} (g : A -> B) (l : list A) :
  @map_result A B E (fun x => Ok (g x)) l = Ok (map g l).
Proof. induction l as [|x r IH]; simpl; [|rewrite IH]; reflexivity. Qed.

(** An element that fails makes the whole traversal fail. *)
Lemma map_result_err_In {A B E : Type} (f : A -> result B E) l x :
  In x l -> is_ok (f x) = false -> is_ok (map_result f l) = false.
Proof.
  induction l as [|y r IH]; simpl; [contradiction|]. intros [->|Hin] Hx.
  - destruct (f x); [discriminate | reflexivity].
  - destruct (f y); simpl; [|reflexivity].
    specialize (IH Hin Hx). destruct (map_result f r); [discriminate | reflexivity].
Qed.

(** [map] keeps a list duplicate-free when [f] is injective on it. *)
Lemma NoDup_map_in {A B : Type} (f : A -> B) (l : list A) :
  (forall x y, In x l -> In y l -> f x = f y -> x = y) -> NoDup l -> NoDup (map f l).
Proof.
  intros Hinj Hl. induction Hl as [|x l Hx Hl IH]; simpl; constructor.
  - intros Hin. apply in_map_iff in Hin as (y & Hy & Hyl).
    assert (y = x) as -> by (apply Hinj; simpl; auto). contradiction.
  - apply IH. intros a b Ha Hb. apply Hinj; simpl; auto.
Qed.

(** ** ASCII case folding and substring search

    Python's [str.lower] and PCRE's caseless matching agree on ASCII
    letters; the model's strings are Rocq [string]s of ASCII bytes. *)

Definition lower_ascii (c : ascii) : ascii :=
  let n := nat_of_ascii c in
  if (65 <=? n)%nat && (n <=? 90)%nat then ascii_of_nat (n + 32) else c.

Fixpoint lower (s : string) : string :=
  match s with
  | EmptyString => EmptyString
  | String c r => String (lower_ascii c) (lower r)
  end.

(** Two characters are equal up to ASCII case. *)
Definition ceq_ci (a b : ascii) : bool := Ascii.eqb (lower_ascii a) (lower_ascii b).

(** [prefix_ci p s]: [s] starts with [p], up to case. *)
Fixpoint prefix_ci (p s : string) : bool :=
  match p, s with
  | EmptyString, _ => true
  | String _ _, EmptyString => false
  | String a p', String b s' => ceq_ci a b && prefix_ci p' s'
  end.

(** [contains_ci needle hay]: [needle] occurs in [hay] as a contiguous
    substring, up to ASCII case: the spec's "case-insensitive contains". *)
Fixpoint contains_ci (needle hay : string) : bool :=
  prefix_ci needle hay ||
  match hay with
  | EmptyString => false
  | String _ r => contains_ci needle r
  end.

(** [append] computes on its first argument; stdpp, which [Store] loads,
    declares it [simpl never], so proofs rewrite with these two. *)
Lemma string_app_nil_l (t : string) : ("" ++ t)%string = t.
Proof. reflexivity. Qed.

Lemma string_app_cons c (s t : string) : (String c s ++ t)%string = String c (s ++ t).
Proof. reflexivity. Qed.

Lemma string_app_assoc (a b c : string) : ((a ++ b) ++ c)%string = (a ++ (b ++ c))%string.
Proof. induction a as [|x a IH]; simpl; [reflexivity | rewrite IH; reflexivity]. Qed.

Lemma ceq_ci_refl c : ceq_ci c c = true.
Proof. unfold ceq_ci. apply Ascii.eqb_refl. Qed.

Lemma prefix_ci_refl s : prefix_ci s s = true.
Proof. induction s; simpl; [reflexivity|]. rewrite ceq_ci_refl, IHs. reflexivity. Qed.

Lemma prefix_ci_app p s t : prefix_ci p s = true -> prefix_ci p (s ++ t)%string = true.
Proof.
  revert s; induction p as [|a p IH]; intros [|b s] H; simpl in *; try easy.
  apply andb_prop in H as [H1 H2]. rewrite H1, (IH s H2). reflexivity.
Qed.

Lemma contains_ci_app_r n s t : contains_ci n t = true -> contains_ci n (s ++ t)%string = true.
Proof.
  induction s as [|c s IH]; simpl; intros H; [exact H|].
  rewrite (IH H). apply orb_true_r.
Qed.

(** The needle occurs in [s ++ needle ++ t]. *)
Lemma contains_ci_middle n s t : contains_ci n (s ++ n ++ t)%string = true.
Proof.
  apply contains_ci_app_r.
  destruct n as [|c n]; simpl; [destruct t; reflexivity|].
  rewrite ceq_ci_refl, (prefix_ci_app n n t (prefix_ci_refl n)). reflexivity.
Qed.

(** ** Automation shared by the components *)

Create HintDb shop discriminated.
Create Rewrite HintDb shop.
#[export] Hint Rewrite @bind_ok @bind_err @map_result_map : shop.
#[export] Hint Resolve ceq_ci_refl prefix_ci_refl contains_ci_middle : shop.
Create Rewrite HintDb str_app.
#[export] Hint Rewrite string_app_nil_l string_app_cons : str_app.

(** [inv H]: invert [H], substitute, and drop it. *)
Ltac inv H := inversion H; subst; clear H.

(** [simp_res]: compute through the error monad in the goal. *)
Ltac simp_res := repeat (progress (simpl; autorewrite with shop in *)).

(** [split_res H]: break a successful bind in hypothesis [H]. *)
Ltac split_res H :=
  let a := fresh "a" in
  let Ha := fresh "Ha" in
  apply bind_result_Ok_inv in H as (a & Ha & H).
