(* ===== verification/Python.v ===== *)
(** * The Python runtime the handlers rely on

    Exceptions and [str(e)], the numeric tower ([int] as [Z], [float] as
    the primitive binary64 [float]), the conversion [float(int)] with its
    [OverflowError], mixed [+] and [*], truthiness, the builtin [sum] over a
    generator of floats (CPython before and from 3.12), JSON-like values,
    [dict]s with insertion order, and the JSON rendering of a response. *)

From Stdlib Require Import ZArith List String Ascii Bool Lia Floats DecimalString.
From S2P Require Import Prelude.
Import ListNotations.
Open Scope shop_scope.

(** ** Exceptions

    The exceptions the handlers can meet.  [HTTPException] is Starlette's:
    its [str] is ["<status>: <detail>"]. *)
Inductive exc : Type :=
| OverflowError (msg : string)
| InvalidId (msg : string)
| HTTPException (status : Z) (detail : string)
| OperationFailure (msg details : string)
| DbError (msg : string)
| TypeError (msg : string)
| ValueError (msg : string).

Definition py (A : Type) : Type := result A exc.

Definition str_Z (z : Z) : string := NilEmpty.string_of_int (Z.to_int z).

(** [str(e)]. *)
Definition str_exc (e : exc) : string :=
  match e with
  | HTTPException s d => (str_Z s ++ ": " ++ d)%string
  | OperationFailure m det => (m ++ ", full error: " ++ det)%string
  | OverflowError m | InvalidId m | DbError m | TypeError m | ValueError m => m
  end.

(** ** Numbers *)

Inductive pynum : Type :=
| PInt (z : Z)
| PFloat (f : float).

(** [float(z)], as [PyLong_AsDouble] computes it when an [int] meets a
    [float] operand: round to nearest, ties to even, and [OverflowError]
    when the rounded value is out of the binary64 range. *)
Definition float_of_int (z : Z) : py float :=
  match SpecFloat.binary_normalize FloatOps.prec FloatOps.emax z 0 false with
  | SpecFloat.S754_infinity _ => Err (OverflowError "int too large to convert to float")
  | f => Ok (FloatOps.SF2Prim f)
  end.

(** [a + b]: exact on two [int]s, otherwise both operands are converted to
    [float] and added in binary64. *)
Definition py_add (a b : pynum) : py pynum :=
  match a, b with
  | PInt x, PInt y => Ok (PInt (x + y))
  | PInt x, PFloat g => fx <- float_of_int x ;; Ok (PFloat (fx + g)%float)
  | PFloat f, PInt y => fy <- float_of_int y ;; Ok (PFloat (f + fy)%float)
  | PFloat f, PFloat g => Ok (PFloat (f + g)%float)
  end.

(** [a * b], with the same conversions. *)
Definition py_mul (a b : pynum) : py pynum :=
  match a, b with
  | PInt x, PInt y => Ok (PInt (x * y))
  | PInt x, PFloat g => fx <- float_of_int x ;; Ok (PFloat (fx * g)%float)
  | PFloat f, PInt y => fy <- float_of_int y ;; Ok (PFloat (f * fy)%float)
  | PFloat f, PFloat g => Ok (PFloat (f * g)%float)
  end.

(** [bool(x)] of a number: [0] and [0.0] (and [-0.0]) are false, [nan] is
    true. *)
Definition truthy_num (n : pynum) : bool :=
  match n with
  | PInt z => negb (z =? 0)%Z
  | PFloat f => negb (f =? 0)%float
  end.

(** [bool(s)] of a string: false exactly for [""]. *)
Definition truthy_str (s : string) : bool :=
  match s with EmptyString => false | String _ _ => true end.

(** ** The builtin [sum] over a generator of floats

    [sum(g)] starts from the [int] [0].  On a first [float] item [x] the
    running result becomes [0 + x] (a float) and the float loop takes over:
    before CPython 3.12 it adds the remaining items one by one; from 3.12 it
    uses Neumaier's compensated summation and adds the compensation [c] at
    the end when it is non-zero and finite.  An empty generator gives the
    [int] [0]. *)
Inductive pyversion : Type := CPython311 | CPython312.

Fixpoint fsum_seq (acc : float) (xs : list float) : float :=
  match xs with
  | [] => acc
  | x :: r => fsum_seq (acc + x)%float r
  end.

Fixpoint fsum_neumaier (f c : float) (xs : list float) : float :=
  match xs with
  | [] => if negb (c =? 0)%float && PrimFloat.is_finite c then (f + c)%float else f
  | x :: r =>
      let t := (f + x)%float in
      let c' := if (PrimFloat.abs x <=? PrimFloat.abs f)%float
                then (c + ((f - t) + x))%float
                else (c + ((x - t) + f))%float in
      fsum_neumaier t c' r
  end.

Definition py_sum_floats (v : pyversion) (xs : list float) : pynum :=
  match xs with
  | [] => PInt 0
  | x :: r =>
      let f0 := (0 + x)%float in
      PFloat (match v with
              | CPython311 => fsum_seq f0 r
              | CPython312 => fsum_neumaier f0 0 r
              end)
  end.

(** ** Values and dicts

    The JSON-like values that flow between the handlers, pydantic's
    [model_dump] and the store.  [VOid] is a bson [ObjectId], kept as the
    list of its bytes (each in [0, 256)).  A [dict] is its list of items in
    insertion order. *)
#[warnings="-register-all"]
Inductive value : Type :=
| VNone
| VBool (b : bool)
| VInt (z : Z)
| VFloat (f : float)
| VStr (s : string)
| VOid (bytes : list Z)
| VList (l : list value)
| VDict (d : list (string * value)).

Definition dict : Type := list (string * value).

(** Equality of two ids, byte by byte. *)
Fixpoint bytes_eqb (a b : list Z) : bool :=
  match a, b with
  | [], [] => true
  | x :: a', y :: b' => Z.eqb x y && bytes_eqb a' b'
  | _, _ => false
  end.

Lemma bytes_eqb_eq a b : bytes_eqb a b = true <-> a = b.
Proof.
  revert b; induction a as [|x a IH]; intros [|y b]; simpl; try (split; congruence).
  rewrite andb_true_iff, Z.eqb_eq, IH.
  split; [intros [-> ->]; reflexivity | intros Hc; injection Hc as -> ->; split; reflexivity].
Qed.



Definition value_of_num (n : pynum) : value :=
  match n with PInt z => VInt z | PFloat f => VFloat f end.

(** [d.get(k)]. *)
Fixpoint dict_get (k : string) (d : dict) : option value :=
  match d with
  | [] => None
  | (k', v) :: r => if String.eqb k k' then Some v else dict_get k r
  end.

(** [k in d]. *)
Definition dict_mem (k : string) (d : dict) : bool :=
  match dict_get k d with Some _ => true | None => false end.

Fixpoint dict_replace (k : string) (v : value) (d : dict) : dict :=
  match d with
  | [] => []
  | (k', v') :: r =>
      if String.eqb k k' then (k', v) :: r else (k', v') :: dict_replace k v r
  end.

(** [d[k] = v]: an existing key keeps its position, a new key goes last. *)
Definition dict_set (k : string) (v : value) (d : dict) : dict :=
  if dict_mem k d then dict_replace k v d else d ++ [(k, v)].

Lemma dict_get_replace_eq k v d :
  dict_mem k d = true -> dict_get k (dict_replace k v d) = Some v.
Proof.
  unfold dict_mem. induction d as [|[k' v'] r IH]; simpl; [discriminate|].
  destruct (String.eqb k k') eqn:E; simpl; rewrite E; auto.
Qed.

Lemma dict_get_replace_ne k k2 v d :
  k2 <> k -> dict_get k2 (dict_replace k v d) = dict_get k2 d.
Proof.
  intros Hne. induction d as [|[k' v'] r IH]; simpl; [reflexivity|].
  destruct (String.eqb k k') eqn:E; simpl.
  - apply String.eqb_eq in E; subst k'.
    destruct (String.eqb_spec k2 k); [congruence | reflexivity].
  - rewrite IH. reflexivity.
Qed.

Lemma dict_get_app_r k d e :
  dict_get k d = None -> dict_get k (d ++ e) = dict_get k e.
Proof.
  induction d as [|[k' v'] r IH]; simpl; [reflexivity|].
  destruct (String.eqb k k'); [discriminate | exact IH].
Qed.

Lemma dict_get_app_l k d e v :
  dict_get k d = Some v -> dict_get k (d ++ e) = Some v.
Proof.
  induction d as [|[k' v'] r IH]; simpl; [discriminate|].
  destruct (String.eqb k k'); [exact id | exact IH].
Qed.

Lemma dict_get_set_eq k v d : dict_get k (dict_set k v d) = Some v.
Proof.
  unfold dict_set. destruct (dict_mem k d) eqn:Hm.
  - apply dict_get_replace_eq; exact Hm.
  - unfold dict_mem in Hm. destruct (dict_get k d) eqn:Hg; [discriminate|].
    rewrite dict_get_app_r by exact Hg. simpl. rewrite String.eqb_refl. reflexivity.
Qed.

Lemma dict_get_set_ne k k2 v d :
  k2 <> k -> dict_get k2 (dict_set k v d) = dict_get k2 d.
Proof.
  intros Hne. unfold dict_set. destruct (dict_mem k d).
  - apply dict_get_replace_ne; exact Hne.
  - destruct (dict_get k2 d) eqn:Hg.
    + apply dict_get_app_l; exact Hg.
    + rewrite dict_get_app_r by exact Hg. simpl.
      destruct (String.eqb_spec k2 k); [congruence | reflexivity].
Qed.

Lemma dict_replace_keys k v d : map fst (dict_replace k v d) = map fst d.
Proof.
  induction d as [|[k' v'] r IH]; simpl; [reflexivity|].
  destruct (String.eqb k k'); simpl; [|rewrite IH]; reflexivity.
Qed.

#[export] Hint Rewrite dict_get_set_eq : shop.
#[export] Hint Rewrite dict_get_set_ne using (intros Heq; discriminate Heq) : shop.

(** ** Rendering a response

    Starlette's [JSONResponse] serialises with [allow_nan=False]: a
    non-finite float raises [ValueError]; FastAPI's encoder cannot
    serialise a raw [ObjectId].  Both happen after the handler returned, so
    outside its [try]. *)
Fixpoint renderable (v : value) : bool :=
  match v with
  | VFloat f => PrimFloat.is_finite f
  | VOid _ => false
  | VList l =>
      (fix go (l : list value) : bool :=
         match l with [] => true | x :: r => renderable x && go r end) l
  | VDict d =>
      (fix go (d : list (string * value)) : bool :=
         match d with [] => true | (_, x) :: r => renderable x && go r end) d
  | VNone | VBool _ | VInt _ | VStr _ => true
  end.

Lemma renderable_dict_cons k v r :
  renderable (VDict ((k, v) :: r)) = renderable v && renderable (VDict r).
Proof. reflexivity. Qed.

Lemma renderable_dict_nil : renderable (VDict []) = true.
Proof. reflexivity. Qed.

Lemma renderable_list_cons v l :
  renderable (VList (v :: l)) = renderable v && renderable (VList l).
Proof. reflexivity. Qed.

Lemma renderable_list_nil : renderable (VList []) = true.
Proof. reflexivity. Qed.

Lemma renderable_str s : renderable (VStr s) = true.
Proof. reflexivity. Qed.

Lemma renderable_float f : renderable (VFloat f) = PrimFloat.is_finite f.
Proof. reflexivity. Qed.

#[export] Hint Rewrite renderable_dict_cons renderable_dict_nil renderable_list_cons
  renderable_list_nil renderable_str renderable_float andb_true_r andb_true_l : shop.

Arguments renderable : simpl never.

(** ** Properties *)

(** The boundary of [float(int)], which bounds the quantities an
    order can carry: [2^1024 - 2^970 - 1] still converts, to the largest
    finite double [(2^53 - 1) * 2^971], while [2^1024 - 2^970], the
    midpoint between that double and [2^1024], rounds to even, up to
    [2^1024], and raises [OverflowError]; the same holds for the
    negatives. *)
Example float_of_int_boundary :
  float_of_int (2 ^ 1024 - 2 ^ 970 - 1) =
    Ok (FloatOps.SF2Prim (SpecFloat.S754_finite false (2 ^ 53 - 1) 971)) /\
  float_of_int (- (2 ^ 1024 - 2 ^ 970 - 1)) =
    Ok (FloatOps.SF2Prim (SpecFloat.S754_finite true (2 ^ 53 - 1) 971)) /\
  float_of_int (2 ^ 1024 - 2 ^ 970) = Err (OverflowError "int too large to convert to float") /\
  float_of_int (- (2 ^ 1024 - 2 ^ 970)) = Err (OverflowError "int too large to convert to float").
Proof. repeat split; vm_compute; reflexivity. Qed.
