(* ===== verification/PyString.v ===== *)
(** * Python's [str] methods and [int(str)]

    The string operations the program and the libraries it calls apply to
    text: [str.join], [str.split(",")], [str.strip] (Python's whitespace
    on Latin-1 characters, and the narrower whitespace of [int()] and of
    pydantic's Rust validators), [repr] of an ASCII string, and the
    builtin [int] on a string in base 10 ([py_int], with CPython's
    4300-digit limit), which [main.py] applies to the [PORT] variable at
    start-up (line 132). *)

From Stdlib Require Import ZArith List String Ascii Bool Lia DecimalString DecimalZ DecimalPos.
From S2P Require Import Prelude Python.
Import ListNotations.
Open Scope string_scope.
Open Scope shop_scope.

(** ["sep".join(l)]. *)
Fixpoint join (sep : string) (l : list string) : string :=
  match l with
  | [] => ""
  | [x] => x
  | x :: r => x ++ sep ++ join sep r
  end.

(** [s.split(sep)] for a one-character separator: the pieces between the
    separators, empty ones included. *)
Fixpoint split_on (sep : ascii) (s : string) : list string :=
  match s with
  | EmptyString => [""]
  | String c r =>
      match split_on sep r with
      | [] => [""]
      | p :: ps => if Ascii.eqb c sep then "" :: p :: ps else String c p :: ps
      end
  end.

(** [s.split(",")]. *)
Definition split_comma (s : string) : list string := split_on "," s.

(** [str.isspace] on a Latin-1 character. *)
Definition is_py_space (c : ascii) : bool :=
  let n := nat_of_ascii c in
  ((9 <=? n) && (n <=? 13))%nat || ((28 <=? n) && (n <=? 32))%nat ||
  (n =? 133)%nat || (n =? 160)%nat.

(** The whitespace [int()] skips around a literal: [Py_ISSPACE] on ASCII
    characters and [str.isspace] on the others, that is Python's
    whitespace without the separators [\x1c]-[\x1f].  It is also Rust's
    [char::is_whitespace] on Latin-1 characters, which [str::trim] in the
    validators of pydantic-core skips. *)
Definition is_num_space (c : ascii) : bool :=
  let n := nat_of_ascii c in
  is_py_space c && negb ((28 <=? n) && (n <=? 31))%nat.

Definition rev_string (s : string) : string := string_of_list_ascii (rev (list_ascii_of_string s)).

(** Stripping the characters of a class of whitespace from both ends. *)
Section Strip.
Variable is_space : ascii -> bool.

Fixpoint lstrip_by (s : string) : string :=
  match s with
  | String c r => if is_space c then lstrip_by r else s
  | EmptyString => EmptyString
  end.

Definition strip_by (s : string) : string := rev_string (lstrip_by (rev_string (lstrip_by s))).

End Strip.

(** [s.strip()]. *)
Definition strip (s : string) : string := strip_by is_py_space s.

(** The text of a number without the whitespace around it. *)
Definition num_strip (s : string) : string := strip_by is_num_space s.

(** ** [repr] of a string (the messages of [InvalidId], [int] and the store's errors)

    CPython's [repr] of an ASCII string: single quotes unless the string
    contains a single quote and no double quote; backslash, the quote,
    tab, newline and return escaped; other control characters as [\xhh]. *)
Definition dquote : ascii := ascii_of_nat 34.

Definition hex_digit (n : nat) : ascii := ascii_of_nat (if (n <? 10)%nat then 48 + n else 87 + n).

Definition has_char (c : ascii) (s : string) : bool :=
  existsb (Ascii.eqb c) (list_ascii_of_string s).

Definition repr_char (q c : ascii) : string :=
  let n := nat_of_ascii c in
  if Ascii.eqb c q || Ascii.eqb c "\" then String "\" (String c EmptyString)
  else if (n =? 9)%nat then "\t"
  else if (n =? 10)%nat then "\n"
  else if (n =? 13)%nat then "\r"
  else if (n <? 32)%nat || (n =? 127)%nat then
    String "\" (String "x" (String (hex_digit (n / 16))
                             (String (hex_digit (n mod 16)) EmptyString)))
  else String c EmptyString.

Fixpoint repr_body (q : ascii) (s : string) : string :=
  match s with
  | EmptyString => EmptyString
  | String c r => (repr_char q c ++ repr_body q r)%string
  end.

Definition py_repr (s : string) : string :=
  let q := if has_char "'" s && negb (has_char dquote s) then dquote else "'"%char in
  String q (repr_body q s ++ String q EmptyString)%string.

(** ** [int(s)] in base 10

    [PyLong_FromUnicodeObject]: surrounding whitespace ([is_num_space]) is
    ignored, then an
    optional sign and decimal digits, single underscores allowed between
    digits; anything else raises [ValueError], whose message shows at
    most 200 characters of the argument's [repr] ([%.200R]). *)
Definition digit_val (c : ascii) : option Z :=
  let n := nat_of_ascii c in
  if (48 <=? n)%nat && (n <=? 57)%nat then Some (Z.of_nat (n - 48)) else None.

(** The digits after the first one, each possibly preceded by one [_]. *)
Fixpoint int_digits (s : string) (acc : Z) : option Z :=
  match s with
  | EmptyString => Some acc
  | String c r =>
      match digit_val c with
      | Some d => int_digits r (acc * 10 + d)
      | None =>
          if Ascii.eqb c "_" then
            match r with
            | String c' r' =>
                match digit_val c' with
                | Some d => int_digits r' (acc * 10 + d)
                | None => None
                end
            | EmptyString => None
            end
          else None
      end
  end.

Definition int_unsigned (s : string) : option Z :=
  match s with
  | String c r => match digit_val c with Some d => int_digits r d | None => None end
  | EmptyString => None
  end.

Definition int_signed (s : string) : option Z :=
  match s with
  | String c r =>
      if Ascii.eqb c "-" then option_map Z.opp (int_unsigned r)
      else if Ascii.eqb c "+" then int_unsigned r
      else int_unsigned s
  | EmptyString => None
  end.

(** [sys.get_int_max_str_digits()], the default limit of CPython 3.11 on
    the digits of a decimal [int] conversion. *)
Definition max_str_digits : nat := 4300.

(** The scan of [PyLong_FromString] after the sign: the number of digits
    in the longest run of digits and underscores, or [None] when the run
    starts with an underscore ([prev_us] is [true] at its start), has two
    in a row, ends with one, or has no digit: the literal is invalid. *)
Fixpoint digit_run (s : string) (prev_us : bool) : option nat :=
  match s with
  | EmptyString => if prev_us then None else Some 0%nat
  | String c r =>
      match digit_val c with
      | Some _ => option_map S (digit_run r false)
      | None =>
          if Ascii.eqb c "_" then (if prev_us then None else digit_run r true)
          else if prev_us then None else Some 0%nat
      end
  end.

(** The text after an optional sign. *)
Definition sign_rest (t : string) : string :=
  match t with
  | String c r => if Ascii.eqb c "-" || Ascii.eqb c "+" then r else t
  | EmptyString => t
  end.

Definition int_limit_msg (k : nat) : string :=
  "Exceeds the limit (4300 digits) for integer string conversion: value has "
  ++ str_Z (Z.of_nat k) ++ " digits; use sys.set_int_max_str_digits() to increase the limit".

(** [int(s)]: the digit limit is checked on the scanned run, before the
    rest of the text, and then the literal is read. *)
Definition py_int (s : string) : py Z :=
  let invalid := Err (ValueError ("invalid literal for int() with base 10: " ++ substring 0 200 (py_repr s))) in
  match digit_run (sign_rest (lstrip_by is_num_space s)) true with
  | None => invalid
  | Some k =>
      if (max_str_digits <? k)%nat then Err (ValueError (int_limit_msg k))
      else match int_signed (num_strip s) with
           | Some z => Ok z
           | None => invalid
           end
  end.

(** ** [int(str(n)) == n] *)

(** The value of a digit string read from the left, after [acc]. *)
Fixpoint uint_acc (u : Decimal.uint) (acc : Z) : Z :=
  match u with
  | Decimal.Nil => acc
  | Decimal.D0 l => uint_acc l (acc * 10)
  | Decimal.D1 l => uint_acc l (acc * 10 + 1)
  | Decimal.D2 l => uint_acc l (acc * 10 + 2)
  | Decimal.D3 l => uint_acc l (acc * 10 + 3)
  | Decimal.D4 l => uint_acc l (acc * 10 + 4)
  | Decimal.D5 l => uint_acc l (acc * 10 + 5)
  | Decimal.D6 l => uint_acc l (acc * 10 + 6)
  | Decimal.D7 l => uint_acc l (acc * 10 + 7)
  | Decimal.D8 l => uint_acc l (acc * 10 + 8)
  | Decimal.D9 l => uint_acc l (acc * 10 + 9)
  end.

Lemma int_digits_uint u acc :
  int_digits (NilEmpty.string_of_uint u) acc = Some (uint_acc u acc).
Proof.
  revert acc; induction u; intros acc; simpl; [reflexivity | ..];
    rewrite IHu; do 2 f_equal; lia.
Qed.

Lemma uint_acc_pos u (acc : positive) :
  uint_acc u (Zpos acc) = Zpos (Pos.of_uint_acc u acc).
Proof.
  revert acc; induction u; intros acc; cbn [uint_acc Pos.of_uint_acc]; try reflexivity;
    rewrite <- IHu; f_equal; lia.
Qed.

Lemma uint_acc_of_uint u : uint_acc u 0 = Z.of_uint u.
Proof.
  unfold Z.of_uint. induction u; cbn [uint_acc Pos.of_uint Z.of_N]; try reflexivity;
    [exact IHu | rewrite <- uint_acc_pos; reflexivity ..].
Qed.

Lemma int_unsigned_uint u :
  u <> Decimal.Nil -> int_unsigned (NilEmpty.string_of_uint u) = Some (Z.of_uint u).
Proof.
  intros Hu. rewrite <- uint_acc_of_uint.
  destruct u; [congruence | ..]; simpl;
    rewrite int_digits_uint; reflexivity.
Qed.

Lemma int_signed_uint u :
  u <> Decimal.Nil -> int_signed (NilEmpty.string_of_uint u) = int_unsigned (NilEmpty.string_of_uint u).
Proof. destruct u; [congruence | reflexivity ..]. Qed.

Lemma of_uint_to_uint p : Z.of_uint (Pos.to_uint p) = Zpos p.
Proof. unfold Z.of_uint. rewrite DecimalPos.Unsigned.of_to. reflexivity. Qed.

(** [str(n)] of an [int] ([str_Z]) reads back as [n]. *)
Lemma int_signed_str_Z n : int_signed (str_Z n) = Some n.
Proof.
  unfold str_Z. pose proof DecimalPos.Unsigned.to_uint_nonnil as Hnn.
  destruct n as [|p|p]; [reflexivity | cbn [Z.to_int NilEmpty.string_of_int] ..].
  - rewrite int_signed_uint, int_unsigned_uint, of_uint_to_uint by apply Hnn. reflexivity.
  - change (int_signed (String "-" (NilEmpty.string_of_uint (Pos.to_uint p))))
      with (option_map Z.opp (int_unsigned (NilEmpty.string_of_uint (Pos.to_uint p)))).
    rewrite int_unsigned_uint, of_uint_to_uint by apply Hnn. reflexivity.
Qed.

Lemma forallb_rev {A : Type} (f : A -> bool) l : forallb f (rev l) = forallb f l.
Proof.
  induction l as [|x l IH]; [reflexivity|]. cbn [rev]. rewrite forallb_app, IH. cbn.
  rewrite andb_true_r, andb_comm. reflexivity.
Qed.

Lemma rev_string_involutive s : rev_string (rev_string s) = s.
Proof.
  unfold rev_string. rewrite list_ascii_of_string_of_list_ascii, rev_involutive.
  apply string_of_list_ascii_of_string.
Qed.

Lemma append_nil_r s : (s ++ "")%string = s.
Proof. induction s as [|c s IH]; [reflexivity | cbn; rewrite IH; reflexivity]. Qed.

Lemma list_ascii_of_string_app a b :
  list_ascii_of_string (a ++ b) = (list_ascii_of_string a ++ list_ascii_of_string b)%list.
Proof. induction a as [|c a IH]; [reflexivity | cbn; rewrite IH; reflexivity]. Qed.

Lemma string_of_list_ascii_app (l1 l2 : list ascii) :
  string_of_list_ascii (l1 ++ l2) = (string_of_list_ascii l1 ++ string_of_list_ascii l2)%string.
Proof. induction l1 as [|c l1 IH]; [reflexivity | cbn; rewrite IH; reflexivity]. Qed.

Lemma rev_string_app a b : rev_string (a ++ b) = (rev_string b ++ rev_string a)%string.
Proof.
  unfold rev_string. rewrite list_ascii_of_string_app, rev_app_distr.
  apply string_of_list_ascii_app.
Qed.

Section StripLemmas.
Variable is_space : ascii -> bool.

(** A text without whitespace of the class, which stripping leaves alone. *)
Definition no_space_by (s : string) : bool :=
  forallb (fun c => negb (is_space c)) (list_ascii_of_string s).

Lemma lstrip_no_space s : no_space_by s = true -> lstrip_by is_space s = s.
Proof.
  destruct s as [|c r]; [reflexivity|]. unfold no_space_by. cbn [list_ascii_of_string forallb lstrip_by].
  destruct (is_space c); [discriminate | reflexivity].
Qed.

Lemma no_space_rev s : no_space_by (rev_string s) = no_space_by s.
Proof. unfold no_space_by, rev_string. rewrite list_ascii_of_string_of_list_ascii. apply forallb_rev. Qed.

Lemma strip_by_no_space s : no_space_by s = true -> strip_by is_space s = s.
Proof.
  intros H. unfold strip_by. rewrite (lstrip_no_space s H), lstrip_no_space.
  - apply rev_string_involutive.
  - rewrite no_space_rev. exact H.
Qed.

(** Whitespace of the class before a text is stripped with it. *)
Lemma lstrip_by_spaces w x :
  forallb is_space (list_ascii_of_string w) = true -> lstrip_by is_space (w ++ x) = lstrip_by is_space x.
Proof.
  induction w as [|c w IH]; [reflexivity|]. cbn [list_ascii_of_string forallb append lstrip_by].
  intros Hw. apply andb_prop in Hw as [-> Hw]. exact (IH Hw).
Qed.

Lemma lstrip_by_word s x :
  s <> EmptyString -> no_space_by s = true -> lstrip_by is_space (s ++ x) = (s ++ x)%string.
Proof.
  destruct s as [|c r]; [congruence|]. unfold no_space_by. cbn [list_ascii_of_string forallb append lstrip_by].
  intros _ H. destruct (is_space c); [discriminate | reflexivity].
Qed.

(** [strip] of a text between two runs of whitespace is the text. *)
Lemma strip_by_padded w1 s w2 :
  forallb is_space (list_ascii_of_string w1) = true -> forallb is_space (list_ascii_of_string w2) = true ->
  s <> EmptyString -> no_space_by s = true -> strip_by is_space (w1 ++ s ++ w2) = s.
Proof.
  intros H1 H2 Hs Hn. unfold strip_by.
  rewrite lstrip_by_spaces, lstrip_by_word by assumption.
  rewrite rev_string_app, lstrip_by_spaces, <- (append_nil_r (rev_string s)), lstrip_by_word,
    append_nil_r, rev_string_involutive; [reflexivity | ..].
  - intros E. apply Hs. rewrite <- (rev_string_involutive s), E. reflexivity.
  - rewrite no_space_rev. exact Hn.
  - unfold rev_string. rewrite list_ascii_of_string_of_list_ascii, forallb_rev. exact H2.
Qed.

End StripLemmas.

(** A narrower class of whitespace than Python's. *)
Lemma no_space_by_py (is_space : ascii -> bool) s :
  (forall c, is_space c = true -> is_py_space c = true) ->
  no_space_by is_py_space s = true -> no_space_by is_space s = true.
Proof.
  intros Hsub. unfold no_space_by. rewrite !forallb_forall. intros H c Hc.
  specialize (H c Hc). destruct (is_space c) eqn:E; [|reflexivity]. rewrite (Hsub c E) in H. exact H.
Qed.

Definition no_py_space (s : string) : bool := no_space_by is_py_space s.

Lemma strip_no_space s : no_py_space s = true -> strip s = s.
Proof. apply strip_by_no_space. Qed.

Lemma num_space_py c : is_num_space c = true -> is_py_space c = true.
Proof. unfold is_num_space. intros H. apply andb_prop in H. apply H. Qed.

Lemma no_space_uint u : no_py_space (NilEmpty.string_of_uint u) = true.
Proof. induction u; [reflexivity | exact IHu ..]. Qed.

Lemma no_space_str_Z n : no_py_space (str_Z n) = true.
Proof.
  unfold str_Z. destruct (Z.to_int n); cbn [NilEmpty.string_of_int]; [|unfold no_py_space, no_space_by; cbn [list_ascii_of_string forallb]];
    apply no_space_uint.
Qed.

Lemma no_num_space_str_Z n : no_space_by is_num_space (str_Z n) = true.
Proof. apply no_space_by_py; [exact num_space_py | apply no_space_str_Z]. Qed.

Lemma digit_run_uint u :
  digit_run (NilEmpty.string_of_uint u) false = Some (String.length (NilEmpty.string_of_uint u)).
Proof. induction u; [reflexivity | cbn; rewrite IHu; reflexivity ..]. Qed.

Lemma digit_run_uint_start u b :
  u <> Decimal.Nil ->
  digit_run (NilEmpty.string_of_uint u) b = Some (String.length (NilEmpty.string_of_uint u)).
Proof. intros Hu. destruct u; [congruence | cbn; rewrite digit_run_uint; reflexivity ..]. Qed.

Lemma sign_rest_uint u : u <> Decimal.Nil -> sign_rest (NilEmpty.string_of_uint u) = NilEmpty.string_of_uint u.
Proof. intros Hu. destruct u; [congruence | reflexivity ..]. Qed.

(** The digits of [str(n)]: the text after its sign is [str(abs(n))]. *)
Lemma digit_run_str_Z n :
  digit_run (sign_rest (str_Z n)) true = Some (String.length (str_Z (Z.abs n))).
Proof.
  pose proof DecimalPos.Unsigned.to_uint_nonnil as Hnn.
  unfold str_Z. destruct n as [|p|p]; [reflexivity | cbn [Z.abs Z.to_int NilEmpty.string_of_int] ..].
  - rewrite sign_rest_uint by apply Hnn. apply digit_run_uint_start, Hnn.
  - apply digit_run_uint_start, Hnn.
Qed.

(** [int(str(n)) == n]: Python's [int] reads back every integer
    [str] prints whose digits are within the limit, negative ones and [0]
    included. *)
Theorem py_int_str_Z n :
  (String.length (str_Z (Z.abs n)) <= max_str_digits)%nat -> py_int (str_Z n) = Ok n.
Proof.
  intros Hk. unfold py_int. rewrite lstrip_no_space by apply no_num_space_str_Z.
  rewrite digit_run_str_Z. apply Nat.ltb_ge in Hk. rewrite Hk.
  unfold num_strip. rewrite strip_by_no_space by apply no_num_space_str_Z.
  rewrite int_signed_str_Z. reflexivity.
Qed.

(** Past the limit, [int(str(n))] raises the [ValueError] of the limit. *)
Lemma py_int_str_Z_limit n :
  (max_str_digits < String.length (str_Z (Z.abs n)))%nat ->
  py_int (str_Z n) = Err (ValueError (int_limit_msg (String.length (str_Z (Z.abs n))))).
Proof.
  intros Hk. unfold py_int. rewrite lstrip_no_space by apply no_num_space_str_Z.
  rewrite digit_run_str_Z. apply Nat.ltb_lt in Hk. rewrite Hk. reflexivity.
Qed.

(** ** The characters of [str(n)] *)

Definition is_digit (c : ascii) : bool :=
  match digit_val c with Some _ => true | None => false end.

Lemma str_Z_chars n :
  forallb (fun c => is_digit c || Ascii.eqb c "-") (list_ascii_of_string (str_Z n)) = true.
Proof.
  assert (Hu : forall u, forallb (fun c => is_digit c || Ascii.eqb c "-")
                           (list_ascii_of_string (NilEmpty.string_of_uint u)) = true)
    by (induction u; [reflexivity | exact IHu ..]).
  unfold str_Z. destruct (Z.to_int n); [apply Hu | apply Hu].
Qed.

Lemma digit_char_cases d :
  is_digit d || Ascii.eqb d "-" = true -> In d ["0"; "1"; "2"; "3"; "4"; "5"; "6"; "7"; "8"; "9"; "-"]%char.
Proof. destruct d as [[] [] [] [] [] [] [] []]; intros H; vm_compute in H; (discriminate || cbn; tauto). Qed.

(** A property of every digit and of the sign holds of every character
    of [str(n)]. *)
Lemma str_Z_forallb (f : ascii -> bool) n :
  (forall d, In d ["0"; "1"; "2"; "3"; "4"; "5"; "6"; "7"; "8"; "9"; "-"]%char -> f d = true) ->
  forallb f (list_ascii_of_string (str_Z n)) = true.
Proof.
  intros Hf. pose proof (str_Z_chars n) as Hc. rewrite forallb_forall in Hc |- *.
  intros d Hd. apply Hf, digit_char_cases, Hc, Hd.
Qed.

Ltac digit_chars := let d := fresh "d" in intros d Hd; cbn in Hd; intuition (subst; reflexivity).

Lemma str_Z_nonempty n : str_Z n <> EmptyString.
Proof.
  unfold str_Z. pose proof DecimalPos.Unsigned.to_uint_nonnil as Hnn.
  destruct n as [|p|p]; cbn [Z.to_int NilEmpty.string_of_int]; [discriminate | | discriminate].
  destruct (Pos.to_uint p) eqn:E; [exfalso; exact (Hnn p E) | discriminate ..].
Qed.

(** The digits of [str(n)] followed by more text are read on. *)
Lemma int_digits_uint_app u s acc :
  int_digits (NilEmpty.string_of_uint u ++ s) acc = int_digits s (uint_acc u acc).
Proof.
  revert acc; induction u; intros acc; simpl; [reflexivity | ..];
    rewrite IHu; do 2 f_equal; lia.
Qed.

(** [str(n)] followed by a point is not an [int] literal. *)
Lemma int_signed_str_Z_dot n r : int_signed (str_Z n ++ String "." r) = None.
Proof.
  unfold str_Z. pose proof DecimalPos.Unsigned.to_uint_nonnil as Hnn.
  destruct n as [|p|p]; cbn [Z.to_int NilEmpty.string_of_int]; [reflexivity | | ];
    destruct (Pos.to_uint p) eqn:E; try (exfalso; exact (Hnn p E));
    simpl; rewrite int_digits_uint_app; reflexivity.
Qed.
