(* ===== verification/FloatConv.v ===== *)
(** * The overflow threshold of [float(int)]

    Every line amount of [create_order] (line 82) converts the item's
    quantity with [float(int)], modelled by [Python.float_of_int] through
    the Standard Library's [SpecFloat.binary_normalize] (round to nearest,
    ties to even).  This file follows that rounding code: the mantissa is
    shifted right bit by bit ([shr_1]), keeping a round bit and a sticky
    bit, rounded to even, and renormalised; the result overflows when its
    exponent passes [emax - prec = 971].  The theorem
    [float_of_int_overflow] gives the threshold for every integer: the
    conversion raises [OverflowError] exactly when [|z| >= 2^1024 - 2^970],
    the midpoint between the largest finite double and [2^1024]. *)

From Stdlib Require Import ZArith Lia Bool Floats.
From S2P Require Import Prelude Python.
Import SpecFloat.
Local Open Scope Z_scope.

(** ** Digits and exponents *)

Lemma digits2_pos_size p : digits2_pos p = Pos.size p.
Proof. induction p as [p IH|p IH|]; cbn; rewrite ?IH; reflexivity. Qed.

(** The number of binary digits of [m] is [log2 m + 1]. *)
Lemma digits2_pos_log2 p : Zpos (digits2_pos p) = Z.log2 (Zpos p) + 1.
Proof.
  rewrite digits2_pos_size. destruct p as [p|p|]; cbn [Pos.size Z.log2]; [| |reflexivity];
    rewrite Pos2Z.inj_succ; lia.
Qed.

Lemma log2_bounds m : 0 < m -> 2 ^ Z.log2 m <= m < 2 ^ (Z.log2 m + 1).
Proof. intros Hm. pose proof (Z.log2_spec m Hm) as H. rewrite <- Z.add_1_r in H. exact H. Qed.

Lemma log2_of_bounds m d : 0 <= d -> 2 ^ d <= m < 2 ^ (d + 1) -> Z.log2 m = d.
Proof. intros Hd Hb. apply Z.log2_unique; [exact Hd | rewrite <- Z.add_1_r; exact Hb]. Qed.

Lemma fexp_64 e : 1 <= e -> fexp FloatOps.prec FloatOps.emax e = e - 53.
Proof. intros He. unfold fexp, emin, FloatOps.prec, FloatOps.emax. lia. Qed.

(** ** Shifting right with round and sticky bits *)

Lemma div2_pos_xI p : Zpos p~1 / 2 = Zpos p.
Proof. symmetry. apply Z.div_unique with 1; lia. Qed.

Lemma div2_pos_xO p : Zpos p~0 / 2 = Zpos p.
Proof. symmetry. apply Z.div_unique with 0; lia. Qed.

Lemma shr_1_spec m r s :
  0 <= m -> shr_1 (Build_shr_record m r s) = Build_shr_record (m / 2) (Z.odd m) (r || s).
Proof.
  intros Hm. destruct m as [|[p|p|]|p]; cbn [shr_1]; [reflexivity | | | reflexivity | lia].
  - rewrite div2_pos_xI. reflexivity.
  - rewrite div2_pos_xO. reflexivity.
Qed.

(** [n + 1] shifts of [m]: the quotient by [2^(n+1)], bit [n] as round
    bit, and whether the bits below it are not all zero as sticky bit. *)
Lemma shr_iter n m :
  0 <= m ->
  Nat.iter (S n) shr_1 (Build_shr_record m false false) =
  Build_shr_record (m / 2 ^ Z.of_nat (S n)) (Z.testbit m (Z.of_nat n))
                   (negb (m mod 2 ^ Z.of_nat n =? 0)).
Proof.
  intros Hm. induction n as [|n IH].
  - cbn [Nat.iter]. rewrite shr_1_spec by exact Hm.
    change (Z.of_nat 1) with 1. change (Z.of_nat 0) with 0.
    rewrite Z.pow_1_r, Z.pow_0_r, Z.bit0_odd, Z.mod_1_r. reflexivity.
  - rewrite Nat.iter_succ, IH. assert (Hp : 0 < 2 ^ Z.of_nat (S n)) by (apply Z.pow_pos_nonneg; lia).
    rewrite shr_1_spec by (apply Z.div_pos; lia). f_equal.
    + rewrite Z.div_div by lia. f_equal. rewrite (Nat2Z.inj_succ (S n)), Z.pow_succ_r by lia. lia.
    + rewrite <- Z.bit0_odd, Z.div_pow2_bits by lia. f_equal; lia.
    + assert (Hq : 0 < 2 ^ Z.of_nat n) by (apply Z.pow_pos_nonneg; lia).
      rewrite Nat2Z.inj_succ, Z.pow_succ_r, (Z.mul_comm 2), Z.rem_mul_r by lia.
      pose proof (Z.testbit_spec' m (Z.of_nat n) ltac:(lia)) as Hb.
      pose proof (Z.mod_pos_bound m (2 ^ Z.of_nat n) Hq) as Hr.
      destruct (Z.testbit m (Z.of_nat n)); cbn [Z.b2z] in Hb; rewrite <- Hb; cbn [orb].
      * symmetry. apply negb_true_iff, Z.eqb_neq. lia.
      * rewrite Z.mul_0_r, Z.add_0_r. reflexivity.
Qed.

Lemma iter_pos_nat {A : Type} (f : A -> A) p x : iter_pos f p x = Nat.iter (Pos.to_nat p) f x.
Proof.
  revert x. induction p as [p IH|p IH|]; intros x; cbn [iter_pos].
  - rewrite IH, IH, Pos2Nat.inj_xI, Nat.iter_succ_r, <- Nat.iter_add. f_equal; lia.
  - rewrite IH, IH, Pos2Nat.inj_xO, <- Nat.iter_add. f_equal; lia.
  - reflexivity.
Qed.

Lemma iter_xO_mul m k : Zpos (Pos.iter xO m k) = Zpos m * 2 ^ Zpos k.
Proof.
  induction k as [|k IH] using Pos.peano_ind; [cbn; lia|].
  rewrite Pos.iter_succ, Pos2Z.inj_xO, IH, Pos2Z.inj_succ, Z.pow_succ_r by lia. lia.
Qed.

(** ** The stages of [binary_round_aux] *)

Definition is_inf (x : spec_float) : bool :=
  match x with S754_infinity _ => true | _ => false end.

(** A mantissa of 53 digits is left as it is. *)
Lemma shr_fexp_53 mz ez :
  2 ^ 52 <= mz < 2 ^ 53 -> -1074 <= ez ->
  shr_fexp FloatOps.prec FloatOps.emax mz ez loc_Exact = (Build_shr_record mz false false, ez).
Proof.
  intros Hb He. destruct mz as [|p|p]; [lia | | lia].
  unfold shr_fexp. cbn [Zdigits2]. rewrite digits2_pos_log2.
  rewrite (log2_of_bounds _ 52) by lia. unfold fexp, emin, FloatOps.prec, FloatOps.emax.
  replace (Z.max (52 + 1 + ez - 53) (3 - 1024 - 53) - ez) with 0 by lia. reflexivity.
Qed.

(** The carry [2^53] of a rounding is renormalised to [2^52], one
    exponent up. *)
Lemma shr_fexp_54 ez :
  -1075 <= ez ->
  shr_fexp FloatOps.prec FloatOps.emax (2 ^ 53) ez loc_Exact = (Build_shr_record (2 ^ 52) false false, ez + 1).
Proof.
  intros He. unfold shr_fexp. replace (Zdigits2 (2 ^ 53)) with 54 by reflexivity.
  unfold fexp, emin, FloatOps.prec, FloatOps.emax.
  replace (Z.max (54 + ez - 53) (3 - 1024 - 53) - ez) with 1 by lia. reflexivity.
Qed.

(** A mantissa of more than 53 digits is shifted right to 53 digits, with
    its round and sticky bits. *)
Lemma shr_fexp_big m e :
  2 ^ 53 <= Zpos m -> -1021 <= Z.log2 (Zpos m) + e ->
  let d := Z.log2 (Zpos m) in
  shr_fexp FloatOps.prec FloatOps.emax (Zpos m) e loc_Exact =
  (Build_shr_record (Zpos m / 2 ^ (d - 52)) (Z.testbit (Zpos m) (d - 53))
                    (negb (Zpos m mod 2 ^ (d - 53) =? 0)), e + (d - 52)).
Proof.
  intros Hm He d. assert (Hd : 53 <= d).
  { apply Z.log2_le_pow2; lia. }
  unfold shr_fexp. cbn [Zdigits2]. rewrite digits2_pos_log2. fold d in He |- *.
  unfold fexp, emin, FloatOps.prec, FloatOps.emax.
  replace (Z.max (d + 1 + e - 53) (3 - 1024 - 53) - e) with (Z.of_nat (S (Z.to_nat (d - 53)))) by lia.
  rewrite Nat2Z.inj_succ, Z2Nat.id by lia.
  destruct (Z.succ (d - 53)) as [|p|p] eqn:Ep; [lia | | lia].
  cbn [shr shr_record_of_loc]. rewrite iter_pos_nat.
  replace (Pos.to_nat p) with (S (Z.to_nat (d - 53))) by lia.
  rewrite shr_iter by lia. rewrite Z2Nat.id by lia. rewrite Nat2Z.inj_succ, Z2Nat.id by lia.
  replace (Z.succ (d - 53)) with (d - 52) by lia. f_equal. lia.
Qed.

(** Rounding to nearest, ties to even, from the round and sticky bits. *)
Lemma round_ne_spec mx y r s :
  round_nearest_even mx (loc_of_shr_record (Build_shr_record y r s)) =
  if r && (s || Z.odd mx) then mx + 1 else mx.
Proof. destruct r, s; cbn; try reflexivity. rewrite <- Z.negb_odd. destruct (Z.odd mx); reflexivity. Qed.

(** An integer below [2^53] converts exactly. *)
Lemma round_small sx m :
  Zpos m < 2 ^ 53 -> is_inf (binary_round FloatOps.prec FloatOps.emax sx m 0) = false.
Proof.
  intros Hm. set (d := Z.log2 (Zpos m)).
  pose proof (log2_bounds (Zpos m) ltac:(lia)) as Hb. fold d in Hb.
  assert (Hd : 0 <= d <= 52).
  { split; [apply Z.log2_nonneg|]. apply Z.log2_lt_pow2 in Hm; lia. }
  unfold binary_round. rewrite digits2_pos_log2. fold d. rewrite fexp_64 by lia.
  unfold shl_align. destruct (d + 1 + 0 - 53 - 0) as [|k|k] eqn:E; [| lia |].
  - assert (Hd52 : d = 52) by lia. rewrite Hd52 in Hb.
    unfold binary_round_aux. rewrite shr_fexp_53 by lia. cbn [shr_m loc_of_shr_record round_nearest_even].
    rewrite shr_fexp_53 by lia. reflexivity.
  - assert (Hk : 2 ^ Zpos k * 2 ^ d = 2 ^ 52) by (rewrite <- Z.pow_add_r; [f_equal|..]; lia).
    assert (Hk' : 2 ^ (d + 1) = 2 * 2 ^ d) by (rewrite Z.pow_add_r by lia; lia).
    assert (Hpos : 0 < 2 ^ Zpos k) by (apply Z.pow_pos_nonneg; lia).
    unfold binary_round_aux. rewrite shr_fexp_53; rewrite ?iter_xO_mul; [| nia | lia].
    cbn [shr_m loc_of_shr_record round_nearest_even].
    rewrite shr_fexp_53; rewrite ?iter_xO_mul; [| nia | lia].
    cbn [shr_m]. unfold FloatOps.emax, FloatOps.prec.
    replace (d + 1 + 0 - 53 <=? 1024 - 53) with true by lia.
    destruct (Z.pos m * 2 ^ Z.pos k) eqn:Ez; [nia | reflexivity | nia].
Qed.

(** Shifted to 53 digits, the mantissa lies in [[2^52, 2^53)]. *)
Lemma mantissa_bounds m d :
  2 ^ d <= m < 2 ^ (d + 1) -> 53 <= d -> 2 ^ 52 <= m / 2 ^ (d - 52) < 2 ^ 53.
Proof.
  intros Hb Hd.
  assert (E1 : 2 ^ (d - 52) * 2 ^ 52 = 2 ^ d) by (rewrite <- Z.pow_add_r by lia; f_equal; lia).
  assert (E2 : 2 ^ (d - 52) * 2 ^ 53 = 2 ^ (d + 1)) by (rewrite <- Z.pow_add_r by lia; f_equal; lia).
  assert (0 < 2 ^ (d - 52)) by (apply Z.pow_pos_nonneg; lia).
  split; [apply Z.div_le_lower_bound | apply Z.div_lt_upper_bound]; lia.
Qed.

(** The arithmetic of the threshold: with [d] the position of the leading
    bit of [m], the rounded mantissa carries over to [2^53] or not, and the
    result overflows exactly when [m >= 2^1024 - 2^970]. *)
Lemma overflow_arith m d r s :
  2 ^ d <= m < 2 ^ (d + 1) -> 53 <= d ->
  Z.b2z r = (m / 2 ^ (d - 53)) mod 2 ->
  (if (if r && (s || Z.odd (m / 2 ^ (d - 52))) then m / 2 ^ (d - 52) + 1 else m / 2 ^ (d - 52))
        =? 2 ^ 53
   then 971 <? d - 51 else 971 <? d - 52) = (2 ^ 1024 - 2 ^ 970 <=? m).
Proof.
  intros Hb Hd Hr. pose proof (mantissa_bounds m d Hb Hd) as Hm1.
  remember (m / 2 ^ (d - 52)) as m1 eqn:Em1.
  remember (if r && (s || Z.odd m1) then m1 + 1 else m1) as m2 eqn:Em2.
  assert (Hm2 : m2 = m1 \/ m2 = m1 + 1) by (subst m2; destruct (_ && _); auto).
  destruct (Z_le_gt_dec 1024 d) as [Hhi|Hlo].
  - assert (2 ^ 1024 <= 2 ^ d) by (apply Z.pow_le_mono_r; lia).
    replace (2 ^ 1024 - 2 ^ 970 <=? m) with true by lia.
    destruct (m2 =? 2 ^ 53); lia.
  - destruct (Z_le_gt_dec d 1022) as [Hlow|Hmid].
    + assert (2 ^ (d + 1) <= 2 ^ 1023) by (apply Z.pow_le_mono_r; lia).
      replace (2 ^ 1024 - 2 ^ 970 <=? m) with false by lia.
      destruct (m2 =? 2 ^ 53); lia.
    + assert (d = 1023) by lia. subst d.
      replace (1023 - 52) with 971 in Em1 by reflexivity.
      replace (1023 - 53) with 970 in Hr by reflexivity.
      replace (1023 + 1) with 1024 in Hb by reflexivity.
      replace (971 <? 1023 - 52) with false by reflexivity.
      replace (971 <? 1023 - 51) with true by reflexivity.
      assert (Hq : m / 2 ^ 970 = 2 * m1 + Z.b2z r).
      { rewrite Hr, Em1. replace (2 ^ 971) with (2 ^ 970 * 2) by reflexivity.
        rewrite <- Z.div_div by lia. apply Z.div_mod. lia. }
      assert (Hqb : m / 2 ^ 970 < 2 ^ 54) by (apply Z.div_lt_upper_bound; lia).
      assert (HT : (2 ^ 1024 - 2 ^ 970 <= m) <-> 2 ^ 54 - 1 <= m / 2 ^ 970).
      { split; intros H.
        - apply Z.div_le_lower_bound; lia.
        - destruct (Z_lt_le_dec m (2 ^ 1024 - 2 ^ 970)) as [Hlt|]; [|lia].
          assert (m / 2 ^ 970 < 2 ^ 54 - 1) by (apply Z.div_lt_upper_bound; lia). lia. }
      assert (Hbr : 0 <= Z.b2z r <= 1) by (destruct r; cbn; lia).
      destruct (Z.eqb_spec m2 (2 ^ 53)) as [Hc|Hc]; symmetry.
      * apply Z.leb_le, HT. rewrite Em2 in Hc. destruct (r && (s || Z.odd m1)) eqn:Hround; [|lia].
        apply andb_prop in Hround as [-> _]. cbn [Z.b2z] in Hq. lia.
      * apply Z.leb_gt. destruct (Z_lt_le_dec m (2 ^ 1024 - 2 ^ 970)) as [|Hge]; [assumption|].
        exfalso. apply HT in Hge. apply Hc.
        assert (m1 = 2 ^ 53 - 1 /\ r = true) as [Hm1' ->] by (destruct r; cbn [Z.b2z] in Hq; split; lia).
        rewrite Em2, Hm1'. replace (Z.odd (2 ^ 53 - 1)) with true by reflexivity.
        rewrite orb_true_r. reflexivity.
Qed.

(** An integer of at least 54 bits is rounded to 53, and overflows exactly
    from [2^1024 - 2^970] on. *)
Lemma round_big sx m :
  2 ^ 53 <= Zpos m ->
  is_inf (binary_round FloatOps.prec FloatOps.emax sx m 0) = (2 ^ 1024 - 2 ^ 970 <=? Zpos m).
Proof.
  intros Hm. set (d := Z.log2 (Zpos m)).
  pose proof (log2_bounds (Zpos m) ltac:(lia)) as Hb. fold d in Hb.
  assert (Hd : 53 <= d) by (apply Z.log2_le_pow2; lia).
  pose proof (mantissa_bounds _ d Hb Hd) as Hm1.
  unfold binary_round. rewrite digits2_pos_log2. fold d. rewrite fexp_64 by lia.
  unfold shl_align. destruct (d + 1 + 0 - 53 - 0) as [|k|k] eqn:E; [lia | | lia].
  unfold binary_round_aux. rewrite (shr_fexp_big m 0 Hm) by lia. fold d. cbn [shr_m]. rewrite round_ne_spec.
  rewrite Z.add_0_l.
  rewrite <- (overflow_arith (Zpos m) d (Z.testbit (Zpos m) (d - 53))
                (negb (Zpos m mod 2 ^ (d - 53) =? 0)) Hb Hd (Z.testbit_spec' (Zpos m) (d - 53) ltac:(lia))).
  set (m2 := if _ && _ then _ else _).
  assert (Hm2 : 2 ^ 52 <= m2 <= 2 ^ 53) by (unfold m2; destruct (_ && _); lia).
  destruct (Z.eqb_spec m2 (2 ^ 53)) as [Hc|Hc].
  - rewrite Hc, shr_fexp_54 by lia. cbn [shr_m]. unfold FloatOps.emax, FloatOps.prec.
    destruct (Z.leb_spec (d - 52 + 1) (1024 - 53)), (Z.ltb_spec 971 (d - 51)); reflexivity || lia.
  - rewrite shr_fexp_53 by lia. cbn [shr_m]. unfold FloatOps.emax, FloatOps.prec.
    destruct m2 as [|p|p]; [lia | | lia].
    destruct (Z.leb_spec (d - 52) (1024 - 53)), (Z.ltb_spec 971 (d - 52)); reflexivity || lia.
Qed.

Lemma float_of_int_is_ok z :
  is_ok (float_of_int z) = negb (is_inf (binary_normalize FloatOps.prec FloatOps.emax z 0 false)).
Proof. unfold float_of_int. destruct (binary_normalize _ _ _ _ _); reflexivity. Qed.

Lemma binary_round_overflow sx m :
  is_inf (binary_round FloatOps.prec FloatOps.emax sx m 0) = (2 ^ 1024 - 2 ^ 970 <=? Zpos m).
Proof.
  destruct (Z_lt_le_dec (Zpos m) (2 ^ 53)) as [Hs|Hb].
  - rewrite round_small by exact Hs. symmetry. apply Z.leb_gt. lia.
  - apply round_big, Hb.
Qed.

(** ** The threshold *)

(** The midpoint between the largest finite double [(2^53 - 1) * 2^971]
    and [2^1024]: from there on, rounding to nearest (ties to even) gives
    [2^1024]. *)
Definition overflow_bound : Z := 2 ^ 1024 - 2 ^ 970.

(** C16: [float(z)] raises [OverflowError] exactly when
    [|z| >= 2^1024 - 2^970]: below, the integer rounds (to nearest, ties to
    even) to a finite double; from there on it rounds to [2^1024], out of
    the binary64 range.  So [create_order] fails on a quantity exactly when
    its magnitude reaches that bound. *)
Theorem float_of_int_overflow z :
  is_ok (float_of_int z) = false <-> overflow_bound <= Z.abs z.
Proof.
  unfold overflow_bound. rewrite float_of_int_is_ok, negb_false_iff.
  destruct z as [|m|m]; cbn [binary_normalize Z.abs].
  - split; [discriminate | lia].
  - rewrite binary_round_overflow. apply Z.leb_le.
  - rewrite binary_round_overflow. apply Z.leb_le.
Qed.
