(* ===== verification/ObjectId.v ===== *)
(** * bson's [ObjectId]: parsing a path parameter and printing an id

    [get_product] (line 69) calls [ObjectId(product_id)] on the path
    parameter, and the handlers print ids with [str(...)] (lines 51, 72).
    bson is a library, not in [src/]; its behaviour is modelled from its
    documented contract: [ObjectId(s)] for a [str] [s] accepts exactly the
    strings of length 24 that [bytes.fromhex] decodes, and raises
    [InvalidId] (["%r is not a valid ObjectId, ..."]) otherwise; [str(oid)]
    is the lowercase hex of the id's bytes.  [bytes.fromhex] skips ASCII
    whitespace before each pair of digits, so a 24-character string with
    spaces decodes to fewer than 12 bytes. *)

From Stdlib Require Import ZArith List String Ascii Bool Lia.
From S2P Require Import Prelude Python PyString.
Import ListNotations.
Open Scope shop_scope.
Local Open Scope Z_scope.

(** ** Hex digits *)

(** The value of a hex digit, either case. *)
Definition hexval (c : ascii) : option Z :=
  let n := Z.of_nat (nat_of_ascii c) in
  if (48 <=? n) && (n <=? 57) then Some (n - 48)
  else if (97 <=? n) && (n <=? 102) then Some (n - 87)
  else if (65 <=? n) && (n <=? 70) then Some (n - 55)
  else None.

(** The lowercase digit of a nibble. *)
Definition hexdigit (n : Z) : ascii := hex_digit (Z.to_nat n).

(** [Py_ISSPACE]: space, tab, newline, vertical tab, form feed, return. *)
Definition is_space (c : ascii) : bool :=
  let n := nat_of_ascii c in (n =? 32)%nat || ((9 <=? n)%nat && (n <=? 13)%nat).

(** [bytes.fromhex(s)]: whitespace is skipped before a pair, a pair is two
    hex digits; anything else raises [ValueError] ([None] here). *)
Fixpoint fromhex (s : string) : option (list Z) :=
  match s with
  | EmptyString => Some []
  | String c r =>
      if is_space c then fromhex r else
      match r with
      | EmptyString => None
      | String d r' =>
          match hexval c, hexval d, fromhex r' with
          | Some a, Some b, Some bs => Some (16 * a + b :: bs)
          | _, _, _ => None
          end
      end
  end.

(** [binascii.hexlify(b).decode()]. *)
Fixpoint hexlify (bs : list Z) : string :=
  match bs with
  | [] => EmptyString
  | b :: r => String (hexdigit (b / 16)) (String (hexdigit (b mod 16)) (hexlify r))
  end.

(** ** [ObjectId(s)] and [str(oid)] *)

Definition invalid_id_msg (s : string) : string :=
  (py_repr s ++ " is not a valid ObjectId, it must be a 12-byte input or a 24-character hex string")%string.

(** [ObjectId(s)] for a [str] [s]. *)
Definition parse_oid (s : string) : py (list Z) :=
  if (String.length s =? 24)%nat then
    match fromhex s with
    | Some bs => Ok bs
    | None => Err (InvalidId (invalid_id_msg s))
    end
  else Err (InvalidId (invalid_id_msg s)).

(** [str(oid)]. *)
Definition oid_str (bs : list Z) : string := hexlify bs.

(** ** Predicates on the path parameter *)

Definition is_hex (c : ascii) : bool :=
  match hexval c with Some _ => true | None => false end.

Fixpoint all_hex (s : string) : bool :=
  match s with
  | EmptyString => true
  | String c r => is_hex c && all_hex r
  end.

Fixpoint no_space (s : string) : bool :=
  match s with
  | EmptyString => true
  | String c r => negb (is_space c) && no_space r
  end.

Definition is_byte (b : Z) : Prop := 0 <= b < 256.

(** ** Lemmas on digits and bytes *)

Lemma hexval_hexdigit n : 0 <= n < 16 -> hexval (hexdigit n) = Some n.
Proof.
  intros Hn. assert (Hin : In n (map Z.of_nat (seq 0 16))).
  { apply in_map_iff. exists (Z.to_nat n). split; [lia | apply in_seq; lia]. }
  simpl in Hin. repeat (destruct Hin as [<-|Hin]; [reflexivity|]). contradiction.
Qed.

Lemma hexdigit_hexval c n : hexval c = Some n -> hexdigit n = lower_ascii c.
Proof.
  destruct c as [[] [] [] [] [] [] [] []]; vm_compute;
    intros H; first [discriminate H | injection H as <-; reflexivity].
Qed.

Lemma hexval_not_space c n : hexval c = Some n -> is_space c = false.
Proof.
  destruct c as [[] [] [] [] [] [] [] []]; vm_compute;
    intros H; first [discriminate H | reflexivity].
Qed.

Lemma hexval_range c n : hexval c = Some n -> 0 <= n < 16.
Proof.
  intros H; destruct c as [[] [] [] [] [] [] [] []]; vm_compute in H;
    first [discriminate H | injection H as <-; lia].
Qed.

Lemma nibbles_join a b :
  0 <= a < 16 -> 0 <= b < 16 -> (16 * a + b) / 16 = a /\ (16 * a + b) mod 16 = b.
Proof.
  intros Ha Hb. split.
  - symmetry. apply Z.div_unique with b; lia.
  - symmetry. apply Z.mod_unique with a; lia.
Qed.

Lemma nibbles_split b :
  is_byte b -> 0 <= b / 16 < 16 /\ 0 <= b mod 16 < 16 /\ 16 * (b / 16) + b mod 16 = b.
Proof.
  unfold is_byte. intros Hb. pose proof (Z.div_mod b 16 ltac:(lia)).
  pose proof (Z.mod_pos_bound b 16 ltac:(lia)).
  split; [split; [apply Z.div_pos | apply Z.div_lt_upper_bound] | split]; lia.
Qed.

#[export] Hint Resolve hexval_hexdigit hexval_not_space : shop.

Lemma fromhex_hexlify bs : Forall is_byte bs -> fromhex (hexlify bs) = Some bs.
Proof.
  induction 1 as [|b r Hb _ IH]; [reflexivity|].
  destruct (nibbles_split b Hb) as (Hq & Hr & Hqr).
  cbn [hexlify fromhex]. rewrite (hexval_not_space _ _ (hexval_hexdigit _ Hq)),
    (hexval_hexdigit _ Hq), (hexval_hexdigit _ Hr), IH, Hqr. reflexivity.
Qed.

Lemma length_hexlify bs : String.length (hexlify bs) = (2 * List.length bs)%nat.
Proof. induction bs; simpl; [reflexivity | rewrite IHbs; lia]. Qed.

(** Without whitespace, [fromhex] reads two digits per byte, and printing
    the bytes gives the input back in lowercase. *)
Lemma fromhex_no_space n s bs :
  (String.length s <= n)%nat -> no_space s = true -> fromhex s = Some bs ->
  hexlify bs = lower s /\ String.length s = (2 * List.length bs)%nat.
Proof.
  revert s bs; induction n as [|n IH]; intros [|c [|d r]] bs Hlen Hns Hf;
    cbn [String.length fromhex no_space] in *;
    try (injection Hf as <-; split; reflexivity); try lia.
  - apply andb_prop in Hns as [Hc _]. destruct (is_space c); discriminate.
  - apply andb_prop in Hns as [Hc Hns]. apply andb_prop in Hns as [Hd Hns].
    destruct (is_space c); [discriminate|].
    destruct (hexval c) as [a|] eqn:Ha, (hexval d) as [b|] eqn:Hb,
      (fromhex r) as [bs'|] eqn:Hr; try discriminate.
    injection Hf as <-.
    destruct (IH r bs' ltac:(lia) Hns Hr) as [Hh Hl].
    destruct (nibbles_join a b (hexval_range _ _ Ha) (hexval_range _ _ Hb)) as [Hq Hm].
    simpl in Hq, Hm. cbn [hexlify lower List.length]. rewrite Hq, Hm, (hexdigit_hexval _ _ Ha), (hexdigit_hexval _ _ Hb), Hh, Hl.
    split; [reflexivity | lia].
Qed.

(** Without whitespace, [fromhex] succeeds exactly on an even number of hex
    digits. *)
Lemma fromhex_no_space_ok n s :
  (String.length s <= n)%nat -> no_space s = true ->
  (exists bs, fromhex s = Some bs) <-> all_hex s = true /\ Nat.even (String.length s) = true.
Proof.
  revert s; induction n as [|n IH]; intros [|c [|d r]] Hlen Hns;
    simpl in *; try (split; [eauto | eauto]; fail); try lia.
  - apply andb_prop in Hns as [Hc _]. destruct (is_space c); [discriminate|].
    split; [intros [bs H]; discriminate | intros [_ H]; discriminate].
  - apply andb_prop in Hns as [Hc Hns]. apply andb_prop in Hns as [Hd Hns].
    destruct (is_space c); [discriminate|].
    specialize (IH r ltac:(lia) Hns). unfold is_hex.
    destruct (hexval c), (hexval d); simpl;
      [| split; [intros [bs H]; discriminate | intros [H _]; discriminate] ..].
    rewrite <- IH. split.
    + intros [bs H]. destruct (fromhex r); [eauto | discriminate].
    + intros [bs ->]. eauto.
Qed.

(** A parameter without whitespace that is not 24 hex digits raises
    [InvalidId]. *)
Lemma parse_oid_bad s :
  no_space s = true -> ~ (String.length s = 24%nat /\ all_hex s = true) ->
  parse_oid s = Err (InvalidId (invalid_id_msg s)).
Proof.
  intros Hns Hbad. pose proof (fromhex_no_space_ok _ s (le_n _) Hns) as Hok.
  unfold parse_oid. destruct (Nat.eqb_spec (String.length s) 24) as [Hl|Hl]; [|reflexivity].
  destruct (fromhex s) as [bs|] eqn:Hf; [|reflexivity].
  exfalso. apply Hbad. split; [exact Hl | apply Hok; eauto].
Qed.

(** ** Properties *)

(** Printing an id of twelve bytes and parsing the text back gives the
    same id: [ObjectId(str(oid)) == oid]. *)
Theorem parse_oid_str bs :
  Forall is_byte bs -> List.length bs = 12%nat -> parse_oid (oid_str bs) = Ok bs.
Proof.
  intros Hb Hl. unfold parse_oid, oid_str.
  rewrite length_hexlify, Hl, (fromhex_hexlify bs Hb). reflexivity.
Qed.

Definition sample_oid : list Z := [80; 127; 31; 119; 188; 248; 108; 215; 153; 67; 144; 17].

Lemma parse_oid_str_witness :
  parse_oid (oid_str sample_oid) = Ok sample_oid.
Proof.
  apply parse_oid_str; [|reflexivity].
  repeat constructor; unfold is_byte; lia.
Defined.

(** A path parameter without whitespace that parses gives an id of
    twelve bytes, whose [str] is the parameter in lowercase. *)
Theorem oid_str_parse_oid s bs :
  no_space s = true -> parse_oid s = Ok bs ->
  oid_str bs = lower s /\ List.length bs = 12%nat.
Proof.
  intros Hns. unfold parse_oid, oid_str.
  destruct (Nat.eqb_spec (String.length s) 24) as [Hl|]; [|discriminate].
  destruct (fromhex s) as [bs'|] eqn:Hf; [|discriminate]. intros H; injection H as <-.
  destruct (fromhex_no_space _ s bs' (le_n _) Hns Hf) as [Hh Hlen].
  split; [exact Hh | lia].
Qed.

Lemma oid_str_parse_oid_witness :
  oid_str sample_oid = lower "507F1F77BCF86CD799439011" /\ List.length sample_oid = 12%nat.
Proof. apply oid_str_parse_oid; vm_compute; reflexivity. Defined.

(** C28: a path parameter without whitespace is a valid id exactly when it
    has 24 characters, all hex digits; otherwise [ObjectId] raises
    [InvalidId] with the parameter's [repr] in the message. *)
Theorem parse_oid_valid s :
  no_space s = true ->
  (is_ok (parse_oid s) = true <-> String.length s = 24%nat /\ all_hex s = true) /\
  (is_ok (parse_oid s) = false -> parse_oid s = Err (InvalidId (invalid_id_msg s))).
Proof.
  intros Hns. pose proof (fromhex_no_space_ok _ s (le_n _) Hns) as Hok.
  unfold parse_oid. destruct (Nat.eqb_spec (String.length s) 24) as [Hl|Hl].
  - destruct (fromhex s) as [bs|] eqn:Hf; simpl.
    + split; [|discriminate]. split; [intros _|reflexivity].
      split; [exact Hl | apply Hok; eauto].
    + split; [|reflexivity]. split; [discriminate|].
      intros [_ Hh]. assert (He : Nat.even (String.length s) = true) by (rewrite Hl; reflexivity).
      destruct (proj2 Hok (conj Hh He)). discriminate.
  - simpl. split; [|reflexivity]. split; [discriminate | intros [H _]; contradiction].
Qed.

Lemma parse_oid_valid_witness :
  parse_oid "xyz" = Err (InvalidId (invalid_id_msg "xyz")).
Proof. apply (proj2 (parse_oid_valid "xyz" eq_refl)). reflexivity. Defined.

(** Bson accepts a 24-character parameter with whitespace, decoding it
    to an id shorter than twelve bytes, instead of rejecting it. *)
Example parse_oid_whitespace :
  exists bs, parse_oid "  07f1f77bcf86cd79943901" = Ok bs /\ List.length bs = 11%nat.
Proof. eexists; split; vm_compute; reflexivity. Qed.
