(* ===== verification/PyRepr.v ===== *)
(** * [repr] and [str] of Python values

    What Python prints for the values the program stringifies: the
    [str(p["_id"])] of line 51, the [str(result.inserted_id)] that
    [database.py]'s [create_document] returns, and the [repr] inside the
    messages of pymongo's exceptions.  A stored [_id] is an [ObjectId]
    when the store assigns it, but a product may carry its own [_id]
    among its extra fields, and then it is any JSON value.

    - [decimal_to_float]: the binary64 value of a decimal [m * 10^e],
      correctly rounded (ties to even); pydantic's float parser
      ([Pydantic]) and the shortest [repr] both use it.
    - [float_repr]: [repr(float)] ([float_repr_style = 'short']): the
      shortest decimal that reads back as the same double (the closer
      of the two candidates when both do), written in positional
      notation for decimal exponents from [-4] to [15] and in
      exponential notation ([1e+16], [1.5e-07]) outside.
    - [py_repr_value], [str_value]: [repr] and [str] of a value, with
      [dict]s and [list]s printed item by item. *)

From Stdlib Require Import ZArith List String Ascii Bool Lia Floats.
From S2P Require Import Prelude Python PyString ObjectId.
Import ListNotations.
Open Scope string_scope.
Open Scope shop_scope.

(** ** From a decimal to a double *)

(** [m * 10 ^ e] (with the sign [neg]) rounded to nearest, ties to even:
    by [binary_normalize] for an integer, by the quotient and remainder
    of [SFdiv_core_binary] and [binary_round_aux] otherwise.  Two cases
    are decided without computing a huge power of ten: from [e >= 310] a
    nonzero value is at least [10 ^ 310 > 2 ^ 1024] and rounds to
    infinity; a value of [d] digits is below [10 ^ (d + e)], so up to
    [d + e <= -324] it is below [10 ^ -324 < 2 ^ -1075] and rounds to
    zero. *)
Definition decimal_to_float (neg : bool) (m e : Z) : float :=
  let d := Z.of_nat (String.length (str_Z m)) in
  FloatOps.SF2Prim
    (if Z.eqb m 0%Z then SpecFloat.S754_zero neg
     else if (310 <=? e)%Z then SpecFloat.S754_infinity neg
     else if (d + e <=? -324)%Z then SpecFloat.S754_zero neg
     else if (0 <=? e)%Z then
       SpecFloat.binary_normalize FloatOps.prec FloatOps.emax
         (if neg then - (m * 10 ^ e) else m * 10 ^ e)%Z 0 neg
     else
       let '(q, ex, l) := SpecFloat.SFdiv_core_binary FloatOps.prec FloatOps.emax m 0 (10 ^ (- e))%Z 0 in
       SpecFloat.binary_round_aux FloatOps.prec FloatOps.emax neg q ex l).

(** ** The shortest decimal of a double *)

Definition num_digits (n : Z) : Z := Z.of_nat (String.length (str_Z n)).

(** [num / den >= 10 ^ k]. *)
Definition ge_pow10 (num den k : Z) : bool :=
  if (0 <=? k)%Z then (den * 10 ^ k <=? num)%Z else (den <=? num * 10 ^ (- k))%Z.

(** The decimal exponent [E] of a positive [num / den]:
    [10 ^ E <= num / den < 10 ^ (E + 1)].  With [a] and [b] digits,
    [num / den] lies between [10 ^ (a - b - 1)] and [10 ^ (a - b + 1)]. *)
Definition dec_exp (num den : Z) : Z :=
  let e0 := (num_digits num - num_digits den)%Z in
  if ge_pow10 num den e0 then e0 else (e0 - 1)%Z.

(** [num / den * 10 ^ k] as a quotient, a remainder and the divisor. *)
Definition scale10 (num den k : Z) : Z * Z * Z :=
  if (0 <=? k)%Z then let n := (num * 10 ^ k)%Z in (n / den, n mod den, den)%Z
  else let d := (den * 10 ^ (- k))%Z in (num / d, num mod d, d)%Z.

(** [c * 10 ^ x] reads back as the positive double [f]. *)
Definition reads_back (f : float) (c x : Z) : bool :=
  PrimFloat.eqb (decimal_to_float false c x) f.

(** The [p]-digit decimals below and above [num / den] (which is [f]):
    those that read back as [f], the closer one when both do (the even
    one on a tie). *)
Definition candidate (f : float) (num den e : Z) (p : Z) : option (Z * Z) :=
  let x := (e - p + 1)%Z in
  let '(q, r, d) := scale10 num den (- x) in
  let lo := reads_back f q x in
  let hi := negb (Z.eqb r 0) && reads_back f (q + 1) x in
  if lo && hi then
    if (2 * r <? d)%Z then Some (q, x)
    else if (d <? 2 * r)%Z then Some (q + 1, x)%Z
    else if Z.even q then Some (q, x) else Some (q + 1, x)%Z
  else if lo then Some (q, x)
  else if hi then Some (q + 1, x)%Z
  else None.

(** The first precision of [ps] with a candidate; 17 digits always
    suffice for a double (the last resort rounds to 17 digits). *)
Fixpoint shortest_from (f : float) (num den e : Z) (ps : list Z) : Z * Z :=
  match ps with
  | [] => let x := (e - 16)%Z in
          let '(q, r, d) := scale10 num den (- x) in
          if (2 * r <? d)%Z then (q, x) else ((q + 1)%Z, x)
  | p :: ps' =>
      match candidate f num den e p with
      | Some cx => cx
      | None => shortest_from f num den e ps'
      end
  end.

Definition precisions : list Z := map Z.of_nat (seq 1 17).

(** The digits and the exponent of the shortest decimal of a positive
    finite double [m * 2 ^ e2]. *)
Definition shortest_digits (f : float) (m : positive) (e2 : Z) : Z * Z :=
  let '(num, den) := if (0 <=? e2)%Z then (Zpos m * 2 ^ e2, 1)%Z else (Zpos m, 2 ^ (- e2))%Z in
  shortest_from f num den (dec_exp num den) precisions.

Fixpoint strip_zeros_r (l : list ascii) : list ascii :=
  match l with
  | "0"%char :: r => strip_zeros_r r
  | _ => l
  end.

Definition zeros_str (n : Z) : string := string_of_list_ascii (repeat "0"%char (Z.to_nat n)).

(** [format_float_short] with the [r] format: the digits [ds] (no
    trailing zero) and the position [decpt] of the point ([0.ds * 10 ^
    decpt]). *)
Definition format_short (ds : string) (decpt : Z) : string :=
  let n := Z.of_nat (String.length ds) in
  if (decpt <=? -4)%Z || (16 <? decpt)%Z then
    let ex := (decpt - 1)%Z in
    let mant := match ds with
                | String c EmptyString => String c EmptyString
                | String c r => String c ("." ++ r)
                | EmptyString => "0"
                end in
    let ae := str_Z (Z.abs ex) in
    mant ++ "e" ++ (if (ex <? 0)%Z then "-" else "+") ++
      (if (Z.abs ex <? 10)%Z then "0" ++ ae else ae)
  else if (decpt <=? 0)%Z then "0." ++ zeros_str (- decpt) ++ ds
  else if (n <=? decpt)%Z then ds ++ zeros_str (decpt - n) ++ ".0"
  else substring 0 (Z.to_nat decpt) ds ++ "." ++ substring (Z.to_nat decpt) (Z.to_nat (n - decpt)) ds.

(** [repr(f)]. *)
Definition float_repr (f : float) : string :=
  match FloatOps.Prim2SF f with
  | SpecFloat.S754_nan => "nan"
  | SpecFloat.S754_infinity s => if s then "-inf" else "inf"
  | SpecFloat.S754_zero s => if s then "-0.0" else "0.0"
  | SpecFloat.S754_finite s m e2 =>
      let '(c, x) := shortest_digits (PrimFloat.abs f) m e2 in
      let d := str_Z c in
      let ds := string_of_list_ascii (rev (strip_zeros_r (rev (list_ascii_of_string d)))) in
      (if s then "-" else "") ++ format_short ds (Z.of_nat (String.length d) + x)
  end.

(** ** [repr] and [str] of values *)

(** [repr(v)]: [str] of a number, [True]/[False]/[None], the quoted
    string, [ObjectId('...')], and lists and dicts item by item. *)
Fixpoint py_repr_value (v : value) : string :=
  match v with
  | VNone => "None"
  | VBool b => if b then "True" else "False"
  | VInt z => str_Z z
  | VFloat f => float_repr f
  | VStr s => py_repr s
  | VOid bs => "ObjectId('" ++ oid_str bs ++ "')"
  | VList l => "[" ++ join ", " (map py_repr_value l) ++ "]"
  | VDict d => "{" ++ join ", " (map (fun kv => py_repr (fst kv) ++ ": " ++ py_repr_value (snd kv)) d) ++ "}"
  end.

(** [str(v)]: the string itself, the hex of an [ObjectId], [repr]
    otherwise. *)
Definition str_value (v : value) : string :=
  match v with
  | VStr s => s
  | VOid bs => oid_str bs
  | _ => py_repr_value v
  end.
