(* ===== verification/Regex.v ===== *)
(** * The regular expressions Mongo's [$regex] interprets

    [list_products] (lines 43-47) sends [q] to the store as
    [{"$regex": q, "$options": "i"}]: the server compiles [q] as a PCRE
    pattern, caseless, and a document field matches when the pattern
    matches somewhere in it.  PCRE is not code of this repository; this
    file models the subset of its syntax that the theorems need, from
    PCRE's documented semantics, with the default options (no multiline,
    no dotall): literals, [.] (any character but newline), [^] (start of
    subject), [$] (end of subject or before a final newline), grouping
    [( )], alternation [|], the quantifiers [*], [+], [?] and their lazy
    forms [*?], [+?], [??], and escaped punctuation [\c].  Character classes
    [[...]], counted repetition [{...}], [(?...)] and [( *...)] groups,
    backslash escapes of letters and digits, and possessive quantifiers are
    recognised and reported as [PRUnsupported]: the model does not say what
    they mean.  Errors PCRE reports for the modelled syntax are
    [PRInvalid].

    Matching is by Brzozowski derivatives, extended with the position
    context zero-width assertions need: whether the position is the start
    of the subject and whether it is at the end (or before a final
    newline).  Existence of a match is what a backtracking engine computes
    for this subset, since it has no back-references or atomic groups. *)

From Stdlib Require Import ZArith List String Ascii Bool Lia.
From S2P Require Import Prelude.
Import ListNotations.
Open Scope shop_scope.

(** ** Syntax *)

Inductive re : Type :=
| Void                      (* matches nothing *)
| Empty                     (* the empty string *)
| Chr (c : ascii)           (* a literal character *)
| AnyNL                     (* [.] *)
| Bol                       (* [^] *)
| Eol                       (* [$] *)
| Cat (r1 r2 : re)
| Alt (r1 r2 : re)
| Star (r : re).

Definition is_newline (c : ascii) : bool := Ascii.eqb c (ascii_of_nat 10).

(** Smart constructors, simplifying with [Void] and [Empty]. *)
Definition mk_cat (r1 r2 : re) : re :=
  match r1, r2 with
  | Void, _ | _, Void => Void
  | Empty, _ => r2
  | _, Empty => r1
  | _, _ => Cat r1 r2
  end.

Definition mk_alt (r1 r2 : re) : re :=
  match r1, r2 with
  | Void, _ => r2
  | _, Void => r1
  | _, _ => Alt r1 r2
  end.

(** ** Matching *)

(** [nullable b e r]: [r] matches the empty string at a position that is
    the start of the subject when [b], at its end when [e]. *)
Fixpoint nullable (b e : bool) (r : re) : bool :=
  match r with
  | Void | Chr _ | AnyNL => false
  | Empty | Star _ => true
  | Bol => b
  | Eol => e
  | Cat r1 r2 => nullable b e r1 && nullable b e r2
  | Alt r1 r2 => nullable b e r1 || nullable b e r2
  end.

(** [der ci b e c r]: what remains of [r] after it consumed [c] at a
    position of context [b], [e]; literals compare up to ASCII case when
    [ci] (the option ["i"]). *)
Fixpoint der (ci b e : bool) (c : ascii) (r : re) : re :=
  match r with
  | Void | Empty | Bol | Eol => Void
  | Chr a => if (if ci then ceq_ci a c else Ascii.eqb a c) then Empty else Void
  | AnyNL => if is_newline c then Void else Empty
  | Cat r1 r2 =>
      if nullable b e r1
      then mk_alt (mk_cat (der ci b e c r1) r2) (der ci b e c r2)
      else mk_cat (der ci b e c r1) r2
  | Alt r1 r2 => mk_alt (der ci b e c r1) (der ci b e c r2)
  | Star r1 => mk_cat (der ci b e c r1) (Star r1)
  end.

(** The end context of a position: the rest of the subject is empty or a
    single newline. *)
Definition at_eol (rest : string) : bool :=
  match rest with
  | EmptyString => true
  | String c EmptyString => is_newline c
  | _ => false
  end.

(** [prefix_match ci b r rest]: [r] matches a prefix of [rest]. *)
Fixpoint prefix_match (ci b : bool) (r : re) (rest : string) : bool :=
  nullable b (at_eol rest) r ||
  match rest with
  | EmptyString => false
  | String c rest' => prefix_match ci false (der ci b (at_eol rest) c r) rest'
  end.

(** [search_from ci b r s]: [r] matches starting at some position of [s]. *)
Fixpoint search_from (ci b : bool) (r : re) (s : string) : bool :=
  prefix_match ci b r s ||
  match s with
  | EmptyString => false
  | String _ s' => search_from ci false r s'
  end.

(** An unanchored search over the whole subject. *)
Definition regex_search (ci : bool) (r : re) (s : string) : bool :=
  search_from ci true r s.

(** ** Parsing a pattern *)

Inductive parse_res : Type :=
| PROk (r : re)
| PRInvalid (msg : string)
| PRUnsupported.

(** An item of the sequence being read, with what may follow it: a
    quantifier after an atom, a lazy mark after a quantifier. *)
Inductive ikind : Type := KAtom | KAnchor | KQuant | KDone.

Record item : Type := It { item_re : re; item_kind : ikind }.

(** A frame: the alternatives already read and the current sequence,
    last item first. *)
Definition frame : Type := (list re * list item)%type.

Definition build_seq (seq : list item) : re :=
  fold_left (fun acc it => mk_cat (item_re it) acc) seq Empty.

Fixpoint mk_alts (l : list re) : re :=
  match l with
  | [] => Void
  | [r] => r
  | r :: l' => mk_alt r (mk_alts l')
  end.

Definition close_frame (f : frame) : re := mk_alts (fst f ++ [build_seq (snd f)]).

Definition push (r : re) (k : ikind) (f : frame) : frame := (fst f, It r k :: snd f).

Definition quantify (q : ascii) (r : re) : re :=
  if Ascii.eqb q "*" then Star r
  else if Ascii.eqb q "+" then mk_cat r (Star r)
  else mk_alt r Empty.

Definition is_quantifier (c : ascii) : bool :=
  Ascii.eqb c "*" || Ascii.eqb c "+" || Ascii.eqb c "?".

Definition is_alnum (c : ascii) : bool :=
  let n := nat_of_ascii c in
  ((48 <=? n)%nat && (n <=? 57)%nat) || ((65 <=? n)%nat && (n <=? 90)%nat)
  || ((97 <=? n)%nat && (n <=? 122)%nat).

(** The metacharacters of PCRE outside a class. *)
Definition is_meta (c : ascii) : bool :=
  existsb (Ascii.eqb c) ["\"; "^"; "$"; "."; "["; "|"; "("; ")"; "?"; "*"; "+"; "{"]%char.

Fixpoint parse_loop (s : string) (top : frame) (stack : list frame) : parse_res :=
  match s with
  | EmptyString =>
      match stack with
      | [] => PROk (close_frame top)
      | _ :: _ => PRInvalid "missing closing parenthesis"
      end
  | String c r =>
      if Ascii.eqb c "(" then
        match r with
        | String d _ => if Ascii.eqb d "?" || Ascii.eqb d "*" then PRUnsupported
                        else parse_loop r ([], []) (top :: stack)
        | EmptyString => parse_loop r ([], []) (top :: stack)
        end
      else if Ascii.eqb c ")" then
        match stack with
        | [] => PRInvalid "unmatched closing parenthesis"
        | f :: st => parse_loop r (push (close_frame top) KAtom f) st
        end
      else if Ascii.eqb c "|" then
        parse_loop r (fst top ++ [build_seq (snd top)], []) stack
      else if is_quantifier c then
        match snd top with
        | [] => PRInvalid "quantifier does not follow a repeatable item"
        | It a KAtom :: rest => parse_loop r (fst top, It (quantify c a) KQuant :: rest) stack
        | It a KQuant :: rest =>
            if Ascii.eqb c "?" then parse_loop r (fst top, It a KDone :: rest) stack
            else PRUnsupported
        | It _ _ :: _ => PRUnsupported
        end
      else if Ascii.eqb c "[" || Ascii.eqb c "{" then PRUnsupported
      else if Ascii.eqb c "\" then
        match r with
        | EmptyString => PRInvalid "\ at end of pattern"
        | String d r' =>
            if is_alnum d then PRUnsupported
            else parse_loop r' (push (Chr d) KAtom top) stack
        end
      else if Ascii.eqb c "." then parse_loop r (push AnyNL KAtom top) stack
      else if Ascii.eqb c "^" then parse_loop r (push Bol KAnchor top) stack
      else if Ascii.eqb c "$" then parse_loop r (push Eol KAnchor top) stack
      else parse_loop r (push (Chr c) KAtom top) stack
  end.

(** [re.compile]-like entry point: the pattern as PCRE reads it. *)
Definition compile (q : string) : parse_res := parse_loop q ([], []) [].

(** The literal pattern of a string: its characters in sequence. *)
Definition lit (q : string) : re :=
  fold_right (fun c acc => mk_cat (Chr c) acc) Empty (list_ascii_of_string q).

Fixpoint no_meta (q : string) : bool :=
  match q with
  | EmptyString => true
  | String c r => negb (is_meta c) && no_meta r
  end.

(** ** Lemmas on the matcher *)

Lemma mk_cat_Empty_l r : mk_cat Empty r = r.
Proof. destruct r; reflexivity. Qed.

Lemma mk_cat_Void_l r : mk_cat Void r = Void.
Proof. reflexivity. Qed.

Lemma prefix_match_Void ci b s : prefix_match ci b Void s = false.
Proof. revert b; induction s; simpl; auto. Qed.

#[export] Hint Rewrite mk_cat_Empty_l mk_cat_Void_l prefix_match_Void : shop.

Lemma lit_cons c q :
  lit (String c q) = mk_cat (Chr c) (lit q).
Proof. reflexivity. Qed.

Lemma lit_not_Void q : lit q <> Void.
Proof.
  induction q as [|c q IH]; [discriminate|]. rewrite lit_cons.
  destruct (lit q); cbn; congruence.
Qed.

(** A literal head is never nullable, and consuming a character leaves the
    rest of the literal or nothing. *)
Lemma nullable_lit_cons b e c q : nullable b e (lit (String c q)) = false.
Proof.
  rewrite lit_cons. destruct (lit q); reflexivity.
Qed.

Lemma der_lit_cons ci b e a c q :
  der ci b e c (lit (String a q)) =
  if (if ci then ceq_ci a c else Ascii.eqb a c) then lit q else Void.
Proof.
  rewrite lit_cons. pose proof (lit_not_Void q).
  destruct (lit q) eqn:Hq; try contradiction;
    cbn [mk_cat der nullable andb];
    destruct (if ci then ceq_ci a c else Ascii.eqb a c); reflexivity.
Qed.

(** A caseless literal matches a prefix exactly when it is a caseless
    prefix. *)
Lemma prefix_match_lit q : forall b s, prefix_match true b (lit q) s = prefix_ci q s.
Proof.
  induction q as [|a q IH]; intros b s.
  - destruct s; reflexivity.
  - destruct s as [|c s]; cbn [prefix_match]; rewrite nullable_lit_cons; [reflexivity|].
    rewrite der_lit_cons. simpl. destruct (ceq_ci a c); simpl; [apply IH | apply prefix_match_Void].
Qed.

Lemma search_from_lit q : forall b s, search_from true b (lit q) s = contains_ci q s.
Proof.
  intros b s; revert b; induction s as [|c s IH]; intros b;
    cbn [search_from contains_ci]; rewrite prefix_match_lit; [reflexivity|].
  rewrite IH. reflexivity.
Qed.

(** ** Lemmas on the parser *)

Lemma parse_loop_lit_step c r top st :
  is_meta c = false ->
  parse_loop (String c r) top st = parse_loop r (push (Chr c) KAtom top) st.
Proof.
  intros H. unfold is_meta in H. cbn [existsb] in H.
  repeat match goal with H : _ || _ = false |- _ => apply orb_false_iff in H as [? H] end.
  cbn [parse_loop]. unfold is_quantifier.
  repeat match goal with H : Ascii.eqb c _ = false |- _ => rewrite H; clear H end.
  reflexivity.
Qed.

Definition lit_item (c : ascii) : item := It (Chr c) KAtom.

Lemma parse_loop_no_meta q : forall alts seq st,
  no_meta q = true ->
  parse_loop q (alts, seq) st =
  parse_loop EmptyString (alts, rev (map lit_item (list_ascii_of_string q)) ++ seq) st.
Proof.
  induction q as [|c q IH]; intros alts seq st H; [reflexivity|].
  cbn [no_meta] in H. apply andb_prop in H as [Hc Hq]. apply negb_true_iff in Hc.
  rewrite parse_loop_lit_step by exact Hc. unfold push; cbn [fst snd].
  rewrite IH by exact Hq. cbn [list_ascii_of_string map rev].
  rewrite <- app_assoc. reflexivity.
Qed.

Lemma build_seq_lit q :
  build_seq (rev (map lit_item (list_ascii_of_string q))) = lit q.
Proof.
  unfold build_seq, lit.
  rewrite <- (fold_left_rev_right (fun it acc => mk_cat (item_re it) acc)), rev_involutive.
  induction (list_ascii_of_string q) as [|c l IH]; simpl; [reflexivity | rewrite IH; reflexivity].
Qed.

(** A search string without metacharacter compiles to its literal. *)
Lemma compile_no_meta q : no_meta q = true -> compile q = PROk (lit q).
Proof.
  intros H. unfold compile. rewrite parse_loop_no_meta by exact H.
  cbn [parse_loop close_frame fst snd app mk_alts]. rewrite app_nil_r, build_seq_lit.
  reflexivity.
Qed.

(** ** Properties *)

(** C9: refinement of the spec's text search.  A search string [q] with no
    PCRE metacharacter compiles to the literal pattern of its characters,
    and the caseless search of that pattern in any field value is exactly
    the spec's case-insensitive substring test [contains_ci q]. *)
Theorem compile_no_meta_search q :
  no_meta q = true ->
  compile q = PROk (lit q) /\ forall s, regex_search true (lit q) s = contains_ci q s.
Proof.
  intros H. split; [exact (compile_no_meta q H) | intros s; apply search_from_lit].
Qed.

Lemma compile_no_meta_search_witness :
  compile "kitch" = PROk (lit "kitch") /\
  (forall s, regex_search true (lit "kitch") s = contains_ci "kitch" s).
Proof. apply compile_no_meta_search. reflexivity. Defined.

(** With a metacharacter the two differ: [q = "."] is the pattern
    "any character", which matches the field ["kitchen"], while ["."] is not
    a substring of it. *)
Example compile_meta_diverges :
  compile "." = PROk AnyNL /\ regex_search true AnyNL "kitchen" = true /\
  contains_ci "." "kitchen" = false.
Proof. repeat split; vm_compute; reflexivity. Qed.
