(* ===== verification/RegexSpec.v ===== *)
(** * The matcher of [Regex] against a declarative semantics

    [Regex.regex_search] decides by derivatives whether a pattern matches
    somewhere in a subject.  This file gives the reference the matcher is
    judged against: PCRE's meaning of the modelled syntax as an inductive
    relation [mat ci s r i j], "[r] matches the characters of [s] from
    position [i] to position [j]", where [^] holds at position 0, [$] at
    the end of the subject or before a final newline, [.] consumes any
    character but a newline, and literals compare up to ASCII case when
    [ci].  The theorem [regex_search_correct] shows that the matcher
    returns [true] exactly when such a match exists at some position of the
    subject; the lemmas on the way state the meaning of [nullable] and
    [der] in the same terms. *)

From Stdlib Require Import List String Ascii Bool Lia Arith.
From S2P Require Import Prelude Regex.
Import ListNotations.
Open Scope shop_scope.

(** The suffix of [s] from position [n]. *)
Fixpoint sdrop (n : nat) (s : string) : string :=
  match n, s with
  | 0, _ => s
  | S n', String _ s' => sdrop n' s'
  | S _, EmptyString => EmptyString
  end.

(** Character comparison of a literal, caseless when [ci]. *)
Definition chr_eq (ci : bool) (a c : ascii) : bool :=
  if ci then ceq_ci a c else Ascii.eqb a c.

Lemma sdrop_nil s i :
  sdrop i s = EmptyString -> String.length s <= i /\ String.get i s = None.
Proof.
  revert s; induction i as [|i IH]; intros [|d s'] H; cbn in *; try discriminate;
    [split; [lia | reflexivity] | split; [lia | reflexivity] |].
  destruct (IH s' H); split; [lia | assumption].
Qed.

Lemma sdrop_cons s i c r :
  sdrop i s = String c r ->
  String.get i s = Some c /\ sdrop (S i) s = r /\ i < String.length s.
Proof.
  revert s; induction i as [|i IH]; intros [|d s'] H; cbn in *; try discriminate.
  - injection H as -> ->. split; [reflexivity | split; [destruct r; reflexivity | lia]].
  - destruct (IH s' H) as (? & ? & ?). repeat split; auto; lia.
Qed.

Section Semantics.
Variable ci : bool.
Variable s : string.

Inductive mat : re -> nat -> nat -> Prop :=
| MEmpty i : mat Empty i i
| MChr a c i : String.get i s = Some c -> chr_eq ci a c = true -> mat (Chr a) i (S i)
| MAny c i : String.get i s = Some c -> is_newline c = false -> mat AnyNL i (S i)
| MBol : mat Bol 0 0
| MEol i : at_eol (sdrop i s) = true -> mat Eol i i
| MCat r1 r2 i k j : mat r1 i k -> mat r2 k j -> mat (Cat r1 r2) i j
| MAltL r1 r2 i j : mat r1 i j -> mat (Alt r1 r2) i j
| MAltR r1 r2 i j : mat r2 i j -> mat (Alt r1 r2) i j
| MStar0 r i : mat (Star r) i i
| MStarS r i k j : mat r i k -> mat (Star r) k j -> mat (Star r) i j.

Hint Constructors mat : core.

(** The context the matcher passes at position [i]. *)
Definition bol_at (i : nat) : bool := Nat.eqb i 0.
Definition eol_at (i : nat) : bool := at_eol (sdrop i s).

(** ** Structure of matches *)

Lemma mat_le r i j : mat r i j -> i <= j.
Proof. induction 1; lia. Qed.

Lemma mat_Void i j : ~ mat Void i j.
Proof. inversion 1. Qed.

Lemma mat_Empty i j : mat Empty i j <-> i = j.
Proof. split; [inversion 1; reflexivity | intros ->; constructor]. Qed.

(** A match that consumes something starts on a character of [s]. *)
Lemma mat_char r i j : mat r i j -> i < j -> exists c, String.get i s = Some c.
Proof.
  induction 1; intros Hlt; try lia; eauto.
  - destruct (Nat.eq_dec i k) as [->|]; [auto|].
    pose proof (mat_le _ _ _ H). apply IHmat1; lia.
  - destruct (Nat.eq_dec i k) as [->|]; [auto|].
    pose proof (mat_le _ _ _ H). apply IHmat1; lia.
Qed.

(** A repetition that consumes something has a first iteration that does. *)
Lemma mat_Star_inv r i j :
  mat (Star r) i j -> i < j -> exists k, i < k /\ mat r i k /\ mat (Star r) k j.
Proof.
  remember (Star r) as x eqn:Hx. induction 1; inversion Hx; subst; intros Hlt; [lia|].
  destruct (Nat.eq_dec i k) as [->|Hne]; [apply IHmat2; auto|].
  pose proof (mat_le _ _ _ H). exists k; repeat split; auto; lia.
Qed.

Lemma mat_Cat_inv r1 r2 i j : mat (Cat r1 r2) i j -> exists k, mat r1 i k /\ mat r2 k j.
Proof. inversion 1; eauto. Qed.

Lemma mat_Alt_inv r1 r2 i j : mat (Alt r1 r2) i j <-> mat r1 i j \/ mat r2 i j.
Proof. split; [inversion 1; auto | intros [|]; auto]. Qed.

(** The smart constructors keep the meaning. *)
Lemma mat_mk_cat r1 r2 i j : mat (mk_cat r1 r2) i j <-> mat (Cat r1 r2) i j.
Proof.
  assert (Hl : forall r, mat r i j <-> mat (Cat Empty r) i j).
  { intros r; split; [eauto | intros H; apply mat_Cat_inv in H as (k & Hk & ?);
      apply mat_Empty in Hk; subst; auto]. }
  assert (Hr : forall r, mat r i j <-> mat (Cat r Empty) i j).
  { intros r; split; [eauto | intros H; apply mat_Cat_inv in H as (k & ? & Hk);
      apply mat_Empty in Hk; subst; auto]. }
  assert (Hv : forall r, ~ mat (Cat Void r) i j /\ ~ mat (Cat r Void) i j).
  { intros r; split; intros H; apply mat_Cat_inv in H as (k & H1 & H2);
      [exact (mat_Void _ _ H1) | exact (mat_Void _ _ H2)]. }
  destruct r1, r2; cbn [mk_cat];
    solve [reflexivity | apply Hl | apply Hr
          | split; [intros H; destruct (mat_Void _ _ H) | intros H; apply Hv in H as []]].
Qed.

Lemma mat_mk_alt r1 r2 i j : mat (mk_alt r1 r2) i j <-> mat r1 i j \/ mat r2 i j.
Proof.
  pose proof (mat_Void i j) as Hv.
  destruct r1, r2; cbn [mk_alt]; rewrite ?mat_Alt_inv; tauto.
Qed.

(** ** The meaning of [nullable] and [der] *)

Lemma nullable_correct r i :
  nullable (bol_at i) (eol_at i) r = true <-> mat r i i.
Proof.
  induction r; cbn [nullable]; unfold bol_at, eol_at in *.
  - split; [discriminate | intros H; destruct (mat_Void _ _ H)].
  - split; auto.
  - split; [discriminate | inversion 1; lia].
  - split; [discriminate | inversion 1; lia].
  - split; [intros H; apply Nat.eqb_eq in H; subst; auto | inversion 1; reflexivity].
  - split; [auto | inversion 1; assumption].
  - rewrite andb_true_iff, IHr1, IHr2. split; [intros []; eauto|].
    intros H; apply mat_Cat_inv in H as (k & H1 & H2).
    pose proof (mat_le _ _ _ H1); pose proof (mat_le _ _ _ H2).
    assert (k = i) by lia; subst; auto.
  - rewrite orb_true_iff, IHr1, IHr2, mat_Alt_inv. reflexivity.
  - split; auto.
Qed.

Lemma der_correct r i c j :
  String.get i s = Some c ->
  mat (der ci (bol_at i) (eol_at i) c r) (S i) j <-> mat r i j /\ i < j.
Proof.
  intros Hc. revert j. induction r; intros j; cbn [der].
  - split; [intros H; destruct (mat_Void _ _ H) | intros [H _]; destruct (mat_Void _ _ H)].
  - split; [intros H; destruct (mat_Void _ _ H) | intros [H ?]; inversion H; lia].
  - fold (chr_eq ci c0 c). destruct (chr_eq ci c0 c) eqn:Ea.
    + rewrite mat_Empty. split; [intros <-; split; [econstructor; eauto | lia]|].
      intros [H _]; inversion H; reflexivity.
    + split; [intros H; destruct (mat_Void _ _ H)|].
      intros [H _]; inversion H; subst. congruence.
  - destruct (is_newline c) eqn:En.
    + split; [intros H; destruct (mat_Void _ _ H)|].
      intros [H _]; inversion H; subst. congruence.
    + rewrite mat_Empty. split; [intros <-; split; [econstructor; eauto | lia]|].
      intros [H _]; inversion H; reflexivity.
  - split; [intros H; destruct (mat_Void _ _ H) | intros [H ?]; inversion H; lia].
  - split; [intros H; destruct (mat_Void _ _ H) | intros [H ?]; inversion H; lia].
  - assert (Hd : mat (mk_cat (der ci (bol_at i) (eol_at i) c r1) r2) (S i) j <->
                 exists k, mat r1 i k /\ i < k /\ mat r2 k j).
    { rewrite mat_mk_cat. split.
      - intros H; apply mat_Cat_inv in H as (k & H1 & H2). apply IHr1 in H1 as [? ?]. eauto.
      - intros (k & H1 & Hk & H2). econstructor; [apply IHr1; split|]; eauto. }
    destruct (nullable (bol_at i) (eol_at i) r1) eqn:En.
    + rewrite mat_mk_alt, Hd, IHr2. apply nullable_correct in En. split.
      * intros [(k & H1 & Hk & H2)|[H2 Hj]]; split; eauto.
        pose proof (mat_le _ _ _ H2); lia.
      * intros [H Hj]; apply mat_Cat_inv in H as (k & H1 & H2).
        destruct (Nat.eq_dec i k) as [<-|]; [right; auto | left; exists k].
        pose proof (mat_le _ _ _ H1); repeat split; auto; lia.
    + rewrite Hd. split.
      * intros (k & H1 & Hk & H2); split; eauto. pose proof (mat_le _ _ _ H2); lia.
      * intros [H Hj]; apply mat_Cat_inv in H as (k & H1 & H2). exists k.
        destruct (Nat.eq_dec i k) as [<-|]; [apply nullable_correct in H1; congruence|].
        pose proof (mat_le _ _ _ H1); repeat split; auto; lia.
  - rewrite mat_mk_alt, IHr1, IHr2, mat_Alt_inv. tauto.
  - rewrite mat_mk_cat. split.
    + intros H; apply mat_Cat_inv in H as (k & H1 & H2). apply IHr in H1 as [? ?].
      pose proof (mat_le _ _ _ H2). split; eauto; lia.
    + intros [H Hj]. destruct (mat_Star_inv _ _ _ H Hj) as (k & Hk & H1 & H2).
      econstructor; [apply IHr; split|]; eauto.
Qed.

(** ** The matcher decides [mat] *)

Lemma prefix_match_correct rest : forall i r,
  sdrop i s = rest ->
  prefix_match ci (bol_at i) r rest = true <-> exists j, mat r i j.
Proof.
  induction rest as [|c rest IH]; intros i r Hi; cbn [prefix_match];
    replace (at_eol _) with (eol_at i) by (unfold eol_at; rewrite Hi; reflexivity).
  - rewrite orb_false_r, nullable_correct. split; [eauto|].
    intros [j Hj]. destruct (sdrop_nil _ _ Hi) as [_ Hg].
    destruct (Nat.eq_dec i j) as [<-|]; [exact Hj|].
    pose proof (mat_le _ _ _ Hj). destruct (mat_char r i j) as [? ?]; auto; [lia | congruence].
  - destruct (sdrop_cons _ _ _ _ Hi) as (Hc & Hr & _).
    change false with (bol_at (S i)). rewrite orb_true_iff, nullable_correct, IH by exact Hr.
    split.
    + intros [H|[j Hj]]; [eauto | apply (der_correct r i c j Hc) in Hj as [? _]; eauto].
    + intros [j Hj]. destruct (Nat.eq_dec i j) as [<-|]; [left; exact Hj | right; exists j].
      apply der_correct; [exact Hc | split; [exact Hj | pose proof (mat_le _ _ _ Hj); lia]].
Qed.

Lemma search_from_correct rest : forall i r,
  sdrop i s = rest -> i <= String.length s ->
  search_from ci (bol_at i) r rest = true <->
  exists k j, i <= k <= String.length s /\ mat r k j.
Proof.
  induction rest as [|c rest IH]; intros i r Hi Hle; cbn [search_from];
    rewrite orb_true_iff, (prefix_match_correct _ i r Hi).
  - destruct (sdrop_nil _ _ Hi) as [Hl _]. split.
    + intros [[j Hj]|Hf]; [|discriminate]. exists i, j. split; [lia | exact Hj].
    + intros (k & j & Hk & Hj). left. exists j. replace i with k by lia. exact Hj.
  - destruct (sdrop_cons _ _ _ _ Hi) as (_ & Hr & Hl).
    change false with (bol_at (S i)). rewrite (IH (S i) r Hr) by lia. split.
    + intros [[j Hj]|(k & j & Hk & Hj)];
        [exists i, j; split; [lia | exact Hj] | exists k, j; split; [lia | exact Hj]].
    + intros (k & j & Hk & Hj).
      destruct (Nat.eq_dec i k) as [<-|]; [left; eauto | right; exists k, j; split; [lia | exact Hj]].
Qed.

End Semantics.

(** The derivative matcher is correct with respect to PCRE's meaning of
    the modelled syntax: an unanchored search succeeds exactly when the
    pattern matches between two positions of the subject, the first one
    within the subject, with [^], [$], [.] and caseless literals evaluated
    at the positions where they occur. *)
Theorem regex_search_correct ci r s :
  regex_search ci r s = true <-> exists i j, i <= String.length s /\ mat ci s r i j.
Proof.
  unfold regex_search. change true with (bol_at 0).
  rewrite (search_from_correct ci s s 0 r eq_refl) by lia.
  split; intros (i & j & Hi & Hj); exists i, j; split; auto; lia.
Qed.
