(* ===== verification/RegexPrint.v ===== *)
(** * The pattern parser against the meaning of patterns

    [Regex.compile] reads a [$regex] pattern the way PCRE does.  This file
    checks the parser against the declarative semantics of [RegexSpec]: a
    printer [print] writes any pattern of the modelled syntax as PCRE text
    (each construct in a group, metacharacters escaped), and
    [compile_print] shows that compiling the text gives back a pattern
    with the same matches.  Together with [regex_search_correct], every
    pattern of the modelled syntax can be written in [q] and is searched
    with its PCRE meaning. *)

From Stdlib Require Import List String Ascii Bool Lia Setoid Morphisms.
From S2P Require Import Prelude Regex RegexSpec.
Import ListNotations.
Open Scope string_scope.
Open Scope shop_scope.

(** [Void] has no PCRE text in the modelled syntax. *)
Fixpoint no_void (r : re) : bool :=
  match r with
  | Void => false
  | Cat r1 r2 | Alt r1 r2 => no_void r1 && no_void r2
  | Star r1 => no_void r1
  | _ => true
  end.

(** A literal character, escaped when it is a metacharacter. *)
Definition esc (c : ascii) : string :=
  if is_meta c then String "\" (String c EmptyString) else String c EmptyString.

Fixpoint print (r : re) : string :=
  match r with
  | Void => "[]"
  | Empty => "()"
  | Chr c => "(" ++ esc c ++ ")"
  | AnyNL => "(.)"
  | Bol => "(^)"
  | Eol => "($)"
  | Cat r1 r2 => "(" ++ print r1 ++ print r2 ++ ")"
  | Alt r1 r2 => "(" ++ print r1 ++ "|" ++ print r2 ++ ")"
  | Star r1 => "(" ++ print r1 ++ "*)"
  end.

(** ** Equivalence of patterns

    Two patterns are equivalent when they have the same matches on every
    subject, caseless or not.  It is a congruence for the constructors, so
    the proofs below rewrite with it. *)

Definition re_equiv (r r' : re) : Prop := forall ci s i j, mat ci s r i j <-> mat ci s r' i j.

#[export] Instance re_equiv_equivalence : Equivalence re_equiv.
Proof.
  split; [intros r ci s i j; reflexivity | intros r r' H ci s i j; symmetry; apply H |].
  intros r1 r2 r3 H1 H2 ci s i j. rewrite (H1 ci s i j). apply H2.
Qed.

#[export] Instance mat_proper ci s : Proper (re_equiv ==> eq ==> eq ==> iff) (mat ci s).
Proof. intros r r' H i _ <- j _ <-. apply H. Qed.

#[export] Instance Cat_proper : Proper (re_equiv ==> re_equiv ==> re_equiv) Cat.
Proof.
  intros a a' Ha b b' Hb ci s i j.
  split; intros H; apply mat_Cat_inv in H as (k & H1 & H2);
    econstructor; [apply Ha | apply Hb | apply Ha | apply Hb]; eassumption.
Qed.

#[export] Instance Alt_proper : Proper (re_equiv ==> re_equiv ==> re_equiv) Alt.
Proof. intros a a' Ha b b' Hb ci s i j. rewrite !mat_Alt_inv, (Ha ci s i j), (Hb ci s i j). reflexivity. Qed.

#[export] Instance Star_proper : Proper (re_equiv ==> re_equiv) Star.
Proof.
  assert (Hd : forall a a', re_equiv a a' -> forall ci s i j, mat ci s (Star a) i j -> mat ci s (Star a') i j).
  { intros x x' Hx ci s i j H. remember (Star x) as y eqn:Hy.
    induction H; inversion Hy; subst; [constructor | econstructor; [apply Hx; eassumption | auto]]. }
  intros a a' Ha ci s i j. split; apply Hd; [exact Ha | symmetry; exact Ha].
Qed.

Lemma mk_cat_equiv a b : re_equiv (mk_cat a b) (Cat a b).
Proof. intros ci s i j. apply mat_mk_cat. Qed.

Lemma mk_alt_equiv a b : re_equiv (mk_alt a b) (Alt a b).
Proof. intros ci s i j. rewrite mat_mk_alt, mat_Alt_inv. reflexivity. Qed.

Lemma Cat_Empty_r r : re_equiv (Cat r Empty) r.
Proof.
  intros ci s i j. split; [|eauto using mat].
  intros H. apply mat_Cat_inv in H as (k & H1 & H2). apply mat_Empty in H2. subst. exact H1.
Qed.

(** ** The parser on printed text *)

Lemma is_meta_not_alnum c : is_meta c = true -> is_alnum c = false.
Proof. destruct c as [[] [] [] [] [] [] [] []]; intros H; vm_compute in H; try discriminate; reflexivity. Qed.

Lemma parse_loop_esc c w top st :
  parse_loop (esc c ++ w) top st = parse_loop w (push (Chr c) KAtom top) st.
Proof.
  unfold esc. destruct (is_meta c) eqn:Hm.
  - cbn [append parse_loop Ascii.eqb]. rewrite (is_meta_not_alnum c Hm). reflexivity.
  - apply parse_loop_lit_step. exact Hm.
Qed.

(** The first character of a printed pattern's body is never one that
    would make [(] open a [(?] or [( *] group. *)
Definition opens_plain (w : string) : bool :=
  match w with String d _ => negb (Ascii.eqb d "?" || Ascii.eqb d "*") | EmptyString => true end.

Lemma parse_loop_open w top st :
  opens_plain w = true -> parse_loop (String "(" w) top st = parse_loop w ([], []) (top :: st).
Proof.
  intros Hw. cbn [parse_loop Ascii.eqb Bool.eqb]. destruct w as [|d w']; [reflexivity|].
  cbn [opens_plain] in Hw. apply negb_true_iff in Hw. rewrite Hw. reflexivity.
Qed.

Lemma opens_plain_print r w : opens_plain (print r ++ w) = true.
Proof. destruct r; reflexivity. Qed.

Lemma opens_plain_esc c w : opens_plain (esc c ++ w) = true.
Proof.
  unfold esc. destruct (is_meta c) eqn:Hm; [reflexivity|]. cbn [append opens_plain].
  assert (Hne : forall m, is_meta m = true -> Ascii.eqb c m = false).
  { intros m Hmm. destruct (Ascii.eqb_spec c m) as [->|]; [congruence | reflexivity]. }
  rewrite (Hne "?"%char), (Hne "*"%char) by reflexivity. reflexivity.
Qed.

(** Reading a printed pattern pushes one atom equivalent to it. *)
Lemma parse_print r : no_void r = true -> forall w top st,
  exists R, re_equiv R r /\ parse_loop (print r ++ w) top st = parse_loop w (push R KAtom top) st.
Proof.
  induction r as [| |c| | | | r1 IH1 r2 IH2 | r1 IH1 r2 IH2 | r1 IH1]; cbn [no_void];
    intros Hv w top st; try discriminate; cbn [print].
  - exists Empty. split; reflexivity.
  - exists (Chr c). split; [reflexivity|]. rewrite !string_app_assoc.
    cbn [append]. rewrite parse_loop_open by apply opens_plain_esc.
    rewrite parse_loop_esc. reflexivity.
  - exists AnyNL. split; reflexivity.
  - exists Bol. split; reflexivity.
  - exists Eol. split; reflexivity.
  - apply andb_prop in Hv as [Hv1 Hv2]. cbn [append].
    rewrite parse_loop_open by (rewrite !string_app_assoc; apply opens_plain_print).
    rewrite !string_app_assoc.
    destruct (IH1 Hv1 (print r2 ++ ")" ++ w) ([], []) (top :: st)) as (R1 & E1 & ->).
    destruct (IH2 Hv2 (")" ++ w) (push R1 KAtom ([], [])) (top :: st)) as (R2 & E2 & ->).
    exists (mk_cat R1 (mk_cat R2 Empty)). split; [|reflexivity].
    rewrite !mk_cat_equiv, Cat_Empty_r, E1, E2. reflexivity.
  - apply andb_prop in Hv as [Hv1 Hv2]. cbn [append].
    rewrite parse_loop_open by (rewrite !string_app_assoc; apply opens_plain_print).
    rewrite !string_app_assoc.
    match goal with |- context [parse_loop (print r1 ++ ?x) ?f ?s] =>
      destruct (IH1 Hv1 x f s) as (R1 & E1 & ->) end.
    cbn [append]. rewrite !string_app_assoc. simpl parse_loop.
    match goal with |- context [parse_loop (print r2 ++ ?x) ?f ?s] =>
      destruct (IH2 Hv2 x f s) as (R2 & E2 & ->) end.
    exists (mk_alt (mk_cat R1 Empty) (mk_cat R2 Empty)). split; [|reflexivity].
    rewrite mk_alt_equiv, !mk_cat_equiv, !Cat_Empty_r, E1, E2. reflexivity.
  - cbn [append]. rewrite parse_loop_open by (rewrite !string_app_assoc; apply opens_plain_print).
    rewrite !string_app_assoc.
    destruct (IH1 Hv ("*)" ++ w) ([], []) (top :: st)) as (R1 & E1 & ->).
    exists (Star R1). split; [rewrite E1; reflexivity | reflexivity].
Qed.

Lemma string_app_nil_r (s : string) : (s ++ "")%string = s.
Proof. induction s as [|c s IH]; cbn; [reflexivity | rewrite IH; reflexivity]. Qed.

(** Compiling a printed pattern gives back a pattern with the same
    matches. *)
Theorem compile_print r :
  no_void r = true -> exists R, compile (print r) = PROk R /\ re_equiv R r.
Proof.
  intros Hv. unfold compile. rewrite <- (string_app_nil_r (print r)).
  destruct (parse_print r Hv "" ([], []) []) as (R & E & ->).
  exists (mk_cat R Empty). split; [reflexivity|].
  rewrite mk_cat_equiv, Cat_Empty_r. exact E.
Qed.
