(* ===== verification/Filter.v ===== *)
(** * The meaning of a Mongo filter document

    [list_products] and [get_product] hand Python dicts to the store as
    query filters.  The server (not in [src/]) gives them their meaning;
    this file models it from MongoDB's documented query semantics, for the
    operators this program produces: a top-level filter is a conjunction of
    its entries; [{"$or": [f1, ...]}] holds when one of the [fi] holds;
    [{field: {"$regex": q, "$options": o}}] holds when the field is a string
    the pattern matches; [{field: v}] holds when the field equals [v] (a
    missing field equals [None]).  Other operators are outside the model.

    The regular-expression engine is an interface, [RegexEngine]: the store
    needs only [re_check] (does the pattern compile) and [re_match].  Its
    laws, [RegexEngineLaws], tie it to the PCRE model of [Regex] on the
    modelled syntax; [pcre_engine] is an instance. *)

From Stdlib Require Import ZArith List String Ascii Bool Lia Floats.
From S2P Require Import Prelude Python Regex.
Import ListNotations.
Open Scope string_scope.
Open Scope shop_scope.

(** ** The regular-expression engine *)

Class RegexEngine : Type := {
  re_check : string -> string -> option string;
  re_match : string -> string -> string -> bool
}.

(** The option string ["i"] asks for caseless matching. *)
Definition options_ci (o : string) : bool := String.eqb o "i".

Class RegexEngineLaws `{RegexEngine} : Prop := {
  re_check_ok : forall q o r, compile q = PROk r -> re_check q o = None;
  re_check_invalid : forall q o m, compile q = PRInvalid m -> re_check q o = Some m;
  re_match_ok : forall q o r s, compile q = PROk r ->
    re_match q o s = regex_search (options_ci o) r s
}.

(** The engine of the PCRE model: what [Regex] does not model compiles and
    matches nothing. *)
#[export] Instance pcre_engine : RegexEngine := {
  re_check q o := match compile q with PRInvalid m => Some m | _ => None end;
  re_match q o s := match compile q with PROk r => regex_search (options_ci o) r s | _ => false end
}.

#[export] Instance pcre_engine_laws : RegexEngineLaws.
Proof.
  split; intros q o; simpl.
  - intros r ->. reflexivity.
  - intros m ->. reflexivity.
  - intros r s ->. reflexivity.
Qed.

(** ** Equality of stored values

    [{field: v}] for the scalar values this program puts in a filter:
    strings, ids, booleans, [None] and numbers of the same type. *)
Definition value_eqb (v w : value) : bool :=
  match v, w with
  | VNone, VNone => true
  | VBool a, VBool b => Bool.eqb a b
  | VInt a, VInt b => Z.eqb a b
  | VFloat a, VFloat b => PrimFloat.eqb a b
  | VStr a, VStr b => String.eqb a b
  | VOid a, VOid b => bytes_eqb a b
  | _, _ => false
  end.

Section Semantics.
Context `{RegexEngine}.

(** [{field: cond}] against a document. *)
Definition field_matches (k : string) (cond : value) (d : dict) : bool :=
  match cond with
  | VDict ops =>
      match dict_get "$regex" ops with
      | Some (VStr q) =>
          let o := match dict_get "$options" ops with Some (VStr o) => o | _ => EmptyString end in
          match dict_get k d with
          | Some (VStr s) => re_match q o s
          | _ => false
          end
      | _ => match dict_get k d with Some w => value_eqb cond w | None => false end
      end
  | _ => match dict_get k d with Some w => value_eqb cond w | None => value_eqb cond VNone end
  end.

(** A filter document against a document.  The recursion is on the filter
    as a value, so that the filters nested in an [$or] are subterms. *)
Fixpoint matches_v (fv : value) (d : dict) {struct fv} : bool :=
  match fv with
  | VDict f =>
      (fix go (f : list (string * value)) : bool :=
         match f with
         | [] => true
         | (k, cond) :: rest =>
             (if String.eqb k "$or" then
                match cond with
                | VList fs =>
                    (fix any (fs : list value) : bool :=
                       match fs with
                       | [] => false
                       | g :: fs' =>
                           match g with VDict _ => matches_v g d | _ => false end || any fs'
                       end) fs
                | _ => false
                end
              else field_matches k cond d) && go rest
         end) f
  | _ => false
  end.

Definition matches (f : dict) (d : dict) : bool := matches_v (VDict f) d.

(** The error the server reports for a filter, before looking at any
    document: a pattern that does not compile (["Regular expression is
    invalid: "] and PCRE's message), or a malformed [$or]. *)
Fixpoint filter_error_v (fv : value) {struct fv} : option string :=
  match fv with
  | VDict f =>
      (fix go (f : list (string * value)) : option string :=
         match f with
         | [] => None
         | (k, cond) :: rest =>
             match
               (if String.eqb k "$or" then
                  match cond with
                  | VList [] => Some "$and/$or/$nor must be a nonempty array"
                  | VList fs =>
                      (fix first (fs : list value) : option string :=
                         match fs with
                         | [] => None
                         | g :: fs' =>
                             match g with
                             | VDict _ =>
                                 match filter_error_v g with
                                 | Some m => Some m
                                 | None => first fs'
                                 end
                             | _ => Some "$or/$and/$nor entries need to be full objects"
                             end
                         end) fs
                  | _ => Some "$or must be an array"
                  end
                else
                  match cond with
                  | VDict ops =>
                      match dict_get "$regex" ops with
                      | Some (VStr q) =>
                          match re_check q (match dict_get "$options" ops with
                                            | Some (VStr o) => o | _ => EmptyString end) with
                          | Some m => Some ("Regular expression is invalid: " ++ m)
                          | None => None
                          end
                      | _ => None
                      end
                  | _ => None
                  end)
             with
             | Some m => Some m
             | None => go rest
             end
         end) f
  | _ => None
  end.

Definition filter_error (f : dict) : option string := filter_error_v (VDict f).

End Semantics.

Arguments field_matches : simpl never.
