(* ===== verification/Pricing.v ===== *)
(** * The order pricing engine of [create_order]

    [src/main.py] lines 82-86:
<<
        subtotal = sum(item.price * item.quantity for item in body.items)
        total = subtotal + (body.shipping or 0)
        payload = body.model_dump()
        payload["subtotal"] = subtotal
        payload["total"] = total
>>
    over the request schemas [OrderItem] and [Order] (the [schemas] module
    is not in [src/]; its fields are the spec's, section 3).  Prices are
    pydantic [float]s, quantities Python [int]s, so every line amount is a
    binary64 product and the subtotal is the builtin [sum] of those floats.

    The file also states the spec's exact contract (rational arithmetic on
    the values the floats denote) and where the code departs from it. *)

From Stdlib Require Import ZArith List String Bool Lia Floats QArith.
From S2P Require Import Prelude Python.
Import ListNotations.
Open Scope string_scope.
Open Scope shop_scope.

(** ** Request schemas *)

Record OrderItem : Type := mkItem {
  product_id : string;
  price : float;
  quantity : Z
}.

Record Order : Type := mkOrder {
  items : list OrderItem;
  shipping : option float;
  subtotal_in : option float;
  total_in : option float
}.

Definition opt_float (o : option float) : value :=
  match o with None => VNone | Some f => VFloat f end.

(** [item.model_dump()]. *)
Definition item_dump (it : OrderItem) : value :=
  VDict [("product_id", VStr (product_id it));
         ("price", VFloat (price it));
         ("quantity", VInt (quantity it))].

(** [body.model_dump()], in the schema's field order. *)
Definition order_dump (o : Order) : dict :=
  [("items", VList (map item_dump (items o)));
   ("shipping", opt_float (shipping o));
   ("subtotal", opt_float (subtotal_in o));
   ("total", opt_float (total_in o))].

(** ** The computation *)

(** [item.price * item.quantity]: [float.__mul__] converts the [int]
    quantity with [float(int)] and multiplies in binary64. *)
Definition item_amount (it : OrderItem) : py float :=
  q <- float_of_int (quantity it) ;; Ok (price it * q)%float.

(** [body.shipping or 0]: [None], [0.0] and [-0.0] give the [int] [0]. *)
Definition shipping_or_zero (s : option float) : pynum :=
  match s with
  | None => PInt 0
  | Some f => if truthy_num (PFloat f) then PFloat f else PInt 0
  end.

(** Lines 82-83: the pair [(subtotal, total)], or the exception the
    generator or the addition raises. *)
Definition order_totals (v : pyversion) (o : Order) : py (pynum * pynum) :=
  xs <- map_result item_amount (items o) ;;
  let sub := py_sum_floats v xs in
  tot <- py_add sub (shipping_or_zero (shipping o)) ;;
  Ok (sub, tot).

(** Lines 84-86: the document that is persisted. *)
Definition order_payload (o : Order) (sub tot : pynum) : dict :=
  dict_set "total" (value_of_num tot)
    (dict_set "subtotal" (value_of_num sub) (order_dump o)).

(** ** The spec's exact contract

    The rational a finite float denotes, and the subtotal the spec asks
    for: [sum price_i * quantity_i] computed exactly. *)
Definition Q_of_float (f : float) : option Q :=
  match FloatOps.Prim2SF f with
  | SpecFloat.S754_zero _ => Some 0%Q
  | SpecFloat.S754_finite s m e =>
      let n := if s then Z.neg m else Z.pos m in
      Some (if (0 <=? e)%Z then inject_Z (n * 2 ^ e)
            else Qmake n (Pos.pow 2 (Z.to_pos (- e))))
  | _ => None
  end.

Fixpoint spec_subtotal (l : list OrderItem) : option Q :=
  match l with
  | [] => Some 0%Q
  | it :: r =>
      match Q_of_float (price it), spec_subtotal r with
      | Some p, Some s => Some (p * inject_Z (quantity it) + s)%Q
      | _, _ => None
      end
  end.

(** ** Helper lemmas *)

(** The payload keeps [model_dump]'s keys, in their order. *)
Lemma order_payload_keys o sub tot :
  map fst (order_payload o sub tot) = ["items"; "shipping"; "subtotal"; "total"].
Proof. reflexivity. Qed.

(** [item_amount] is Python's [*] on a [float] and an [int]. *)
Lemma item_amount_py_mul it :
  py_mul (PFloat (price it)) (PInt (quantity it))
  = (f <- item_amount it ;; Ok (PFloat f)).
Proof.
  unfold item_amount; simpl. destruct (float_of_int (quantity it)); reflexivity.
Qed.

(** Adding [+0.0] on the left of a non-zero float gives it back
    ([0.0 + x] in the first step of [sum] and of [0 + shipping]). *)
Lemma add_zero_l_nonzero (f : float) :
  (f =? 0)%float = false -> (0 + f)%float = f.
Proof.
  intros Hz. apply FloatAxioms.Prim2SF_inj.
  rewrite FloatAxioms.add_spec.
  rewrite FloatAxioms.eqb_spec in Hz.
  destruct (FloatOps.Prim2SF f) as [[]|[]| |[] m e] eqn:E;
    vm_compute in Hz |- *; try reflexivity; discriminate.
Qed.

Lemma float_of_int_0 : float_of_int 0 = Ok 0%float.
Proof. vm_compute. reflexivity. Qed.

Lemma shipping_or_zero_cases s :
  shipping_or_zero s = PInt 0 \/
  exists f, s = Some f /\ (f =? 0)%float = false /\ shipping_or_zero s = PFloat f.
Proof.
  destruct s as [f|]; simpl; [|left; reflexivity].
  destruct (f =? 0)%float eqn:E; simpl; [left; reflexivity | right; eauto].
Qed.

(** The sum of a generator of floats is a float, or the [int] [0] when it
    is empty. *)
Lemma py_sum_floats_shape v xs :
  (xs = [] /\ py_sum_floats v xs = PInt 0) \/
  exists f, py_sum_floats v xs = PFloat f.
Proof. destruct xs; simpl; [left; auto | right; eauto]. Qed.

(** Adding [shipping or 0] to a subtotal never raises: the only [int]
    involved is [0]. *)
Lemma py_add_subtotal_ok v xs s :
  exists t, py_add (py_sum_floats v xs) (shipping_or_zero s) = Ok t.
Proof.
  destruct (py_sum_floats_shape v xs) as [[_ ->]|[f ->]];
    destruct (shipping_or_zero_cases s) as [->|(g & _ & _ & ->)]; simpl;
    try rewrite float_of_int_0; simpl; eauto.
Qed.

Lemma float_of_int_err z e :
  float_of_int z = Err e -> e = OverflowError "int too large to convert to float".
Proof.
  unfold float_of_int. destruct (SpecFloat.binary_normalize _ _ _ _ _);
    intros H; inversion H; reflexivity.
Qed.

Lemma map_result_item_amount_err l e :
  map_result item_amount l = Err e ->
  e = OverflowError "int too large to convert to float" /\
  exists it, In it l /\ is_ok (float_of_int (quantity it)) = false.
Proof.
  induction l as [|it r IH]; simpl; [discriminate|].
  unfold item_amount at 1. destruct (float_of_int (quantity it)) eqn:Hf; simpl.
  - destruct (map_result item_amount r); simpl; [discriminate|].
    intros H; injection H as <-. destruct (IH eq_refl) as [He (it' & Hin & Hit)].
    split; [exact He | exists it'; auto].
  - intros H; injection H as <-. split; [exact (float_of_int_err _ _ Hf)|].
    exists it. rewrite Hf. auto.
Qed.

(** ** Properties *)

Local Set Warnings "-inexact-float".

(** C2: the persisted order carries the subtotal and total computed on the
    server, whatever [subtotal] and [total] the client sent; the items and
    the shipping are persisted as sent, and the payload keeps
    [model_dump]'s keys in their order (the client's fields are overwritten
    in place). *)
Theorem order_payload_authoritative o sub tot :
  let p := order_payload o sub tot in
  dict_get "subtotal" p = Some (value_of_num sub) /\
  dict_get "total" p = Some (value_of_num tot) /\
  dict_get "items" p = Some (VList (map item_dump (items o))) /\
  dict_get "shipping" p = Some (opt_float (shipping o)) /\
  map fst p = ["items"; "shipping"; "subtotal"; "total"].
Proof. repeat split; reflexivity. Qed.

(** C4: an order with no items has subtotal the [int] [0] and total
    [shipping or 0]: the shipping itself when it is a non-zero float, [0]
    when it is absent or zero; no error is raised. *)
Theorem order_totals_empty v o :
  items o = [] ->
  order_totals v o = Ok (PInt 0, shipping_or_zero (shipping o)).
Proof.
  intros He. unfold order_totals. rewrite He. cbn [map_result bind_result py_sum_floats].
  destruct (shipping_or_zero_cases (shipping o)) as [->|(g & _ & Hg & ->)];
    cbn [py_add]; [reflexivity|].
  rewrite float_of_int_0. cbn [bind_result]. rewrite (add_zero_l_nonzero g Hg). reflexivity.
Qed.

Lemma order_totals_empty_witness :
  items (mkOrder [] (Some 3%float) None None) = [] /\
  order_totals CPython312 (mkOrder [] (Some 3%float) None None) = Ok (PInt 0, PFloat 3).
Proof.
  split; [reflexivity|].
  exact (order_totals_empty CPython312 (mkOrder [] (Some 3%float) None None) eq_refl).
Defined.

(** C3: pricing fails only with [OverflowError], and it fails exactly when
    some item's quantity is too large to convert to a float; there is no
    validation error for negative prices or non-positive quantities. *)
Theorem order_totals_error v o :
  (forall e, order_totals v o = Err e ->
             e = OverflowError "int too large to convert to float") /\
  (is_ok (order_totals v o) = false <->
   exists it, In it (items o) /\ is_ok (float_of_int (quantity it)) = false).
Proof.
  unfold order_totals. split; [|split].
  - intros e. destruct (map_result item_amount (items o)) as [xs|e'] eqn:Hm; simpl.
    + destruct (py_add_subtotal_ok v xs (shipping o)) as [t ->]. discriminate.
    + intros H; injection H as <-. exact (proj1 (map_result_item_amount_err _ _ Hm)).
  - destruct (map_result item_amount (items o)) as [xs|e'] eqn:Hm; simpl.
    + destruct (py_add_subtotal_ok v xs (shipping o)) as [t ->]. discriminate.
    + intros _. exact (proj2 (map_result_item_amount_err _ _ Hm)).
  - intros (it & Hin & Hit).
    assert (Hf : is_ok (item_amount it) = false).
    { unfold item_amount. destruct (float_of_int (quantity it)); [discriminate | reflexivity]. }
    pose proof (map_result_err_In item_amount (items o) it Hin Hf) as Hm.
    destruct (map_result item_amount (items o)); [discriminate | reflexivity].
Qed.

Definition huge_order : Order := mkOrder [mkItem "p" 1 (2 ^ 1024)] None None None.

Lemma order_totals_error_witness :
  is_ok (order_totals CPython312 huge_order) = false.
Proof.
  apply (proj2 (proj2 (order_totals_error CPython312 huge_order))).
  exists (mkItem "p" 1 (2 ^ 1024)). split; [left; reflexivity | vm_compute; reflexivity].
Defined.

Definition scenario_order : Order :=
  mkOrder [mkItem "a" 10 2; mkItem "b" 5 1] (Some 3%float) None None.

(** The spec's scenario: items [10.00 x 2] and [5.00 x 1] with shipping
    [3.00] give subtotal [25.0] and total [28.0], under both [sum]
    algorithms. *)
Theorem order_totals_scenario v :
  order_totals v scenario_order = Ok (PFloat 25, PFloat 28).
Proof. destruct v; vm_compute; reflexivity. Qed.

Definition tenth_order : Order := mkOrder [mkItem "a" 0.1 3] None None None.

(** The subtotal is not the exact sum the spec asks for: one item of
    price [0.1] and quantity [3] is priced [0.30000000000000004], while the
    exact product of the price's value by [3] is another rational. *)
Theorem order_subtotal_inexact v :
  exists s t, order_totals v tenth_order = Ok (PFloat s, t) /\
  match Q_of_float s, spec_subtotal (items tenth_order) with
  | Some a, Some b => Qeq_bool a b = false
  | _, _ => False
  end.
Proof. destruct v; do 2 eexists; split; vm_compute; reflexivity. Qed.

Definition ten_tenths : Order :=
  mkOrder (repeat (mkItem "a" 0.1 1) 10) None None None.

(** The stored total depends on the interpreter: ten items of price
    [0.1] sum to [0.9999999999999999] with the sequential [sum] of CPython
    before 3.12 and to [1.0] with the compensated [sum] of 3.12. *)
Theorem order_totals_version_dependent :
  order_totals CPython311 ten_tenths = Ok (PFloat 0.9999999999999999, PFloat 0.9999999999999999) /\
  order_totals CPython312 ten_tenths = Ok (PFloat 1, PFloat 1).
Proof. split; vm_compute; reflexivity. Qed.
