(* ===== verification/PricingExact.v ===== *)
(** * Whole-number prices: exact totals, independent of the CPython version

    [Pricing] shows that the float subtotal of [create_order] is not the
    spec's exact sum in general ([order_subtotal_inexact]) and that it
    depends on CPython's [sum] algorithm ([order_totals_version_dependent]).
    This file shows where the code does meet the spec: when every price is
    a whole number and every line amount and partial sum stays below
    [2^53], each float operation of lines 82-83 is exact, the subtotal is
    the spec's exact [sum price_i * quantity_i], and the two [sum]
    algorithms return the same float (Neumaier's compensation stays zero).

    The proof follows [SpecFloat]'s rounding code, with the shifting lemmas
    of [FloatConv]: an integer below [2^53] has one canonical float
    representation [canon n], and multiplying or adding two such floats
    whose exact result is again below [2^53] rounds to the canonical
    representation of that result. *)

From Stdlib Require Import ZArith Lia Bool List String Floats QArith.
From S2P Require Import Prelude Python FloatConv Pricing.
Import SpecFloat ListNotations.
Local Open Scope string_scope.
Local Open Scope Z_scope.

(** ** Canonical floats of integers *)

(** [float(n)] as a [spec_float]. *)
Definition canon (n : Z) : spec_float := binary_normalize FloatOps.prec FloatOps.emax n 0 false.

(** Its shape for [n <> 0]: a 53-digit mantissa and exponent [log2 |n| - 52]. *)
Definition canon_s (s : bool) (n : positive) : spec_float :=
  let l := Z.log2 (Zpos n) in S754_finite s (Z.to_pos (Zpos n * 2 ^ (52 - l))) (l - 52).

(** [x] represents the integer [n]: a zero of either sign for [0]. *)
Definition int_rep (n : Z) (x : spec_float) : Prop :=
  match n with
  | Z0 => exists s, x = S754_zero s
  | Zpos p => x = canon_s false p
  | Zneg p => x = canon_s true p
  end.

Lemma log2_canon_bounds (n : positive) :
  Zpos n < 2 ^ 53 -> 0 <= Z.log2 (Zpos n) <= 52.
Proof.
  intros Hn. split; [apply Z.log2_nonneg|]. apply Z.log2_lt_pow2 in Hn; lia.
Qed.

(** The 53-digit mantissa of [n]. *)
Lemma canon_mantissa_bounds (n : positive) :
  Zpos n < 2 ^ 53 ->
  2 ^ 52 <= Zpos n * 2 ^ (52 - Z.log2 (Zpos n)) < 2 ^ 53.
Proof.
  intros Hn. pose proof (log2_canon_bounds n Hn) as Hl.
  pose proof (log2_bounds (Zpos n) ltac:(lia)) as Hb.
  set (l := Z.log2 (Zpos n)) in *.
  assert (E1 : 2 ^ l * 2 ^ (52 - l) = 2 ^ 52) by (rewrite <- Z.pow_add_r by lia; f_equal; lia).
  assert (E2 : 2 ^ (l + 1) * 2 ^ (52 - l) = 2 ^ 53) by (rewrite <- Z.pow_add_r by lia; f_equal; lia).
  assert (0 < 2 ^ (52 - l)) by (apply Z.pow_pos_nonneg; lia).
  nia.
Qed.

(** Rounding a mantissa that denotes the integer [n] exactly gives the
    canonical representation of [n]. *)
Lemma round_exact sx (M n : positive) E :
  E <= 0 -> Zpos M = Zpos n * 2 ^ (- E) -> Zpos n < 2 ^ 53 -> 2 ^ 52 <= Zpos M ->
  binary_round_aux FloatOps.prec FloatOps.emax sx (Zpos M) E loc_Exact = canon_s sx n.
Proof.
  intros HE HM Hn HM52. unfold canon_s.
  pose proof (log2_canon_bounds n Hn) as Hl. pose proof (canon_mantissa_bounds n Hn) as Hc.
  set (l := Z.log2 (Zpos n)) in *.
  assert (HlM : Z.log2 (Zpos M) = l - E).
  { rewrite HM, Z.log2_mul_pow2 by lia. unfold l. lia. }
  assert (HlE : 52 <= l - E).
  { rewrite <- HlM. apply Z.log2_le_pow2; lia. }
  assert (Hmant : Zpos n * 2 ^ (52 - l) = Zpos M / 2 ^ (l - E - 52)).
  { rewrite HM. replace (- E) with ((52 - l) + (l - E - 52)) by lia.
    rewrite Z.pow_add_r, Z.mul_assoc, Z.div_mul by (try apply Z.pow_nonzero; lia). reflexivity. }
  destruct (Z.eq_dec (l - E) 52) as [H52|H53].
  - assert (HEl : E = l - 52) by lia.
    assert (HMl : Zpos M = Zpos n * 2 ^ (52 - l)) by (rewrite HM; f_equal; f_equal; lia).
    unfold binary_round_aux. rewrite shr_fexp_53 by lia.
    cbn [shr_m loc_of_shr_record round_nearest_even]. rewrite shr_fexp_53 by lia. cbn [shr_m].
    unfold FloatOps.emax, FloatOps.prec. replace (E <=? 1024 - 53) with true by lia.
    rewrite <- HMl, HEl. reflexivity.
  - assert (HM53 : 2 ^ 53 <= Zpos M).
    { apply Z.log2_le_pow2; lia. }
    unfold binary_round_aux. rewrite (shr_fexp_big M E HM53) by lia. rewrite HlM.
    cbn [shr_m]. rewrite round_ne_spec.
    assert (Hr : Z.testbit (Zpos M) (l - E - 53) = false).
    { rewrite HM. replace (- E) with ((52 - l) + (l - E - 52)) by lia.
      rewrite Z.pow_add_r, Z.mul_assoc by lia. apply Z.mul_pow2_bits_low. lia. }
    rewrite Hr. cbn [andb]. rewrite <- Hmant. rewrite shr_fexp_53 by lia. cbn [shr_m].
    unfold FloatOps.emax, FloatOps.prec. replace (E + (l - E - 52) <=? 1024 - 53) with true by lia.
    destruct (Zpos n * 2 ^ (52 - l)) as [|p|p] eqn:Ep; [lia | | lia].
    replace (E + (l - E - 52)) with (l - 52) by lia. reflexivity.
Qed.

Lemma pow2_le_mul (n : positive) a b :
  0 <= a <= b -> Zpos n * 2 ^ a <= Zpos n * 2 ^ b.
Proof. intros H. apply Z.mul_le_mono_nonneg_l; [lia | apply Z.pow_le_mono_r; lia]. Qed.

(** [binary_round] of a mantissa and exponent denoting an integer [n]
    below [2^53]: the alignment step brings it to 53 digits, and the
    rounding is exact. *)
Lemma binary_round_exact sx (M n : positive) E :
  E <= 0 -> Zpos M = Zpos n * 2 ^ (- E) -> Zpos n < 2 ^ 53 ->
  binary_round FloatOps.prec FloatOps.emax sx M E = canon_s sx n.
Proof.
  intros HE HM Hn. unfold binary_round.
  pose proof (log2_canon_bounds n Hn) as Hl. pose proof (canon_mantissa_bounds n Hn) as Hc.
  set (l := Z.log2 (Zpos n)) in *.
  assert (HlM : Z.log2 (Zpos M) = l - E).
  { rewrite HM, Z.log2_mul_pow2 by lia. unfold l. lia. }
  rewrite digits2_pos_log2, HlM, fexp_64 by lia.
  replace (l - E + 1 + E - 53) with (l - 52) by lia.
  unfold shl_align. destruct (l - 52 - E) as [|d|d] eqn:Hd.
  - apply round_exact; [lia | exact HM | exact Hn | rewrite HM; replace (- E) with (52 - l) by lia; lia].
  - apply round_exact; [lia | exact HM | exact Hn |].
    rewrite HM. pose proof (pow2_le_mul n (52 - l) (- E) ltac:(lia)). lia.
  - apply round_exact; [lia | | exact Hn | rewrite iter_xO_mul, HM].
    + rewrite iter_xO_mul, HM, <- Z.mul_assoc, <- Z.pow_add_r by lia. f_equal. f_equal. lia.
    + rewrite <- Z.mul_assoc, <- Z.pow_add_r by lia.
      replace (- E + Zpos d) with (52 - l) by lia. lia.
Qed.

(** [binary_normalize] of [c * 2^(-E)] at exponent [E <= 0], for an
    integer [c] below [2^53] in magnitude, represents [c]. *)
Lemma normalize_exact c E :
  E <= 0 -> Z.abs c < 2 ^ 53 ->
  int_rep c (binary_normalize FloatOps.prec FloatOps.emax (c * 2 ^ (- E)) E false).
Proof.
  intros HE Hc. assert (Hp : 0 < 2 ^ (- E)) by (apply Z.pow_pos_nonneg; lia).
  destruct c as [|n|n]; cbn [int_rep].
  - exists false. reflexivity.
  - destruct (Zpos n * 2 ^ (- E)) as [|M|M] eqn:HM; [nia | | nia].
    apply binary_round_exact; [lia | symmetry; exact HM | lia].
  - destruct (Zneg n * 2 ^ (- E)) as [|M|M] eqn:HM; [nia | nia |].
    apply binary_round_exact; [lia | | lia]. change (Zneg n) with (- Zpos n) in HM. lia.
Qed.

(** [float(n)] for [|n| < 2^53]. *)
Lemma canon_int_rep n : Z.abs n < 2 ^ 53 -> int_rep n (canon n).
Proof.
  intros Hn. unfold canon. pose proof (normalize_exact n 0 ltac:(lia) Hn) as H.
  rewrite Z.mul_1_r in H. exact H.
Qed.

(** ** Exact operations on whole-number floats *)

Lemma canon_s_shape s n :
  Zpos n < 2 ^ 53 -> exists m e,
  canon_s s n = S754_finite s m e /\ -52 <= e <= 0 /\ Zpos m = Zpos n * 2 ^ (- e) /\
  2 ^ 52 <= Zpos m < 2 ^ 53.
Proof.
  intros Hn. pose proof (log2_canon_bounds n Hn). pose proof (canon_mantissa_bounds n Hn).
  unfold canon_s. destruct (Zpos n * 2 ^ (52 - Z.log2 (Zpos n))) as [|m|m] eqn:Hm; [lia| |lia].
  exists m, (Z.log2 (Zpos n) - 52). split; [reflexivity | split; [lia|]].
  rewrite <- Hm. split; [|lia]. f_equal. f_equal. lia.
Qed.

Lemma int_rep_canon_s s n : int_rep (cond_Zopp s (Zpos n)) (canon_s s n).
Proof. destruct s; reflexivity. Qed.

Lemma int_rep_nonzero a x :
  int_rep a x -> a <> 0 -> exists s n, x = canon_s s n /\ a = cond_Zopp s (Zpos n).
Proof. destruct a as [|n|n]; cbn; intros H Ha; [lia | exists false | exists true]; eauto. Qed.

Lemma cond_Zopp_abs s n : Z.abs (cond_Zopp s (Zpos n)) = Zpos n.
Proof. destruct s; reflexivity. Qed.

Lemma cond_Zopp_mul s t m n :
  cond_Zopp s (Zpos m) * cond_Zopp t (Zpos n) = cond_Zopp (xorb s t) (Zpos (m * n)).
Proof. destruct s, t; reflexivity. Qed.

Lemma mul_canon sa sb a b :
  Zpos a < 2 ^ 53 -> Zpos b < 2 ^ 53 -> Zpos (a * b) < 2 ^ 53 ->
  SFmul FloatOps.prec FloatOps.emax (canon_s sa a) (canon_s sb b) = canon_s (xorb sa sb) (a * b).
Proof.
  intros Ha Hb Hab.
  destruct (canon_s_shape sa a Ha) as (ma & ea & -> & Hea & Hma & Hba).
  destruct (canon_s_shape sb b Hb) as (mb & eb & -> & Heb & Hmb & Hbb).
  cbn [SFmul]. apply round_exact; [lia | | exact Hab | rewrite Pos2Z.inj_mul; nia].
  rewrite !Pos2Z.inj_mul, Hma, Hmb, Z.opp_add_distr, Z.pow_add_r by lia. ring.
Qed.

Lemma int_rep_cases b y :
  int_rep b y -> (exists s, y = S754_zero s) \/ exists s n, y = canon_s s n.
Proof. destruct b; cbn; [left | right; eauto ..]; assumption. Qed.

(** Multiplying two whole-number floats whose product stays below [2^53]
    is exact (the signed zeros included). *)
Lemma int_rep_mul a b x y :
  int_rep a x -> int_rep b y -> Z.abs a < 2 ^ 53 -> Z.abs b < 2 ^ 53 -> Z.abs (a * b) < 2 ^ 53 ->
  int_rep (a * b) (SFmul FloatOps.prec FloatOps.emax x y).
Proof.
  intros Hx Hy Ha Hb Hab.
  destruct (Z.eq_dec a 0) as [->|Ha0].
  { destruct Hx as [s ->]. destruct (int_rep_cases b y Hy) as [[t ->]|(t & n & ->)];
      cbn; eauto. }
  destruct (Z.eq_dec b 0) as [->|Hb0].
  { destruct Hy as [s ->]. rewrite Z.mul_0_r.
    destruct (int_rep_cases a x Hx) as [[t ->]|(t & n & ->)]; cbn; eauto. }
  destruct (int_rep_nonzero a x Hx Ha0) as (sa & pa & -> & ->).
  destruct (int_rep_nonzero b y Hy Hb0) as (sb & pb & -> & ->).
  rewrite cond_Zopp_mul in *. rewrite cond_Zopp_abs in *.
  rewrite mul_canon by lia. apply int_rep_canon_s.
Qed.

Lemma shl_align_le m e e' :
  e' <= e -> Zpos (fst (shl_align m e e')) = Zpos m * 2 ^ (e - e').
Proof.
  intros H. unfold shl_align. destruct (e' - e) as [|d|d] eqn:Hd; cbn [fst].
  - replace (e - e') with 0 by lia. lia.
  - lia.
  - rewrite iter_xO_mul. f_equal. f_equal. lia.
Qed.

Lemma cond_Zopp_mul_pow s m k : cond_Zopp s (m * k) = cond_Zopp s m * k.
Proof. destruct s; cbn; lia. Qed.

Lemma add_canon sa sb a b :
  Zpos a < 2 ^ 53 -> Zpos b < 2 ^ 53 ->
  Z.abs (cond_Zopp sa (Zpos a) + cond_Zopp sb (Zpos b)) < 2 ^ 53 ->
  int_rep (cond_Zopp sa (Zpos a) + cond_Zopp sb (Zpos b))
          (SFadd FloatOps.prec FloatOps.emax (canon_s sa a) (canon_s sb b)).
Proof.
  intros Ha Hb Hab.
  destruct (canon_s_shape sa a Ha) as (ma & ea & -> & Hea & Hma & _).
  destruct (canon_s_shape sb b Hb) as (mb & eb & -> & Heb & Hmb & _).
  cbn [SFadd]. rewrite !shl_align_le by lia. rewrite Hma, Hmb, <- !Z.mul_assoc, <- !Z.pow_add_r by lia.
  replace (- ea + (ea - Z.min ea eb)) with (- Z.min ea eb) by lia.
  replace (- eb + (eb - Z.min ea eb)) with (- Z.min ea eb) by lia.
  rewrite !cond_Zopp_mul_pow, <- Z.mul_add_distr_r. apply normalize_exact; lia.
Qed.

(** Adding two whole-number floats whose sum stays below [2^53] is
    exact. *)
Lemma int_rep_add a b x y :
  int_rep a x -> int_rep b y -> Z.abs a < 2 ^ 53 -> Z.abs b < 2 ^ 53 -> Z.abs (a + b) < 2 ^ 53 ->
  int_rep (a + b) (SFadd FloatOps.prec FloatOps.emax x y).
Proof.
  intros Hx Hy Ha Hb Hab.
  destruct (Z.eq_dec a 0) as [->|Ha0].
  { destruct Hx as [s ->]. destruct b; cbn in Hy |- *.
    - destruct Hy as [t ->]. destruct s, t; cbn; eauto.
    - rewrite Hy. reflexivity.
    - rewrite Hy. reflexivity. }
  destruct (Z.eq_dec b 0) as [->|Hb0].
  { destruct Hy as [s ->]. rewrite Z.add_0_r.
    destruct (int_rep_nonzero a x Hx Ha0) as (sa & pa & -> & ->). destruct sa; exact Hx. }
  destruct (int_rep_nonzero a x Hx Ha0) as (sa & pa & -> & ->).
  destruct (int_rep_nonzero b y Hy Hb0) as (sb & pb & -> & ->).
  rewrite cond_Zopp_abs in *. apply add_canon; assumption.
Qed.

Lemma SFsub_SFadd_opp x y :
  SFsub FloatOps.prec FloatOps.emax x y = SFadd FloatOps.prec FloatOps.emax x (SFopp y).
Proof.
  destruct x as [[]|[]| |[] mx ex], y as [[]|[]| |[] my ey]; try reflexivity;
    cbn [SFsub SFadd SFopp negb]; f_equal; cbn [cond_Zopp negb]; lia.
Qed.

Lemma int_rep_opp b y : int_rep b y -> int_rep (- b) (SFopp y).
Proof.
  destruct b as [|n|n]; cbn [int_rep Z.opp]; [intros [s ->]; exists (negb s) | intros Hy; subst y ..];
    reflexivity.
Qed.

Lemma int_rep_sub a b x y :
  int_rep a x -> int_rep b y -> Z.abs a < 2 ^ 53 -> Z.abs b < 2 ^ 53 -> Z.abs (a - b) < 2 ^ 53 ->
  int_rep (a - b) (SFsub FloatOps.prec FloatOps.emax x y).
Proof.
  intros. rewrite SFsub_SFadd_opp. apply int_rep_add; [assumption | apply int_rep_opp; assumption | lia ..].
Qed.

(** ** Whole-number binary64 values *)

(** The float [f] is the integer [n]. *)
Definition rep (n : Z) (f : float) : Prop := int_rep n (FloatOps.Prim2SF f).

Lemma canon_s_valid s n :
  Zpos n < 2 ^ 53 -> valid_binary FloatOps.prec FloatOps.emax (canon_s s n) = true.
Proof.
  intros Hn. destruct (canon_s_shape s n Hn) as (m & e & -> & He & _ & Hm).
  cbn [valid_binary]. unfold bounded, canonical_mantissa.
  rewrite digits2_pos_log2, (log2_of_bounds (Zpos m) 52) by (cbn; lia).
  rewrite fexp_64 by lia. unfold FloatOps.emax, FloatOps.prec.
  apply andb_true_intro. split; apply Z.eqb_eq || apply Z.leb_le; lia.
Qed.

Lemma int_rep_valid n x :
  int_rep n x -> Z.abs n < 2 ^ 53 -> valid_binary FloatOps.prec FloatOps.emax x = true.
Proof.
  destruct n as [|p|p]; cbn [int_rep]; [intros [s ->]; reflexivity | intros -> H; apply canon_s_valid; lia ..].
Qed.

(** [float(n)] of a whole number below [2^53] succeeds and is [n]. *)
Lemma float_of_int_rep n :
  Z.abs n < 2 ^ 53 -> exists x, float_of_int n = Ok x /\ rep n x.
Proof.
  intros Hn. pose proof (canon_int_rep n Hn) as Hc. unfold float_of_int, rep.
  fold (canon n). exists (FloatOps.SF2Prim (canon n)).
  rewrite FloatAxioms.Prim2SF_SF2Prim by exact (int_rep_valid n _ Hc Hn). split; [|exact Hc].
  destruct (int_rep_cases n (canon n) Hc) as [[s ->]|(s & p & ->)]; reflexivity.
Qed.

Lemma rep_mul a b x y :
  rep a x -> rep b y -> Z.abs a < 2 ^ 53 -> Z.abs b < 2 ^ 53 -> Z.abs (a * b) < 2 ^ 53 ->
  rep (a * b) (x * y)%float.
Proof. unfold rep. rewrite FloatAxioms.mul_spec. apply int_rep_mul. Qed.

Lemma rep_add a b x y :
  rep a x -> rep b y -> Z.abs a < 2 ^ 53 -> Z.abs b < 2 ^ 53 -> Z.abs (a + b) < 2 ^ 53 ->
  rep (a + b) (x + y)%float.
Proof. unfold rep. rewrite FloatAxioms.add_spec. apply int_rep_add. Qed.

Lemma rep_sub a b x y :
  rep a x -> rep b y -> Z.abs a < 2 ^ 53 -> Z.abs b < 2 ^ 53 -> Z.abs (a - b) < 2 ^ 53 ->
  rep (a - b) (x - y)%float.
Proof. unfold rep. rewrite FloatAxioms.sub_spec. apply int_rep_sub. Qed.

Lemma rep_zero : rep 0 0%float.
Proof. exists false. vm_compute. reflexivity. Qed.

(** A float that is the integer [0] is [== 0.0]. *)
Lemma rep_zero_eqb c : rep 0 c -> (c =? 0)%float = true.
Proof.
  intros [s Hs]. rewrite FloatAxioms.eqb_spec, Hs.
  change (FloatOps.Prim2SF 0%float) with (S754_zero false). destruct s; reflexivity.
Qed.

Lemma rep_float_of_int n x : Z.abs n < 2 ^ 53 -> float_of_int n = Ok x -> rep n x.
Proof. intros Hn Hx. destruct (float_of_int_rep n Hn) as (y & Hy & Hr). congruence. Qed.

#[export] Hint Resolve rep_zero : core.

(** ** The two [sum] loops on whole numbers *)

Definition zsum (l : list Z) : Z := fold_right Z.add 0 l.

Definition zabs_sum (l : list Z) : Z := zsum (map Z.abs l).

Lemma zabs_sum_nonneg l : 0 <= zabs_sum l.
Proof. unfold zabs_sum, zsum. induction l; cbn; lia. Qed.

(** Python's [float] loop before 3.12: every partial sum is exact. *)
Lemma fsum_seq_rep ns xs : Forall2 rep ns xs -> forall acc a,
  rep a acc -> Z.abs a + zabs_sum ns < 2 ^ 53 -> rep (a + zsum ns) (fsum_seq acc xs).
Proof.
  unfold zabs_sum. induction 1 as [|n x ns xs Hx _ IH]; intros acc a Ha Hb; cbn [fsum_seq zsum fold_right map] in *.
  - rewrite Z.add_0_r. exact Ha.
  - pose proof (zabs_sum_nonneg ns). unfold zabs_sum, zsum in *.
    rewrite Z.add_assoc. apply IH; [apply rep_add; auto; lia | lia].
Qed.

Lemma rep_add0 c d : rep 0 c -> rep 0 d -> rep 0 (c + d)%float.
Proof. intros Hc Hd. apply (rep_add 0 0); auto; lia. Qed.

(** Neumaier's correction term for an exact step is a zero, on both
    branches of the magnitude test. *)
Lemma neumaier_comp_zero a n f x c :
  rep a f -> rep n x -> rep 0 c -> Z.abs a + Z.abs n < 2 ^ 53 ->
  rep 0 (if (PrimFloat.abs x <=? PrimFloat.abs f)%float
         then (c + ((f - (f + x)) + x))%float
         else (c + ((x - (f + x)) + f))%float).
Proof.
  intros Hf Hx Hc Hb. assert (Ht : rep (a + n) (f + x)%float) by (apply rep_add; auto; lia).
  destruct (_ <=? _)%float; apply rep_add0; [exact Hc| |exact Hc|].
  - replace 0 with ((a - (a + n)) + n) by ring. apply rep_add; [apply rep_sub| |..]; auto; lia.
  - replace 0 with ((n - (a + n)) + a) by ring. apply rep_add; [apply rep_sub| |..]; auto; lia.
Qed.

(** From CPython 3.12: the compensation stays a zero, so the final
    [if (c && isfinite(c))] does not fire and the result is the plain
    loop's. *)
Lemma fsum_neumaier_seq ns xs : Forall2 rep ns xs -> forall f c a,
  rep a f -> rep 0 c -> Z.abs a + zabs_sum ns < 2 ^ 53 -> fsum_neumaier f c xs = fsum_seq f xs.
Proof.
  unfold zabs_sum. induction 1 as [|n x ns xs Hx _ IH]; intros f c a Ha Hc Hb;
    cbn [fsum_seq fsum_neumaier zsum fold_right map] in *.
  - rewrite rep_zero_eqb by exact Hc. reflexivity.
  - pose proof (zabs_sum_nonneg ns). unfold zabs_sum, zsum in *.
    apply (IH _ _ (a + n)); [apply rep_add; auto; lia | apply neumaier_comp_zero with a n; auto; lia | lia].
Qed.

(** ** Orders with whole-number prices *)

(** The exact line amounts [price_i * quantity_i], for the integer prices
    [ps]. *)
Fixpoint line_amounts (its : list OrderItem) (ps : list Z) : list Z :=
  match its, ps with
  | it :: r, p :: ps' => p * quantity it :: line_amounts r ps'
  | _, _ => []
  end.

(** Each price is [float(p)] for an integer [|p| < 2^53], each quantity
    is below [2^53] in magnitude. *)
Definition whole_prices (its : list OrderItem) (ps : list Z) : Prop :=
  Forall2 (fun it p => float_of_int p = Ok (price it) /\ Z.abs p < 2 ^ 53 /\
                       Z.abs (quantity it) < 2 ^ 53) its ps.

Lemma zabs_sum_cons n l : zabs_sum (n :: l) = Z.abs n + zabs_sum l.
Proof. reflexivity. Qed.

(** The generator of line 82 yields, without raising, floats that are
    exactly the line amounts. *)
Lemma item_amounts_rep its ps :
  whole_prices its ps -> zabs_sum (line_amounts its ps) < 2 ^ 53 ->
  exists xs, map_result item_amount its = Ok xs /\ Forall2 rep (line_amounts its ps) xs.
Proof.
  induction 1 as [|it p its ps (Hp & Hpb & Hqb) _ IH]; intros Hb; [exists []; split; constructor|].
  cbn [line_amounts] in Hb. rewrite zabs_sum_cons in Hb. pose proof (zabs_sum_nonneg (line_amounts its ps)).
  destruct IH as (xs & Hxs & Hr); [lia|].
  destruct (float_of_int_rep (quantity it) Hqb) as (q & Hq & Hqr).
  exists ((price it * q)%float :: xs). split.
  - cbn [map_result]. unfold item_amount at 1. rewrite Hq. cbn [bind_result]. rewrite Hxs. reflexivity.
  - constructor; [|exact Hr]. apply rep_mul; [apply rep_float_of_int; assumption | exact Hqr | lia ..].
Qed.

(** The exact rational the float of an integer denotes. *)
Lemma rep_Q_of_float n f :
  rep n f -> Z.abs n < 2 ^ 53 -> exists q, Q_of_float f = Some q /\ (q == inject_Z n)%Q.
Proof.
  unfold rep, Q_of_float. intros H Hb. destruct (Z.eq_dec n 0) as [->|Hn].
  { destruct H as [s ->]. eexists; split; reflexivity. }
  destruct (int_rep_nonzero n _ H Hn) as (s & p & Hs & ->). rewrite cond_Zopp_abs in Hb. rewrite Hs.
  destruct (canon_s_shape s p Hb) as (m & e & -> & He & Hm & _).
  eexists; split; [reflexivity|]. unfold Qeq. destruct (0 <=? e) eqn:E.
  - replace e with 0 in * by lia. cbn [Qnum Qden inject_Z]. rewrite Z.mul_1_r in *.
    destruct s; cbn [cond_Zopp]; lia.
  - cbn [Qnum Qden inject_Z]. rewrite Pos2Z.inj_pow, Z2Pos.id by lia.
    destruct s; cbn [cond_Zopp]; lia.
Qed.

Lemma spec_subtotal_whole its ps :
  whole_prices its ps ->
  exists q, spec_subtotal its = Some q /\ (q == inject_Z (zsum (line_amounts its ps)))%Q.
Proof.
  induction 1 as [|it p its ps (Hp & Hpb & _) _ IH]; [exists 0%Q; split; reflexivity|].
  destruct IH as (q & Hq & Hqe).
  destruct (rep_Q_of_float p (price it) (rep_float_of_int p _ Hpb Hp) Hpb) as (qp & Hqp & Hqpe).
  cbn [spec_subtotal line_amounts zsum fold_right]. rewrite Hqp, Hq. eexists; split; [reflexivity|].
  fold (zsum (line_amounts its ps)). rewrite Hqe, Hqpe, inject_Z_plus, inject_Z_mult. reflexivity.
Qed.

(** The builtin [sum] over exact line amounts: a float that is their
    exact sum, the same under both CPython algorithms. *)
Lemma py_sum_floats_rep ns xs :
  Forall2 rep ns xs -> zabs_sum ns < 2 ^ 53 -> xs <> [] ->
  exists f, py_sum_floats CPython311 xs = PFloat f /\ py_sum_floats CPython312 xs = PFloat f /\
            rep (zsum ns) f.
Proof.
  intros Hr Hb Hne. destruct Hr as [|n x ns xs Hx Hr]; [congruence|].
  rewrite zabs_sum_cons in Hb. pose proof (zabs_sum_nonneg ns).
  assert (H0 : rep (0 + n) (0 + x)%float) by (apply rep_add; auto; lia).
  exists (fsum_seq (0 + x)%float xs). cbn [py_sum_floats]. split; [reflexivity|split].
  - f_equal. apply (fsum_neumaier_seq ns xs Hr _ _ (0 + n)); auto; lia.
  - cbn [zsum fold_right]. fold (zsum ns). replace (n + zsum ns) with (0 + n + zsum ns) by ring.
    apply fsum_seq_rep; auto; lia.
Qed.

(** The shipping fee [s] is [None] (read as [0]) or [float(sh)] for an
    integer [|sh| < 2^53]. *)
Definition whole_shipping (s : option float) (sh : Z) : Prop :=
  match s with
  | None => sh = 0
  | Some f => float_of_int sh = Ok f /\ Z.abs sh < 2 ^ 53
  end.

Lemma rep_eqb_zero n f : rep n f -> (f =? 0)%float = true -> n = 0.
Proof.
  unfold rep. rewrite FloatAxioms.eqb_spec. change (FloatOps.Prim2SF 0%float) with (S754_zero false).
  destruct n as [|p|p]; cbn [int_rep]; [reflexivity | intros -> ? ..]; discriminate.
Qed.

(** Line 83 on an exact subtotal: [subtotal + (shipping or 0)] adds a
    float that is the shipping fee's integer. *)
Lemma py_add_shipping_rep sub s sh :
  whole_shipping s sh ->
  exists y, py_add (PFloat sub) (shipping_or_zero s) = Ok (PFloat (sub + y)%float) /\ rep sh y /\
            Z.abs sh < 2 ^ 53.
Proof.
  destruct s as [f|]; cbn [whole_shipping shipping_or_zero].
  - intros (Hf & Hb). pose proof (rep_float_of_int sh f Hb Hf) as Hr.
    cbn [truthy_num]. destruct (f =? 0)%float eqn:Hz; cbn [negb].
    + apply (rep_eqb_zero sh f Hr) in Hz as ->. exists 0%float.
      cbn [py_add]. rewrite float_of_int_0. cbn. split; [reflexivity | split; [exact rep_zero | lia]].
    + exists f. cbn [py_add]. auto.
  - intros ->. exists 0%float. cbn [py_add]. rewrite float_of_int_0. cbn. split; [reflexivity | split; [exact rep_zero | lia]].
Qed.

Lemma zsum_abs_le l : Z.abs (zsum l) <= zabs_sum l.
Proof. unfold zabs_sum, zsum. induction l; cbn; lia. Qed.

Lemma item_amounts_nil its xs :
  map_result item_amount its = Ok xs -> xs = [] -> its = [].
Proof. intros H ->. apply map_result_Ok_length in H. destruct its; [reflexivity | discriminate]. Qed.

(** ** The exactness theorems *)

(** C31: for whole-number prices and shipping whose absolute values sum
    to less than [2^53], lines 82-83 compute what the spec asks: the float
    subtotal is the exact [sum price_i * quantity_i] and the total is the
    exact subtotal plus the shipping fee, on either interpreter. *)
Theorem order_totals_whole_exact v o ps sh :
  whole_prices (items o) ps -> whole_shipping (shipping o) sh ->
  Z.abs sh + zabs_sum (line_amounts (items o) ps) < 2 ^ 53 -> items o <> [] ->
  exists sub tot qs qt q,
    order_totals v o = Ok (PFloat sub, PFloat tot) /\
    Q_of_float sub = Some qs /\ Q_of_float tot = Some qt /\ spec_subtotal (items o) = Some q /\
    (qs == q)%Q /\ (qt == q + inject_Z sh)%Q.
Proof.
  intros Hw Hs Hb Hne.
  destruct (item_amounts_rep (items o) ps Hw) as (xs & Hxs & Hr);
    [pose proof (Z.abs_nonneg sh); lia|].
  set (ns := line_amounts (items o) ps) in *.
  pose proof (zabs_sum_nonneg ns). pose proof (zsum_abs_le ns).
  destruct (py_sum_floats_rep ns xs Hr ltac:(lia)) as (f & H311 & H312 & Hf).
  { intros E. exact (Hne (item_amounts_nil _ _ Hxs E)). }
  destruct (py_add_shipping_rep f _ sh Hs) as (y & Hy & Hyr & Hsh).
  destruct (spec_subtotal_whole _ _ Hw) as (q & Hq & Hqe).
  destruct (rep_Q_of_float _ _ Hf ltac:(lia)) as (qs & Hqs & Hqse).
  destruct (rep_Q_of_float (zsum ns + sh) (f + y)%float) as (qt & Hqt & Hqte);
    [apply rep_add; auto; lia | lia |].
  exists f, (f + y)%float, qs, qt, q. unfold order_totals. rewrite Hxs. cbn [bind_result].
  assert (Hv : py_sum_floats v xs = PFloat f) by (destruct v; assumption).
  rewrite Hv, Hy. cbn [bind_result]. do 4 (split; [reflexivity || assumption|]).
  split; [rewrite Hqse, Hqe; reflexivity|]. rewrite Hqte, Hqe, inject_Z_plus. reflexivity.
Qed.

(** C32: for whole-number prices whose line amounts' absolute values sum
    to less than [2^53], [create_order] computes the same subtotal and
    total under CPython 3.11 and 3.12: the compensation of the 3.12 [sum]
    stays zero. *)
Theorem order_totals_whole_version o ps :
  whole_prices (items o) ps -> zabs_sum (line_amounts (items o) ps) < 2 ^ 53 ->
  order_totals CPython311 o = order_totals CPython312 o.
Proof.
  intros Hw Hb. destruct (item_amounts_rep _ _ Hw Hb) as (xs & Hxs & Hr).
  unfold order_totals. rewrite Hxs. cbn [bind_result]. destruct xs as [|x xs]; [reflexivity|].
  destruct (py_sum_floats_rep _ _ Hr Hb ltac:(discriminate)) as (f & -> & -> & _). reflexivity.
Qed.

Lemma order_totals_whole_exact_witness :
  exists sub tot qs qt q,
    order_totals CPython311 scenario_order = Ok (PFloat sub, PFloat tot) /\
    Q_of_float sub = Some qs /\ Q_of_float tot = Some qt /\
    spec_subtotal (items scenario_order) = Some q /\ (qs == q)%Q /\ (qt == q + inject_Z 3)%Q.
Proof.
  apply (order_totals_whole_exact CPython311 scenario_order [10; 5] 3).
  - repeat constructor.
  - split; [vm_compute; reflexivity | lia].
  - vm_compute; reflexivity.
  - discriminate.
Defined.

(** An order whose line amounts reach [2^52 + 2^51]. *)
Definition big_whole_order : Order :=
  mkOrder [mkItem "a" 1125899906842624 4; mkItem "b" 3 750599937895082] None None None.

Lemma order_totals_whole_version_witness :
  order_totals CPython311 big_whole_order = order_totals CPython312 big_whole_order.
Proof.
  apply (order_totals_whole_version big_whole_order [1125899906842624; 3]).
  - repeat constructor.
  - vm_compute; reflexivity.
Defined.
