(* ===== verification/Query.v ===== *)
(** * The product query of [list_products]

    [src/main.py] lines 38-47 build the filter dict:
<<
        filter_dict = {}
        if category:
            filter_dict["category"] = category
        if q:
            filter_dict["$or"] = [
                {"title": {"$regex": q, "$options": "i"}},
                {"description": {"$regex": q, "$options": "i"}},
                {"category": {"$regex": q, "$options": "i"}},
            ]
>>
    The spec (section 4.1) says what the filter should mean: exact category
    equality, and [q] a case-insensitive substring of one of title,
    description or category.  [spec_product_match] states that contract;
    the theorems show the built filter implements it when [q] has no
    regex metacharacter, under any regex engine satisfying
    [RegexEngineLaws], and where it does not. *)

From Stdlib Require Import ZArith List String Ascii Bool Lia.
From S2P Require Import Prelude Python Regex RegexSpec RegexPrint Filter.
Import ListNotations.
Open Scope string_scope.
Open Scope shop_scope.

(** [if x:] for an optional string query parameter. *)
Definition opt_truthy (o : option string) : option string :=
  match o with
  | Some s => if truthy_str s then Some s else None
  | None => None
  end.

Definition regex_cond (q : string) : value :=
  VDict [("$regex", VStr q); ("$options", VStr "i")].

(** The filter of lines 38-47. *)
Definition build_filter (category q : option string) : dict :=
  let f1 := match opt_truthy category with
            | Some c => dict_set "category" (VStr c) []
            | None => []
            end in
  match opt_truthy q with
  | Some q =>
      dict_set "$or" (VList [VDict [("title", regex_cond q)];
                             VDict [("description", regex_cond q)];
                             VDict [("category", regex_cond q)]]) f1
  | None => f1
  end.

(** ** The spec's contract (section 4.1) *)

Definition field_contains (q : string) (k : string) (d : dict) : bool :=
  match dict_get k d with Some (VStr s) => contains_ci q s | _ => false end.

(** A product matches when, for each parameter that is present, its
    condition holds: they are combined conjunctively. *)
Definition spec_product_match (category q : option string) (d : dict) : bool :=
  match category with
  | Some c => match dict_get "category" d with Some (VStr s) => String.eqb c s | _ => false end
  | None => true
  end &&
  match q with
  | Some q => field_contains q "title" d || field_contains q "description" d
              || field_contains q "category" d
  | None => true
  end.

Section Contract.
Context `{RegexEngineLaws}.

(** ** Lemmas *)

Lemma field_matches_regex q k d :
  field_matches k (regex_cond q) d =
  match dict_get k d with Some (VStr s) => re_match q "i" s | _ => false end.
Proof. reflexivity. Qed.

Lemma field_matches_regex_no_meta q k d :
  no_meta q = true -> field_matches k (regex_cond q) d = field_contains q k d.
Proof.
  intros Hq. rewrite field_matches_regex. unfold field_contains.
  pose proof (compile_no_meta q Hq) as Hc.
  destruct (dict_get k d) as [[]|]; try reflexivity.
  rewrite (re_match_ok q "i" (lit q) s Hc). apply search_from_lit.
Qed.

Lemma field_matches_str c k d :
  field_matches k (VStr c) d =
  match dict_get k d with Some (VStr s) => String.eqb c s | _ => false end.
Proof. unfold field_matches. destruct (dict_get k d) as [[]|]; reflexivity. Qed.

End Contract.

Section Properties.
Context `{RegexEngineLaws}.

(** A present, non-empty parameter; [q] also without metacharacter. *)
Definition param_ok (o : option string) : Prop :=
  match o with Some s => s <> EmptyString | None => True end.

Lemma opt_truthy_ok o : param_ok o -> opt_truthy o = o.
Proof. destruct o as [[|c s]|]; simpl; intros Hp; [contradiction | reflexivity ..]. Qed.

(** Refinement of the spec's query contract.  For parameters that are
    absent or non-empty, and a [q] without regex metacharacters, the filter
    built by [list_products] is accepted by the server and a product
    matches it exactly when it satisfies the spec's predicate: equal
    category, and [q] a case-insensitive substring of its title,
    description or category, conjunctively. *)
Theorem build_filter_refines category q :
  param_ok category -> param_ok q ->
  (forall s, q = Some s -> no_meta s = true) ->
  filter_error (build_filter category q) = None /\
  forall d, matches (build_filter category q) d = spec_product_match category q d.
Proof.
  intros Hc Hq Hm. unfold build_filter, spec_product_match.
  rewrite (opt_truthy_ok _ Hc), (opt_truthy_ok _ Hq).
  destruct q as [q|].
  - specialize (Hm q eq_refl).
    pose proof (compile_no_meta q Hm) as Hcomp.
    pose proof (re_check_ok q "i" _ Hcomp) as Hchk.
    destruct category as [c|]; split; cbn; rewrite ?Hchk; try reflexivity; intros d;
      rewrite ?andb_true_r; rewrite ?field_matches_regex_no_meta by exact Hm;
      rewrite ?field_matches_str, ?orb_false_r, ?orb_assoc; reflexivity.
  - destruct category as [c|]; split; cbn; try reflexivity; intros d;
      rewrite ?andb_true_r, ?field_matches_str; reflexivity.
Qed.

(** A [q] that PCRE rejects (for instance ["("] or ["*"]) makes the
    server reject the whole filter with PCRE's message, whatever the
    category: the spec says the text search has no error conditions. *)
Theorem build_filter_invalid category q m :
  q <> EmptyString -> compile q = PRInvalid m ->
  filter_error (build_filter category (Some q)) = Some ("Regular expression is invalid: " ++ m).
Proof.
  intros Hq Hc. pose proof (re_check_invalid q "i" m Hc) as Hchk.
  unfold build_filter. rewrite (opt_truthy_ok (Some q) Hq).
  destruct (opt_truthy category); cbn; rewrite Hchk; reflexivity.
Qed.

(** With a non-empty [category], whatever [q] is (metacharacters
    included), a matching product has exactly that category: the category
    condition is a conjunct of the filter. *)
Lemma build_filter_category c q d :
  c <> EmptyString -> matches (build_filter (Some c) q) d = true ->
  dict_get "category" d = Some (VStr c).
Proof.
  intros Hc. unfold build_filter. rewrite (opt_truthy_ok (Some c) Hc).
  unfold matches. destruct (opt_truthy q); cbn -[field_matches];
    intros Hm; apply andb_prop in Hm as [Hm _]; rewrite field_matches_str in Hm;
    destruct (dict_get "category" d) as [[]|]; try discriminate;
    apply String.eqb_eq in Hm; subst; reflexivity.
Qed.

(** C14: the text condition [list_products] builds for [q] (lines 44-46)
    means what PCRE says: for any [q] that compiles, a document field
    satisfies [{"$regex": q, "$options": "i"}] exactly when the pattern
    matches, caselessly, somewhere in the field's string. *)
Theorem regex_cond_matches q r k d s :
  compile q = PROk r -> dict_get k d = Some (VStr s) ->
  field_matches k (regex_cond q) d = true <->
  exists i j, i <= String.length s /\ mat true s r i j.
Proof.
  intros Hc Hd. rewrite field_matches_regex, Hd, (re_match_ok q "i" r s Hc).
  apply regex_search_correct.
Qed.

(** Every pattern of the modelled PCRE syntax can be written as a
    search string: for the text [print r] of a pattern [r], the condition
    [list_products] builds matches a document field exactly when [r]
    matches, caselessly, somewhere in the field (the parser reads the text
    back as an equivalent pattern). *)
Theorem regex_cond_print r k d s :
  no_void r = true -> dict_get k d = Some (VStr s) ->
  field_matches k (regex_cond (print r)) d = true <->
  exists i j, i <= String.length s /\ mat true s r i j.
Proof.
  intros Hv Hd. destruct (compile_print r Hv) as (R & Hc & E).
  rewrite field_matches_regex, Hd, (re_match_ok _ "i" R s Hc), regex_search_correct.
  setoid_rewrite (E true s). reflexivity.
Qed.

End Properties.

(** An empty parameter is treated as absent ([if category:] is false for
    [""]): [?category=] lists every product, where the spec's predicate for
    a present category [""] would match only products with an empty
    category. *)
Example build_filter_empty_category :
  build_filter (Some "") None = [] /\
  matches (build_filter (Some "") None) [("category", VStr "kitchen")] = true /\
  spec_product_match (Some "") None [("category", VStr "kitchen")] = false.
Proof. repeat split; reflexivity. Qed.

Definition kitchen_re : re := match compile "k.tchen" with PROk r => r | _ => Void end.

Lemma regex_cond_matches_witness :
  field_matches "category" (regex_cond "k.tchen") [("category", VStr "kitchen")] = true <->
  exists i j, i <= String.length "kitchen" /\ mat true "kitchen" kitchen_re i j.
Proof. apply regex_cond_matches; reflexivity. Defined.

Lemma regex_cond_print_witness :
  field_matches "title" (regex_cond (print (Cat (Chr "m") (Star AnyNL)))) [("title", VStr "Mug")] = true <->
  exists i j, i <= String.length "Mug" /\ mat true "Mug" (Cat (Chr "m") (Star AnyNL)) i j.
Proof. apply regex_cond_print; reflexivity. Defined.
