(* ===== verification/Store.v ===== *)
(** * The document store and the gateway the handlers call

    The handlers reach MongoDB through [database.py] ([db],
    [create_document], [get_documents]; not in [src/]) and pymongo
    ([db["product"].find_one], [db.list_collection_names], [db.name]).  The
    spec (sections 2 and 6) states the gateway's contract:
    [insert(collection, document) -> id], [find(collection, filter, limit)
    -> documents], [findOne], [listCollectionNames].

    - [Gateway] is that interface, with an abstract view of the store
      ([gw_docs], [gw_up], [gw_wf]); [GatewayLaws] is its contract, stated
      with the filter semantics of [Filter].  The handlers of [Api] are
      proved against the laws only.
    - [store] is a model of the server: collections as a [gmap] from names
      to their documents in insertion (natural) order, a counter for fresh
      ids, and whether the server is reachable.  [store_gateway] is the
      instance, and [store_gateway_laws] discharges the contract.

    An insertion keeps the document's own [_id] when it has one (a
    product body may carry one among its extra fields); otherwise pymongo
    adds a fresh [ObjectId], modelled by a counter: the real ones combine
    a timestamp, a random value and a counter, and what the program
    relies on is only that they are twelve bytes and unique.  The server
    stores [_id] as the first field, refuses an array as [_id], and its
    unique index refuses a key already present, comparing keys as BSON
    does ([bson_eq]: [1] and [1.0] are one key); pymongo raises
    [WriteError]/[DuplicateKeyError], an [OperationFailure].  [store_inv]
    is what every reachable state satisfies ([store_reachable_inv]);
    [store_wf] adds that every id is one the counter handed out, the
    stores in which no client chose an id.  [limit] follows pymongo's
    [cursor.limit]: [0] means no limit, a negative [n] means [|n|]. *)

From Stdlib Require Import ZArith List String Ascii Bool Lia Floats.
From stdpp Require Import base gmap strings.
From S2P Require Import Prelude Python PyString ObjectId PyRepr Regex Filter.
Import ListNotations.
Open Scope shop_scope.
Open Scope list_scope.

(** [cursor.limit(n)]. *)
Definition apply_limit (n : Z) (l : list dict) : list dict :=
  if Z.eqb n 0 then l else firstn (Z.to_nat (Z.abs n)) l.

(** The [_id] of a stored document. *)
Definition doc_id (d : dict) : option value := dict_get "_id" d.

(** ** Identifiers as MongoDB compares them *)

(** The integer a float denotes, when it is integral. *)
Definition float_Z (f : float) : option Z :=
  match FloatOps.Prim2SF f with
  | SpecFloat.S754_zero _ => Some 0%Z
  | SpecFloat.S754_finite s m e =>
      let a := if (0 <=? e)%Z then Some (Zpos m * 2 ^ e)%Z
               else if Z.eqb (Zpos m mod 2 ^ (- e)) 0 then Some (Zpos m / 2 ^ (- e))%Z else None in
      option_map (fun a => if s then (- a)%Z else a) a
  | _ => None
  end.

(** Equality of two values as keys of MongoDB's [_id] index: numbers by
    their value whatever their BSON type ([1] and [1.0] are one key, NaN
    is NaN, [-0.0] is [0.0]), strings byte by byte, arrays and embedded
    documents item by item (field names included, in order), values of
    different types apart. *)
Fixpoint bson_eq (a b : value) : bool :=
  match a, b with
  | VNone, VNone => true
  | VBool x, VBool y => Bool.eqb x y
  | VInt x, VInt y => Z.eqb x y
  | VInt x, VFloat g => match float_Z g with Some y => Z.eqb x y | None => false end
  | VFloat f, VInt y => match float_Z f with Some x => Z.eqb x y | None => false end
  | VFloat f, VFloat g => PrimFloat.eqb f g || (PrimFloat.is_nan f && PrimFloat.is_nan g)
  | VStr x, VStr y => String.eqb x y
  | VOid x, VOid y => bytes_eqb x y
  | VList l, VList l' =>
      (fix go (l l' : list value) : bool :=
         match l, l' with
         | [], [] => true
         | x :: r, y :: r' => bson_eq x y && go r r'
         | _, _ => false
         end) l l'
  | VDict d, VDict d' =>
      (fix go (d d' : list (string * value)) : bool :=
         match d, d' with
         | [], [] => true
         | (k, x) :: r, (k', y) :: r' => String.eqb k k' && bson_eq x y && go r r'
         | _, _ => false
         end) d d'
  | _, _ => false
  end.

(** The server refuses an array as an [_id]. *)
Definition id_allowed (v : value) : bool := match v with VList _ => false | _ => true end.

(** The stored document [x] already has the key [v] as its [_id]. *)
Definition id_clash (v : value) (x : dict) : bool :=
  match doc_id x with Some w => bson_eq w v | None => false end.

(** [d] without its key [k]. *)
Definition dict_del (k : string) (d : dict) : dict := List.filter (fun kv => negb (String.eqb (fst kv) k)) d.

(** ** The gateway interface *)

Class Gateway (St : Type) : Type := {
  gw_insert : string -> dict -> St -> py (value * St);
  gw_find : string -> dict -> Z -> St -> py (list dict);
  gw_find_one : string -> dict -> St -> py (option dict);
  gw_collection_names : St -> py (list string);
  gw_name : St -> string;
  gw_docs : string -> St -> list dict;
  gw_up : St -> bool;
  gw_wf : St -> Prop;
  gw_room : St -> Prop
}.

(** The contract.  An insertion returns the [_id] of the new document:
    a fresh [ObjectId] when the document has none ([gw_insert_ok], in a
    store whose ids are all the store's own: [gw_wf]), the document's own
    [_id] otherwise, which the unique index accepts only once
    ([gw_insert_own_id], [gw_insert_dup]). *)
Class GatewayLaws (St : Type) `{Gateway St} `{RegexEngine} : Prop := {
  gw_insert_ok : forall (c : string) (d : dict) (st : St),
    gw_wf st -> gw_room st -> gw_up st = true -> dict_mem "_id" d = false ->
    exists id st', gw_insert c d st = Ok (VOid id, st') /\
      gw_docs c st' = (gw_docs c st ++ [("_id", VOid id) :: d])%list /\
      (forall c', c' <> c -> gw_docs c' st' = gw_docs c' st) /\
      gw_up st' = true /\ gw_wf st' /\
      Forall is_byte id /\ List.length id = 12%nat /\
      ~ In (Some (VOid id)) (map doc_id (gw_docs c st));
  gw_insert_own_id : forall (c : string) (d : dict) (st : St) (v : value),
    gw_up st = true -> dict_get "_id" d = Some v -> id_allowed v = true ->
    Forall (fun x => id_clash v x = false) (gw_docs c st) ->
    exists st', gw_insert c d st = Ok (v, st') /\
      gw_docs c st' = (gw_docs c st ++ [("_id", v) :: dict_del "_id" d])%list /\
      (forall c', c' <> c -> gw_docs c' st' = gw_docs c' st) /\ gw_up st' = true;
  gw_insert_dup : forall (c : string) (d : dict) (st : St) (v : value),
    gw_up st = true -> dict_get "_id" d = Some v -> id_allowed v = true ->
    Exists (fun x => id_clash v x = true) (gw_docs c st) ->
    exists m det, gw_insert c d st = Err (OperationFailure m det);
  gw_insert_down : forall (c : string) (d : dict) (st : St), gw_up st = false -> exists m, gw_insert c d st = Err (DbError m);
  gw_find_ok : forall (c : string) (f : dict) (n : Z) (st : St), gw_up st = true -> filter_error f = None ->
    gw_find c f n st = Ok (apply_limit n (List.filter (matches f) (gw_docs c st)));
  gw_find_bad : forall (c : string) (f : dict) (n : Z) (st : St) (m : string), gw_up st = true -> filter_error f = Some m ->
    exists det, gw_find c f n st = Err (OperationFailure m det);
  gw_find_down : forall (c : string) (f : dict) (n : Z) (st : St), gw_up st = false -> exists m, gw_find c f n st = Err (DbError m);
  gw_find_one_bad : forall (c : string) (f : dict) (st : St) (m : string), gw_up st = true ->
    filter_error f = Some m -> exists det, gw_find_one c f st = Err (OperationFailure m det);
  gw_find_one_ok : forall (c : string) (f : dict) (st : St), gw_up st = true -> filter_error f = None ->
    gw_find_one c f st = Ok (head (List.filter (matches f) (gw_docs c st)));
  gw_find_one_down : forall (c : string) (f : dict) (st : St), gw_up st = false -> exists m, gw_find_one c f st = Err (DbError m);
  gw_names_ok : forall (st : St), gw_up st = true -> exists l, gw_collection_names st = Ok l;
  gw_wf_ids : forall (c : string) (st : St), gw_wf st ->
    Forall (fun d => exists id, doc_id d = Some (VOid id) /\
                                Forall is_byte id /\ List.length id = 12%nat) (gw_docs c st);
  gw_wf_nodup : forall (c : string) (st : St), gw_wf st -> List.NoDup (map doc_id (gw_docs c st))
}.

(** ** The store *)

Record store : Type := mkStore {
  colls : gmap string (list dict);
  next_id : Z;
  reachable : bool;
  db_name : string
}.

(** The [k] big-endian bytes of [n]. *)
Fixpoint be_bytes (k : nat) (n : Z) : list Z :=
  match k with
  | O => []
  | S k' => (be_bytes k' (n / 256) ++ [n mod 256])%Z
  end.

Definition be_value (l : list Z) : Z := fold_left (fun acc b => acc * 256 + b)%Z l 0%Z.

(** The id the store hands out for counter [n]: its twelve big-endian
    bytes. *)
Definition oid_of_counter (n : Z) : list Z := be_bytes 12 n.

Definition coll_docs (c : string) (st : store) : list dict :=
  match colls st !! c with Some l => l | None => [] end.

Definition unreachable_msg : string := "No servers available (server selection timed out)".

(** The server's rendering of a key in its messages. *)
Local Open Scope string_scope.

Fixpoint mongo_repr (v : value) : string :=
  match v with
  | VNone => "null"
  | VBool b => if b then "true" else "false"
  | VInt z => str_Z z
  | VFloat f => float_repr f
  | VStr s => String dquote (s ++ String dquote EmptyString)%string
  | VOid bs => "ObjectId('" ++ oid_str bs ++ "')"
  | VList l => "[ " ++ join ", " (map mongo_repr l) ++ " ]"
  | VDict d => "{ " ++ join ", " (map (fun kv => fst kv ++ ": " ++ mongo_repr (snd kv))%string d) ++ " }"
  end.

(** pymongo's [WriteError] for the first (only) document of an insert:
    [str(e)] is the server's message, then [", full error: "] and the
    error document. *)
Definition write_error (code : Z) (m rest : string) : exc :=
  OperationFailure m ("{'index': 0, 'code': " ++ str_Z code ++ ", 'errmsg': " ++ py_repr m ++ rest ++ "}").

Definition array_id_error : exc := write_error 2 "can't use an array for _id" "".

(** [DuplicateKeyError]: the key is already in the [_id] index. *)
Definition dup_key_error (db c : string) (v : value) : exc :=
  write_error 11000
    ("E11000 duplicate key error collection: " ++ db ++ "." ++ c ++ " index: _id_ dup key: { _id: " ++ mongo_repr v ++ " }")
    (", 'keyPattern': {'_id': 1}, 'keyValue': {'_id': " ++ py_repr_value v ++ "}").

Local Close Scope string_scope.
Local Open Scope list_scope.

(** The [_id] of an inserted document and the counter afterwards: its
    own, or a fresh [ObjectId] that pymongo adds. *)
Definition new_id (d : dict) (n : Z) : value * Z :=
  match dict_get "_id" d with
  | Some v => (v, n)
  | None => (VOid (oid_of_counter n), (n + 1)%Z)
  end.

(** [insert_one]: the document is stored with its [_id] first, unless the
    id is an array or is already the key of a document of the
    collection. *)
Definition store_insert (c : string) (d : dict) (st : store) : py (value * store) :=
  if negb (reachable st) then Err (DbError unreachable_msg)
  else
    let '(id, n) := new_id d (next_id st) in
    if negb (id_allowed id) then Err array_id_error
    else if existsb (id_clash id) (coll_docs c st) then Err (dup_key_error (db_name st) c id)
    else Ok (id, mkStore (<[c := (coll_docs c st ++ [("_id", id) :: dict_del "_id" d])%list]> (colls st))
                         n true (db_name st)).

(** The server's error document for a rejected query ([BadValue]). *)
Definition error_document (m : string) : string :=
  ("{'ok': 0.0, 'errmsg': " ++ py_repr m ++ ", 'code': 2, 'codeName': 'BadValue'}")%string.

Section Queries.
Context `{RegexEngine}.

Definition store_find (c : string) (f : dict) (n : Z) (st : store) : py (list dict) :=
  if negb (reachable st) then Err (DbError unreachable_msg)
  else match filter_error f with
       | Some m => Err (OperationFailure m (error_document m))
       | None => Ok (apply_limit n (List.filter (matches f) (coll_docs c st)))
       end.

Definition store_find_one (c : string) (f : dict) (st : store) : py (option dict) :=
  if negb (reachable st) then Err (DbError unreachable_msg)
  else match filter_error f with
       | Some m => Err (OperationFailure m (error_document m))
       | None => Ok (head (List.filter (matches f) (coll_docs c st)))
       end.

End Queries.

Definition store_collection_names (st : store) : py (list string) :=
  if reachable st then Ok (map fst (map_to_list (colls st))) else Err (DbError unreachable_msg).

(** ** Invariants *)

(** A stored document: its [_id] first, not an array, and no other
    [_id]. *)
Definition stored_doc (d : dict) : Prop :=
  exists id r, d = ("_id", id) :: r /\ dict_mem "_id" r = false /\ id_allowed id = true.

(** The unique index: no document has the key of an earlier one. *)
Definition ids_unique (l : list dict) : Prop :=
  ForallOrdPairs (fun a b => forall v, doc_id b = Some v -> id_clash v a = false) l.

(** What holds of every state of the server ([store_reachable_inv]). *)
Definition store_inv (st : store) : Prop :=
  forall c, Forall stored_doc (coll_docs c st) /\ ids_unique (coll_docs c st).

(** Every id is one the counter handed out. *)
Definition counter_ids (n : Z) (l : list dict) : Prop :=
  Forall (fun d => exists k, (0 <= k < n)%Z /\ doc_id d = Some (VOid (oid_of_counter k))) l.

(** A store whose ids are all its own (no client chose one), the counter
    at most [2^96], below which its twelve bytes are injective. *)
Definition store_wf (st : store) : Prop :=
  store_inv st /\ (0 <= next_id st <= 2 ^ 96)%Z /\ forall c, counter_ids (next_id st) (coll_docs c st).

(** Room for one more fresh id. *)
Definition store_room (st : store) : Prop := (next_id st < 2 ^ 96)%Z.

#[export] Instance store_gateway `{RegexEngine} : Gateway store := {
  gw_insert := store_insert;
  gw_find := store_find;
  gw_find_one := store_find_one;
  gw_collection_names := store_collection_names;
  gw_name := db_name;
  gw_docs := coll_docs;
  gw_up := reachable;
  gw_wf := store_wf;
  gw_room := store_room
}.

(** ** Lemmas on ids *)

Lemma be_bytes_length k n : List.length (be_bytes k n) = k.
Proof.
  revert n; induction k as [|k IH]; intros n; simpl; [reflexivity|].
  rewrite length_app, IH. simpl. lia.
Qed.

Lemma be_bytes_bytes k n : Forall is_byte (be_bytes k n).
Proof.
  revert n; induction k as [|k IH]; intros n; simpl; [constructor|].
  apply Forall_app; split; [apply IH|]. constructor; [|constructor].
  unfold is_byte. pose proof (Z.mod_pos_bound n 256 ltac:(lia)). lia.
Qed.

Lemma be_value_bytes k n : be_value (be_bytes k n) = (n mod 256 ^ Z.of_nat k)%Z.
Proof.
  revert n; induction k as [|k IH]; intros n.
  - simpl. rewrite Z.mod_1_r. reflexivity.
  - cbn [be_bytes]. unfold be_value in *. rewrite fold_left_app, IH. cbn [fold_left].
    rewrite Nat2Z.inj_succ, Z.pow_succ_r by lia.
    rewrite Z.rem_mul_r by (try apply Z.pow_pos_nonneg; lia). lia.
Qed.

Lemma oid_of_counter_inj a b :
  (0 <= a < 2 ^ 96)%Z -> (0 <= b < 2 ^ 96)%Z -> oid_of_counter a = oid_of_counter b -> a = b.
Proof.
  intros Ha Hb Heq. apply (f_equal be_value) in Heq. unfold oid_of_counter in Heq.
  rewrite !be_value_bytes in Heq. change (256 ^ Z.of_nat 12)%Z with (2 ^ 96)%Z in Heq.
  rewrite !Z.mod_small in Heq by lia. exact Heq.
Qed.

Lemma coll_docs_insert_eq c l st n r nm :
  coll_docs c (mkStore (<[c:=l]> (colls st)) n r nm) = l.
Proof. unfold coll_docs; cbn [colls]. rewrite lookup_insert_eq. reflexivity. Qed.

Lemma coll_docs_insert_ne c c' l st n r nm :
  c <> c' -> coll_docs c' (mkStore (<[c:=l]> (colls st)) n r nm) = coll_docs c' st.
Proof. intros Hne. unfold coll_docs; cbn [colls]. rewrite lookup_insert_ne by exact Hne. reflexivity. Qed.

Lemma doc_id_cons_id id r : doc_id (("_id", VOid id) :: r) = Some (VOid id).
Proof. reflexivity. Qed.

Lemma dict_del_absent k d : dict_mem k d = false -> dict_del k d = d.
Proof.
  unfold dict_mem, dict_del. induction d as [|[k' v] r IH]; cbn; [reflexivity|].
  destruct (String.eqb_spec k k') as [<-|Hne]; [discriminate|].
  intros Hr. rewrite (proj2 (String.eqb_neq k' k) (not_eq_sym Hne)). cbn. f_equal. exact (IH Hr).
Qed.

Lemma dict_mem_del k d : dict_mem k (dict_del k d) = false.
Proof.
  unfold dict_mem, dict_del. induction d as [|[k' v] r IH]; cbn; [reflexivity|].
  destruct (String.eqb_spec k' k) as [->|Hne]; cbn; [exact IH|].
  rewrite (proj2 (String.eqb_neq k k') (not_eq_sym Hne)). exact IH.
Qed.

Lemma doc_id_stored id r : doc_id (("_id", id) :: r) = Some id.
Proof. reflexivity. Qed.

(** Appending a document whose key no earlier document has. *)
Lemma ids_unique_snoc l x :
  ids_unique l -> (forall v, doc_id x = Some v -> Forall (fun a => id_clash v a = false) l) ->
  ids_unique (l ++ [x])%list.
Proof.
  intros Hu Hx. induction Hu as [|a l Ha Hl IH]; cbn; [repeat constructor|].
  constructor.
  - apply List.Forall_app. split; [exact Ha|]. constructor; [|constructor].
    intros v Hv. specialize (Hx v Hv). inversion Hx. assumption.
  - apply IH. intros v Hv. specialize (Hx v Hv). inversion Hx. assumption.
Qed.

Lemma existsb_false_Forall {A : Type} (f : A -> bool) l :
  existsb f l = false -> Forall (fun a => f a = false) l.
Proof.
  intros H. apply List.Forall_forall. intros a Ha.
  destruct (f a) eqn:E; [|reflexivity].
  rewrite <- H. symmetry. apply existsb_exists. eauto.
Qed.

Lemma Forall_existsb_false {A : Type} (f : A -> bool) l :
  Forall (fun a => f a = false) l -> existsb f l = false.
Proof. induction 1 as [|a l Ha _ IH]; cbn; [reflexivity|]. rewrite Ha, IH. reflexivity. Qed.

Lemma Exists_existsb_true {A : Type} (f : A -> bool) l :
  Exists (fun a => f a = true) l -> existsb f l = true.
Proof. intros H. apply existsb_exists. apply List.Exists_exists in H. exact H. Qed.

(** A successful insertion keeps the unique index. *)
Lemma store_insert_inv c d st id st' :
  store_inv st -> store_insert c d st = Ok (id, st') -> store_inv st'.
Proof.
  unfold store_insert. destruct (reachable st); [|discriminate]. cbn [negb].
  destruct (new_id d (next_id st)) as [v n].
  destruct (id_allowed v) eqn:Ha; [|discriminate]. cbn [negb].
  destruct (existsb (id_clash v) (coll_docs c st)) eqn:Hx; [discriminate|].
  intros Hinv [= <- <-] c'. destruct (String.eqb_spec c c') as [<-|Hne].
  - rewrite coll_docs_insert_eq. destruct (Hinv c) as [Hs Hu]. split.
    + apply List.Forall_app. split; [exact Hs|]. constructor; [|constructor].
      exists v, (dict_del "_id" d). split; [reflexivity|]. split; [apply dict_mem_del | exact Ha].
    + apply ids_unique_snoc; [exact Hu|]. intros w Hw. rewrite doc_id_stored in Hw.
      injection Hw as <-. apply existsb_false_Forall, Hx.
  - rewrite coll_docs_insert_ne by exact Hne. apply Hinv.
Qed.

Lemma counter_ids_mono n n' l : (n <= n')%Z -> counter_ids n l -> counter_ids n' l.
Proof.
  intros Hle. apply List.Forall_impl. intros d (k & Hk & Hd). exists k. split; [lia | exact Hd].
Qed.

(** The id handed out next is not the key of any stored document. *)
Lemma counter_fresh st c :
  store_wf st -> store_room st ->
  Forall (fun a => id_clash (VOid (oid_of_counter (next_id st))) a = false) (coll_docs c st).
Proof.
  intros (_ & Hn & Hids) Hroom. unfold store_room in Hroom.
  eapply List.Forall_impl; [|exact (Hids c)]. intros a (k & Hk & Hd).
  unfold id_clash. rewrite Hd. cbn [bson_eq].
  destruct (bytes_eqb _ _) eqn:E; [|reflexivity].
  apply bytes_eqb_eq, oid_of_counter_inj in E; lia.
Qed.

Lemma new_id_fresh d n : dict_mem "_id" d = false -> new_id d n = (VOid (oid_of_counter n), (n + 1)%Z).
Proof. unfold new_id, dict_mem. destruct (dict_get "_id" d); [discriminate | reflexivity]. Qed.

Lemma new_id_own d n v : dict_get "_id" d = Some v -> new_id d n = (v, n).
Proof. unfold new_id. intros ->. reflexivity. Qed.

Section Laws.
Context `{RegexEngine}.

(** A document without [_id] gets the counter's id. *)
Lemma store_insert_ok c d st :
  store_wf st -> store_room st -> reachable st = true -> dict_mem "_id" d = false ->
  exists st', store_insert c d st = Ok (VOid (oid_of_counter (next_id st)), st') /\
    coll_docs c st' = coll_docs c st ++ [("_id", VOid (oid_of_counter (next_id st))) :: d] /\
    (forall c', c' <> c -> coll_docs c' st' = coll_docs c' st) /\
    reachable st' = true /\ store_wf st' /\ next_id st' = (next_id st + 1)%Z.
Proof.
  intros Hwf Hroom Hup Hid.
  assert (Hins : store_insert c d st =
    Ok (VOid (oid_of_counter (next_id st)),
        mkStore (<[c := (coll_docs c st ++ [("_id", VOid (oid_of_counter (next_id st))) :: d])%list]> (colls st))
                (next_id st + 1)%Z true (db_name st))).
  { unfold store_insert. rewrite Hup, (new_id_fresh d _ Hid). cbn [negb id_allowed].
    rewrite (Forall_existsb_false _ _ (counter_fresh st c Hwf Hroom)), (dict_del_absent _ _ Hid).
    reflexivity. }
  eexists. split; [exact Hins|]. rewrite coll_docs_insert_eq. split; [reflexivity|]. split.
  { intros c' Hne. apply coll_docs_insert_ne. congruence. }
  split; [reflexivity|]. split; [|reflexivity].
  destruct Hwf as (Hinv & Hn & Hids). unfold store_room in Hroom.
  split; [exact (store_insert_inv c d st _ _ Hinv Hins)|]. split; [cbn; lia|]. intros c'. cbn [next_id].
  destruct (String.eqb_spec c c') as [<-|Hc].
  - rewrite coll_docs_insert_eq. apply List.Forall_app. split.
    + apply (counter_ids_mono (next_id st)); [lia | apply Hids].
    + constructor; [|constructor]. exists (next_id st). split; [lia | reflexivity].
  - rewrite coll_docs_insert_ne by exact Hc. apply (counter_ids_mono (next_id st)); [lia | apply Hids].
Qed.

(** Two documents of a store whose ids are the counter's have distinct
    ids. *)
Lemma counter_ids_nodup n l : counter_ids n l -> ids_unique l -> List.NoDup (map doc_id l).
Proof.
  intros Hc Hu. induction Hu as [|a l Ha Hl IH]; cbn [map]; constructor.
  - inversion Hc as [|? ? (k & _ & Hda) _]; subst.
    intros Hin. apply in_map_iff in Hin as (b & Hb & Hin).
    pose proof (proj1 (List.Forall_forall _ _) Ha b Hin _ (eq_trans Hb Hda)) as E.
    unfold id_clash in E. rewrite Hda in E. cbn [bson_eq] in E.
    rewrite (proj2 (bytes_eqb_eq _ _) eq_refl) in E. discriminate.
  - apply IH. inversion Hc. assumption.
Qed.

#[export] Instance store_gateway_laws : GatewayLaws store.
Proof.
  split; cbn [gw_insert gw_find gw_find_one gw_collection_names gw_docs gw_up gw_wf gw_room
              store_gateway].
  - intros c d st Hwf Hroom Hup Hid.
    destruct (store_insert_ok c d st Hwf Hroom Hup Hid) as (st' & Hins & Hc & Hne & Hup' & Hwf' & _).
    exists (oid_of_counter (next_id st)), st'.
    do 5 (split; [assumption|]).
    split; [apply be_bytes_bytes|]. split; [apply be_bytes_length|].
    intros Hin. apply in_map_iff in Hin as (a & Ha & Hin).
    pose proof (proj1 (List.Forall_forall _ _) (counter_fresh st c Hwf Hroom) a Hin) as E.
    unfold id_clash in E. rewrite Ha in E. cbn [bson_eq] in E.
    rewrite (proj2 (bytes_eqb_eq _ _) eq_refl) in E. discriminate.
  - intros c d st v Hup Hd Ha Hfree. unfold store_insert. rewrite Hup, (new_id_own d _ v Hd), Ha.
    cbn [negb]. rewrite (Forall_existsb_false _ _ Hfree).
    eexists. split; [reflexivity|]. rewrite coll_docs_insert_eq. split; [reflexivity|].
    split; [|reflexivity]. intros c' Hne. apply coll_docs_insert_ne. congruence.
  - intros c d st v Hup Hd Ha Hdup. unfold store_insert. rewrite Hup, (new_id_own d _ v Hd), Ha.
    cbn [negb]. rewrite (Exists_existsb_true _ _ Hdup). eauto.
  - intros c d st Hdown. unfold store_insert. rewrite Hdown. eauto.
  - intros c f n st Hup Hf. unfold store_find. rewrite Hup, Hf. reflexivity.
  - intros c f n st m Hup Hf. unfold store_find. rewrite Hup, Hf. eauto.
  - intros c f n st Hdown. unfold store_find. rewrite Hdown. eauto.
  - intros c f st m Hup Hf. unfold store_find_one. rewrite Hup, Hf. eauto.
  - intros c f st Hup Hf. unfold store_find_one. rewrite Hup, Hf. reflexivity.
  - intros c f st Hdown. unfold store_find_one. rewrite Hdown. eauto.
  - intros st Hup. unfold store_collection_names. rewrite Hup. eauto.
  - intros c st (_ & _ & Hids). eapply List.Forall_impl; [|apply (Hids c)].
    intros d (k & _ & Hd). eexists; split; [exact Hd|].
    split; [apply be_bytes_bytes | apply be_bytes_length].
  - intros c st (Hinv & _ & Hids). exact (counter_ids_nodup _ _ (Hids c) (proj2 (Hinv c))).
Qed.

End Laws.

(** ** The server as a state machine

    The transitions the program can observe: an insertion of any
    document (the handlers insert what the client sent, [_id] included),
    and the server becoming unreachable or reachable again. *)
Definition empty_store (name : string) : store := mkStore ∅ 0%Z true name.

Inductive store_step : store -> store -> Prop :=
| step_insert c d st id st' : store_insert c d st = Ok (id, st') -> store_step st st'
| step_down st : store_step st (mkStore (colls st) (next_id st) false (db_name st))
| step_up st : store_step st (mkStore (colls st) (next_id st) true (db_name st)).

Inductive store_reachable (st0 : store) : store -> Prop :=
| reach_refl : store_reachable st0 st0
| reach_step st st' : store_reachable st0 st -> store_step st st' -> store_reachable st0 st'.

Lemma empty_store_wf name : store_wf (empty_store name).
Proof.
  split; [|split]; cbn [next_id empty_store]; [intros c | lia | intros c];
    unfold coll_docs; cbn [colls empty_store]; rewrite lookup_empty; repeat constructor.
Qed.

Lemma store_step_inv st st' : store_inv st -> store_step st st' -> store_inv st'.
Proof.
  intros Hinv Hs. destruct Hs as [c d st id st' Hins | st | st].
  - exact (store_insert_inv c d st id st' Hinv Hins).
  - exact Hinv.
  - exact Hinv.
Qed.

(** A successful insertion of a document without [_id] hands out the
    counter's id, advances the counter by one and appends to one
    collection. *)
Lemma store_insert_next c d st id st' :
  dict_mem "_id" d = false -> store_insert c d st = Ok (id, st') ->
  id = VOid (oid_of_counter (next_id st)) /\ next_id st' = (next_id st + 1)%Z /\
  forall c', exists l, coll_docs c' st' = (coll_docs c' st ++ l)%list.
Proof.
  intros Hid. unfold store_insert. rewrite (new_id_fresh d _ Hid).
  destruct (negb (reachable st)); [discriminate|]. cbn [id_allowed negb].
  destruct (existsb _ _); [discriminate|].
  intros Hins. injection Hins as <- <-. split; [reflexivity | split; [reflexivity|]]. intros c'.
  destruct (decide (c = c')) as [<-|Hne]; [rewrite coll_docs_insert_eq; eauto|].
  rewrite coll_docs_insert_ne by exact Hne. exists []. rewrite app_nil_r. reflexivity.
Qed.

(** In every state the server reaches from an empty database, by any
    insertions (documents with or without their own [_id]) and outages,
    each stored document starts with its [_id], which is not an array,
    and no two documents of a collection have equal keys as MongoDB
    compares them ([1] and [1.0] included): an insertion whose key is
    taken fails instead. *)
Theorem store_reachable_inv name st :
  store_reachable (empty_store name) st -> store_inv st.
Proof.
  induction 1 as [|st st' _ IH Hs]; [exact (proj1 (empty_store_wf name))|].
  exact (store_step_inv st st' IH Hs).
Qed.
