(* ===== verification/Api.v ===== *)
(** * The HTTP handlers of [src/main.py]

    Each handler is a function of the request's parameters and of the
    database handle [db] ([database.db], [None] when the store is not
    configured), returning the HTTP response and, for the endpoints that
    write, the new state of the store.  They are written against the
    [Gateway] interface and proved against its [GatewayLaws] only.

    - [respond] is FastAPI's side: a returned value is rendered as JSON
      with the endpoint's status (a non-finite float or a raw [ObjectId]
      makes rendering fail: a plain 500); an [HTTPException] becomes its
      status with [{"detail": ...}].
    - [reraise_500] is the handlers' [except Exception as e: raise
      HTTPException(status_code=500, detail=str(e))], which also catches
      the [HTTPException(404)] raised inside the same [try].
    - [create_document] and [get_documents] are [database.py]'s helpers,
      modelled from the spec's gateway contract ([insert] returns the id as
      a string; [find] with a filter and a limit). *)

From Stdlib Require Import ZArith List String Ascii Bool Lia Floats.
From S2P Require Import Prelude Python ObjectId PyRepr Regex Filter Store Pricing Query.
Import ListNotations.
Open Scope string_scope.
Open Scope shop_scope.

(** ** Responses *)

Record response : Type := Resp { status : Z; body : value }.

Definition server_error : response := Resp 500 (VStr "Internal Server Error").

Definition respond (code : Z) (r : py value) : response :=
  match r with
  | Ok v => if renderable v then Resp code v else server_error
  | Err (HTTPException s d) => Resp s (VDict [("detail", VStr d)])
  | Err _ => server_error
  end.

Definition reraise_500 {A : Type} (r : py A) : py A :=
  match r with
  | Ok a => Ok a
  | Err e => Err (HTTPException 500 (str_exc e))
  end.

(** [p["_id"] = str(p["_id"]) if "_id" in p else None]. *)
Definition stringify_id (p : dict) : dict :=
  dict_set "_id" (match dict_get "_id" p with Some v => VStr (str_value v) | None => VNone end) p.

(** The JSON body of [list_products] for the documents the store returns. *)
Definition items_value (ps : list dict) : value :=
  VDict [("items", VList (map (fun p => VDict (stringify_id p)) ps))].

(** ** The product schema (spec section 3) and its [model_dump] *)

(** The declared fields, and [extra]: the additional fields of the request
    as given, in their order (the schema allows extra fields). *)
Record Product : Type := mkProduct {
  title : string;
  description : string;
  category : string;
  price : float;
  extra : dict
}.

(** [model_dump()] lists the declared fields, then the extra ones. *)
Definition product_dump (p : Product) : dict :=
  ([("title", VStr (title p)); ("description", VStr (description p));
   ("category", VStr (category p)); ("price", VFloat (price p))] ++ extra p)%list.

(** Lines 22-27: the request bodies of [POST /api/products] and
    [POST /api/orders] are subclasses of the schemas that add nothing. *)
Definition CreateProductBody : Type := Product.
Definition CreateOrderBody : Type := Order.

Section Handlers.
Context {St : Type} `{Gateway St} `{RegexEngine}.

(** ** [database.py] *)

Definition db_unavailable : exc := DbError "Database not available".

Definition create_document (db : option St) (c : string) (d : dict) : py (string * St) :=
  match db with
  | None => Err db_unavailable
  | Some st =>
      match gw_insert c d st with
      | Ok (id, st') => Ok (str_value id, st')
      | Err e => Err e
      end
  end.

Definition get_documents (db : option St) (c : string) (f : dict) (limit : Z) : py (list dict) :=
  match db with
  | None => Err db_unavailable
  | Some st => gw_find c f limit st
  end.

(** ** The endpoints *)

(** [GET /] (lines 30-32). *)
Definition read_root : response :=
  Resp 200 (VDict [("message", VStr "E-Commerce API running")]).

(** [GET /api/products] (lines 35-54). *)
Definition list_products_body (db : option St) (category q : option string) (limit : Z)
  : py value :=
  reraise_500 (
    let filter_dict := build_filter category q in
    products <- get_documents db "product" filter_dict limit ;;
    Ok (VDict [("items", VList (map (fun p => VDict (stringify_id p)) products))])).

Definition list_products (db : option St) (category q : option string) (limit : Z) : response :=
  respond 200 (list_products_body db category q limit).

(** [POST /api/products] (lines 57-63). *)
Definition create_product_body (db : option St) (body : CreateProductBody) : py (value * St) :=
  reraise_500 (
    match create_document db "product" (product_dump body) with
    | Ok (pid, st') => Ok (VDict [("id", VStr pid)], st')
    | Err e => Err e
    end).

Definition create_product (db : option St) (body : CreateProductBody) : response * option St :=
  match create_product_body db body with
  | Ok (v, st') => (respond 201 (Ok v), Some st')
  | Err e => (respond 201 (Err e), db)
  end.

(** The product collection of the handle, [db["product"]]. *)
Definition product_collection (db : option St) : py St :=
  match db with
  | None => Err (TypeError "'NoneType' object is not subscriptable")
  | Some st => Ok st
  end.

(** [GET /api/products/{product_id}] (lines 66-75): [db["product"]] is
    evaluated before [ObjectId(product_id)]. *)
Definition get_product_body (db : option St) (product_id : string) : py value :=
  reraise_500 (
    st <- product_collection db ;;
    oid <- parse_oid product_id ;;
    doc <- gw_find_one "product" [("_id", VOid oid)] st ;;
    match doc with
    | None | Some [] => Err (HTTPException 404 "Product not found")
    | Some d => Ok (VDict (stringify_id d))
    end).

Definition get_product (db : option St) (product_id : string) : response :=
  respond 200 (get_product_body db product_id).

(** [POST /api/orders] (lines 78-90). *)
Definition create_order_body (v : pyversion) (db : option St) (body : CreateOrderBody)
  : py (value * St) :=
  reraise_500 (
    tots <- order_totals v body ;;
    let payload := order_payload body (fst tots) (snd tots) in
    match create_document db "order" payload with
    | Ok (oid, st') => Ok (VDict [("id", VStr oid); ("total", value_of_num (snd tots))], st')
    | Err e => Err e
    end).

Definition create_order (v : pyversion) (db : option St) (body : CreateOrderBody) : response * option St :=
  match create_order_body v db body with
  | Ok (r, st') => (respond 201 (Ok r), Some st')
  | Err e => (respond 201 (Err e), db)
  end.

End Handlers.

(** ** The diagnostic endpoint [GET /test] (lines 93-127)

    [env] is [os.getenv]; the handle's name and collection listing come
    from the gateway.  The outer [try] of lines 104-121 can raise nothing
    in this model (the only call that can fail, [db.list_collection_names],
    has its own [try]), so its handler of line 120 is not reached.  Python
    slices [str(e)[:50]] by characters; the model's messages are ASCII. *)

(** [os.getenv(k)] is truthy: set and not empty. *)
Definition env_set (env : string -> option string) (k : string) : bool :=
  match env k with Some v => truthy_str v | None => false end.

Definition diag_init : dict :=
  [("backend", VStr "✅ Running"); ("database", VStr "❌ Not Available");
   ("database_url", VNone); ("database_name", VNone);
   ("connection_status", VStr "Not Connected"); ("collections", VList [])].

Section Diagnostics.
Context {St : Type} `{Gateway St}.

Definition test_database_body (env : string -> option string) (db : option St) : dict :=
  let r := diag_init in
  let r :=
    match db with
    | Some st =>
        let r := dict_set "database" (VStr "✅ Available") r in
        let r := dict_set "database_url" (VStr "✅ Configured") r in
        let r := dict_set "database_name" (VStr (gw_name st)) r in
        let r := dict_set "connection_status" (VStr "Connected") r in
        match gw_collection_names st with
        | Ok cs =>
            let r := dict_set "collections" (VList (map VStr (firstn 10 cs))) r in
            dict_set "database" (VStr "✅ Connected & Working") r
        | Err e =>
            dict_set "database" (VStr ("⚠️  Connected but Error: " ++ substring 0 50 (str_exc e))) r
        end
    | None => dict_set "database" (VStr "⚠️  Available but not initialized") r
    end in
  let r := dict_set "database_url"
             (VStr (if env_set env "DATABASE_URL" then "✅ Set" else "❌ Not Set")) r in
  dict_set "database_name"
    (VStr (if env_set env "DATABASE_NAME" then "✅ Set" else "❌ Not Set")) r.

Definition test_database (env : string -> option string) (db : option St) : response :=
  respond 200 (Ok (VDict (test_database_body env db))).

End Diagnostics.

(** ** Lemmas shared by the handler theorems *)

Lemma value_eqb_oid a w : value_eqb (VOid a) w = true <-> w = VOid a.
Proof.
  destruct w; simpl; try (split; discriminate).
  rewrite bytes_eqb_eq. split; congruence.
Qed.

Lemma dict_mem_not_key k d : ~ In k (map fst d) -> dict_mem k d = false.
Proof.
  unfold dict_mem. induction d as [|[k' v] r IH]; simpl; [reflexivity|].
  intros Hn. destruct (String.eqb_spec k k') as [->|_]; [tauto|]. apply IH. tauto.
Qed.

(** The [_id] of a product's dump is the one among its extra fields. *)
Lemma product_dump_get_id b : dict_get "_id" (product_dump b) = dict_get "_id" (extra b).
Proof. reflexivity. Qed.

Lemma product_dump_own_id b : negb (dict_mem "_id" (extra b)) = true -> dict_mem "_id" (product_dump b) = false.
Proof. unfold dict_mem. rewrite product_dump_get_id. destruct (dict_get "_id" (extra b)); easy. Qed.

(** The payload of an order has no [_id]. *)
Lemma order_payload_no_id o sub tot : dict_mem "_id" (order_payload o sub tot) = false.
Proof. apply dict_mem_not_key. rewrite order_payload_keys. simpl. intuition discriminate. Qed.

Lemma filter_error_id `{RegexEngine} oid : filter_error [("_id", VOid oid)] = None.
Proof. reflexivity. Qed.

(** A filter on the [_id] matches the documents with that id. *)
Lemma matches_id `{RegexEngine} oid d :
  matches [("_id", VOid oid)] d = match doc_id d with Some w => value_eqb (VOid oid) w | None => false end.
Proof.
  unfold matches. cbn. rewrite andb_true_r. unfold field_matches, doc_id.
  destruct (dict_get "_id" d); reflexivity.
Qed.

Lemma filter_all_false {A : Type} (p : A -> bool) l :
  (forall x, In x l -> p x = false) -> List.filter p l = [].
Proof.
  induction l as [|x l IH]; simpl; intros Hl; [reflexivity|].
  rewrite (Hl x (or_introl eq_refl)). apply IH. auto.
Qed.

Lemma filter_ext_eq {A : Type} (p q : A -> bool) l :
  (forall x, p x = q x) -> List.filter p l = List.filter q l.
Proof. intros Hpq. induction l as [|x l IH]; simpl; [|rewrite Hpq, IH]; reflexivity. Qed.

(** No stored document carries an id that is not among the stored ids. *)
Lemma filter_id_absent `{RegexEngine} oid l :
  ~ In (Some (VOid oid)) (map doc_id l) -> List.filter (matches [("_id", VOid oid)]) l = [].
Proof.
  intros Hn. apply filter_all_false. intros d Hd. rewrite matches_id.
  destruct (doc_id d) as [w|] eqn:Hw; [|reflexivity].
  destruct (value_eqb (VOid oid) w) eqn:He; [|reflexivity].
  apply value_eqb_oid in He. subst w. exfalso. apply Hn.
  apply in_map_iff. eauto.
Qed.

(** Among documents with pairwise distinct ids, the filter on the id of
    one of them selects exactly that one. *)
Lemma filter_id_unique `{RegexEngine} oid p l :
  NoDup (map doc_id l) -> In p l -> doc_id p = Some (VOid oid) ->
  List.filter (matches [("_id", VOid oid)]) l = [p].
Proof.
  intros Hnd Hin Hp. induction l as [|d l IH]; [destruct Hin|].
  inversion Hnd as [|x y Hd Hnd']; subst. cbn [List.filter]. rewrite matches_id.
  destruct Hin as [<-|Hin].
  - rewrite Hp. cbn [value_eqb]. rewrite (proj2 (bytes_eqb_eq oid oid) eq_refl).
    rewrite filter_id_absent; [reflexivity|]. rewrite <- Hp. exact Hd.
  - destruct (doc_id d) as [w|] eqn:Hw; [|apply IH; assumption].
    destruct (value_eqb (VOid oid) w) eqn:He; [|apply IH; assumption].
    apply value_eqb_oid in He; subst w. exfalso. apply Hd. rewrite <- Hp.
    apply in_map. exact Hin.
Qed.

(** The string a listing shows for a stored id parses back to it. *)
Lemma parse_oid_str_value id :
  Forall is_byte id -> List.length id = 12%nat -> parse_oid (str_value (VOid id)) = Ok id.
Proof.
  intros Hb Hl. unfold str_value, parse_oid, oid_str.
  rewrite length_hexlify, Hl, (fromhex_hexlify id Hb). reflexivity.
Qed.

Lemma apply_limit_length n l :
  n <> 0%Z -> (List.length (apply_limit n l) <= Z.to_nat (Z.abs n))%nat.
Proof.
  intros Hn. unfold apply_limit. destruct (Z.eqb_spec n 0); [contradiction|].
  rewrite length_firstn. lia.
Qed.

Lemma apply_limit_incl n l x : In x (apply_limit n l) -> In x l.
Proof.
  unfold apply_limit. destruct (Z.eqb n 0); [auto|]. intros Hx.
  rewrite <- (firstn_skipn (Z.to_nat (Z.abs n)) l). apply in_or_app. auto.
Qed.

Lemma reraise_500_ok {A : Type} (a : A) : reraise_500 (Ok a) = Ok a.
Proof. reflexivity. Qed.

Lemma reraise_500_err {A : Type} (e : exc) :
  @reraise_500 A (Err e) = Err (HTTPException 500 (str_exc e)).
Proof. reflexivity. Qed.

#[export] Hint Rewrite @reraise_500_ok @reraise_500_err : shop.

(** A gateway call on an unreachable store fails with [DbError]: the
    handler's response is then a 500. *)
Ltac gw_down Hdown :=
  match goal with
  | |- context [gw_find ?c ?f ?n ?st] => destruct (gw_find_down c f n st Hdown) as [? ->]
  | |- context [gw_find_one ?c ?f ?st] => destruct (gw_find_one_down c f st Hdown) as [? ->]
  | |- context [gw_insert ?c ?d ?st] => destruct (gw_insert_down c d st Hdown) as [? ->]
  end; eexists; reflexivity.

(** ** Properties of the handlers *)

Section Properties.
Context {St : Type} `{GatewayLaws St} `{!RegexEngineLaws}.

(** What a successful listing returns: the store was up, accepted the
    filter, and answered with the first [limit] matching products. *)
Lemma list_products_body_Ok_inv st c q n v :
  list_products_body (Some st) c q n = Ok v ->
  gw_up st = true /\ filter_error (build_filter c q) = None /\
  v = items_value (apply_limit n (List.filter (matches (build_filter c q)) (gw_docs "product" st))).
Proof.
  unfold list_products_body, get_documents. destruct (gw_up st) eqn:Hup.
  - destruct (filter_error (build_filter c q)) as [m|] eqn:Hf.
    + destruct (gw_find_bad "product" _ n st m Hup Hf) as [det ->]. discriminate.
    + rewrite (gw_find_ok _ _ _ _ Hup Hf). cbn. intros He. injection He as <-. auto.
  - destruct (gw_find_down "product" (build_filter c q) n st Hup) as [m ->]. discriminate.
Qed.

(** C8: fetching a product by a well-formed id that the store never handed
    out answers 500, not the 404 the spec asks for: the
    [HTTPException(404)] raised inside the [try] is caught by [except
    Exception] and re-raised as a 500 whose detail is
    ["404: Product not found"]. *)
Theorem get_product_missing_is_500 st pid oid :
  gw_up st = true -> parse_oid pid = Ok oid ->
  ~ In (Some (VOid oid)) (map doc_id (gw_docs "product" st)) ->
  get_product (Some st) pid = Resp 500 (VDict [("detail", VStr "404: Product not found")]).
Proof.
  intros Hup Hp Hn. unfold get_product, get_product_body. cbn [product_collection bind_result].
  rewrite Hp. cbn [bind_result].
  rewrite (gw_find_one_ok _ _ _ Hup (filter_error_id oid)), (filter_id_absent oid _ Hn).
  reflexivity.
Qed.

(** C18: a malformed id (no whitespace, not 24 hex digits) answers 500 with
    bson's [InvalidId] message: the spec would distinguish it as a
    validation error. *)
Theorem get_product_malformed_is_500 st pid :
  no_space pid = true -> ~ (String.length pid = 24%nat /\ all_hex pid = true) ->
  get_product (Some st) pid = Resp 500 (VDict [("detail", VStr (invalid_id_msg pid))]).
Proof.
  intros Hns Hbad. unfold get_product, get_product_body. cbn [product_collection bind_result].
  rewrite (parse_oid_bad pid Hns Hbad). reflexivity.
Qed.

(** C29: without a database ([database.db] is [None]) every endpoint that
    uses the store answers 500 and nothing is written: [list_products],
    [create_product] and [create_order] with [database.py]'s
    ["Database not available"] (an order whose pricing raises fails first,
    with that error), [get_product] with Python's [TypeError] on
    [db["product"]]; the two endpoints that do not need the store answer
    200: [GET /] with its message, [GET /test] reporting the database as
    available but not initialized. *)
Theorem handlers_db_none_500 v env c q n pid body o :
  list_products (@None St) c q n = Resp 500 (VDict [("detail", VStr "Database not available")]) /\
  get_product (@None St) pid =
    Resp 500 (VDict [("detail", VStr "'NoneType' object is not subscriptable")]) /\
  create_product (@None St) body =
    (Resp 500 (VDict [("detail", VStr "Database not available")]), None) /\
  create_order v (@None St) o =
    (Resp 500 (VDict [("detail", VStr (match order_totals v o with
                                       | Ok _ => "Database not available"
                                       | Err e => str_exc e
                                       end))]), None) /\
  read_root = Resp 200 (VDict [("message", VStr "E-Commerce API running")]) /\
  exists r, test_database env (@None St) = Resp 200 (VDict r) /\
    dict_get "database" r = Some (VStr "⚠️  Available but not initialized").
Proof.
  do 3 (split; [reflexivity|]). split.
  - unfold create_order, create_order_body. destruct (order_totals v o); reflexivity.
  - split; [reflexivity|]. exists (test_database_body env None).
    unfold test_database, test_database_body, respond. cbn. autorewrite with shop. split; reflexivity.
Qed.

(** C19: with the store unreachable, every endpoint that uses it answers
    500 with a [detail] message (the text of the gateway's error is the
    gateway's, not fixed here), and the endpoints that write leave the
    store as it was: failures are surfaced at once, with no retry and no
    partial write (spec section 7). *)
Theorem handlers_store_down_500 st c q n pid body v o :
  gw_up st = false ->
  (exists m, list_products (Some st) c q n = Resp 500 (VDict [("detail", VStr m)])) /\
  (exists m, get_product (Some st) pid = Resp 500 (VDict [("detail", VStr m)])) /\
  (exists m, create_product (Some st) body = (Resp 500 (VDict [("detail", VStr m)]), Some st)) /\
  (exists m, create_order v (Some st) o = (Resp 500 (VDict [("detail", VStr m)]), Some st)).
Proof.
  intros Hdown. split; [|split; [|split]].
  - unfold list_products, list_products_body, get_documents. gw_down Hdown.
  - unfold get_product, get_product_body. cbn [product_collection bind_result].
    destruct (parse_oid pid); cbn [bind_result]; [gw_down Hdown | eexists; reflexivity].
  - unfold create_product, create_product_body, create_document. gw_down Hdown.
  - unfold create_order, create_order_body.
    destruct (order_totals v o) as [[sub tot]|e]; cbn [bind_result fst snd];
      [unfold create_document; gw_down Hdown | eexists; reflexivity].
Qed.

(** The document inserted last is the one found by its fresh id. *)
Lemma find_one_fresh st c d id st' :
  gw_up st' = true ->
  gw_docs c st' = (gw_docs c st ++ [("_id", VOid id) :: d])%list ->
  ~ In (Some (VOid id)) (map doc_id (gw_docs c st)) ->
  gw_find_one c [("_id", VOid id)] st' = Ok (Some (("_id", VOid id) :: d)).
Proof.
  intros Hup Hdocs Hn. rewrite (gw_find_one_ok _ _ _ Hup (filter_error_id id)), Hdocs.
  rewrite filter_app, (filter_id_absent id _ Hn). cbn.
  rewrite andb_true_r. unfold field_matches. cbn.
  assert (Hb : bytes_eqb id id = true) by (apply bytes_eqb_eq; reflexivity).
  rewrite Hb. reflexivity.
Qed.

Lemma stringify_id_fresh id d :
  dict_mem "_id" d = false ->
  stringify_id (("_id", VOid id) :: d) = ("_id", VStr (oid_str id)) :: d.
Proof. intros _. reflexivity. Qed.

(** C7: round trip through the store.  Creating a product answers 201 with a
    fresh id, and fetching that id answers 200 with the product's fields,
    the extra ones included, and the id as a string (when its fields are
    renderable as JSON, e.g. its price finite, and no extra field is named
    [_id]). *)
Theorem create_then_get st body :
  gw_wf st -> gw_room st -> gw_up st = true -> renderable (VDict (product_dump body)) = true ->
  dict_mem "_id" (extra body) = false ->
  exists pid st',
    create_product (Some st) body = (Resp 201 (VDict [("id", VStr pid)]), Some st') /\
    get_product (Some st') pid = Resp 200 (VDict (("_id", VStr pid) :: product_dump body)).
Proof.
  intros Hwf Hroom Hup Hfin Hex.
  assert (Hid : dict_mem "_id" (product_dump body) = false) by exact Hex.
  destruct (gw_insert_ok "product" (product_dump body) st Hwf Hroom Hup Hid)
    as (id & st' & Hins & Hdocs & _ & Hup' & _ & Hbytes & Hlen & Hfresh).
  exists (oid_str id), st'. split.
  - unfold create_product, create_product_body, create_document. rewrite Hins. reflexivity.
  - unfold get_product, get_product_body. cbn [product_collection bind_result].
    change (oid_str id) with (str_value (VOid id)).
    rewrite (parse_oid_str_value id Hbytes Hlen). cbn [bind_result].
    rewrite (find_one_fresh st _ _ id st' Hup' Hdocs Hfresh). cbn [bind_result].
    rewrite (stringify_id_fresh id _ Hid). unfold respond. cbn [reraise_500].
    rewrite renderable_dict_cons, renderable_str, Hfin. reflexivity.
Qed.

(** C5: functional behaviour of [GET /api/products].  For parameters absent
    or non-empty and a [q] without regex metacharacters, the handler
    returns, in the store's order, the first [limit] products (all when
    [limit] is [0]) that satisfy the spec's predicate, their ids as
    strings. *)
Theorem list_products_spec st c q n :
  gw_up st = true -> param_ok c -> param_ok q ->
  (forall s, q = Some s -> no_meta s = true) ->
  list_products_body (Some st) c q n =
  Ok (items_value (apply_limit n (List.filter (spec_product_match c q) (gw_docs "product" st)))).
Proof.
  intros Hup Hc Hq Hm. destruct (build_filter_refines c q Hc Hq Hm) as [Hf Hmatch].
  unfold list_products_body, get_documents.
  rewrite (gw_find_ok _ _ _ _ Hup Hf), (filter_ext_eq _ _ _ Hmatch). reflexivity.
Qed.

(** C6: whatever the parameters, [GET /api/products] with a non-zero
    [limit] returns at most [|limit|] products. *)
Theorem list_products_limit st c q n ps :
  n <> 0%Z -> list_products_body (Some st) c q n = Ok (items_value ps) ->
  (List.length ps <= Z.to_nat (Z.abs n))%nat.
Proof.
  intros Hn Hl. apply list_products_body_Ok_inv in Hl as (_ & _ & He).
  unfold items_value in He. injection He as He.
  apply (f_equal (@List.length value)) in He. rewrite !length_map in He.
  rewrite He. apply apply_limit_length, Hn.
Qed.

(** C15: the spec's first testable property, in the part the code
    guarantees.  With a non-empty [category], every product
    [GET /api/products] returns is a stored product of exactly that
    category, whatever [q] (metacharacters included) and [limit] are. *)
Theorem list_products_category st c q n v :
  c <> EmptyString -> list_products_body (Some st) (Some c) q n = Ok v ->
  exists ps, v = items_value ps /\
    Forall (fun p => dict_get "category" p = Some (VStr c)) ps /\
    incl ps (gw_docs "product" st).
Proof.
  intros Hc Hl. apply list_products_body_Ok_inv in Hl as (_ & _ & ->).
  eexists; split; [reflexivity | split].
  - apply List.Forall_forall. intros p Hp. apply apply_limit_incl, filter_In in Hp as [_ Hm].
    exact (build_filter_category c q p Hc Hm).
  - intros p Hp. apply apply_limit_incl, filter_In in Hp as [Hp _]. exact Hp.
Qed.

(** C13: in a store whose products all have ids the store handed out
    ([gw_wf]: no product was created with its own [_id], see
    [create_product_own_id]), every product a listing returns can be
    fetched by the id string the listing shows for it, and
    [GET /api/products/{id}] then returns the same document: the string
    form of the ids is a faithful handle on the stored products (the
    store keeps ids unique). *)
Theorem list_then_get st c q n v :
  gw_wf st -> list_products_body (Some st) c q n = Ok v ->
  exists ps, v = items_value ps /\
    Forall (fun p => exists id, doc_id p = Some (VOid id) /\
              get_product_body (Some st) (str_value (VOid id)) = Ok (VDict (stringify_id p))) ps.
Proof.
  intros Hwf Hl. apply list_products_body_Ok_inv in Hl as (Hup & _ & ->).
  eexists; split; [reflexivity|]. apply List.Forall_forall. intros p Hp.
  apply apply_limit_incl, filter_In in Hp as [Hp _].
  destruct (proj1 (List.Forall_forall _ _) (gw_wf_ids "product" st Hwf) p Hp) as (id & Hid & Hb & Hlen).
  exists id. split; [exact Hid|].
  unfold get_product_body. cbn [product_collection bind_result].
  rewrite (parse_oid_str_value id Hb Hlen). cbn [bind_result].
  rewrite (gw_find_one_ok _ _ _ Hup (filter_error_id id)).
  rewrite (filter_id_unique id p _ (gw_wf_nodup "product" st Hwf) Hp Hid).
  destruct p as [|kv p]; [discriminate Hid | reflexivity].
Qed.

(** C17: a [q] that PCRE rejects makes [GET /api/products] answer 500 with
    the server's message, whatever the products. *)
Theorem list_products_invalid_regex st c q n m :
  gw_up st = true -> q <> EmptyString -> compile q = PRInvalid m ->
  exists det, list_products (Some st) c (Some q) n =
    Resp 500 (VDict [("detail", VStr ("Regular expression is invalid: " ++ m ++ ", full error: " ++ det))]).
Proof.
  intros Hup Hq Hc. pose proof (build_filter_invalid c q m Hq Hc) as Hf.
  unfold list_products, list_products_body, get_documents.
  match goal with |- context [gw_find ?k ?f ?l st] =>
    destruct (gw_find_bad k f l st _ Hup Hf) as [det ->] end.
  exists det. cbn [bind_result reraise_500 respond str_exc].
  rewrite string_app_assoc. reflexivity.
Qed.

(** C1: [POST /api/orders] with prices the engine can price persists exactly
    one order document, the payload with the server's subtotal and total
    under an id no order of the store had, and answers with that id and the total; when the total
    is not a finite float the same order is persisted but the client gets
    a 500 (JSON rendering fails after the write). *)
Theorem create_order_persists v st body sub tot :
  gw_wf st -> gw_room st -> gw_up st = true -> order_totals v body = Ok (sub, tot) ->
  exists id st',
    create_order v (Some st) body =
      (respond 201 (Ok (VDict [("id", VStr (oid_str id)); ("total", value_of_num tot)])), Some st') /\
    gw_docs "order" st' = (gw_docs "order" st ++ [("_id", VOid id) :: order_payload body sub tot])%list /\
    (forall c, c <> "order" -> gw_docs c st' = gw_docs c st) /\
    ~ In (Some (VOid id)) (map doc_id (gw_docs "order" st)) /\
    (renderable (value_of_num tot) = false -> fst (create_order v (Some st) body) = server_error).
Proof.
  intros Hwf Hroom Hup Htot.
  destruct (gw_insert_ok "order" _ st Hwf Hroom Hup (order_payload_no_id body sub tot))
    as (id & st' & Hins & Hdocs & Hother & _ & _ & _ & _ & Hfresh).
  assert (Hc : create_order v (Some st) body =
    (respond 201 (Ok (VDict [("id", VStr (oid_str id)); ("total", value_of_num tot)])), Some st')).
  { unfold create_order, create_order_body, create_document. rewrite Htot. cbn [bind_result fst snd].
    rewrite Hins. reflexivity. }
  exists id, st'. split; [exact Hc|]. split; [exact Hdocs|]. split; [exact Hother|]. split; [exact Hfresh|].
  intros Hr. rewrite Hc. unfold respond. cbn. autorewrite with shop. rewrite Hr. reflexivity.
Qed.

(** A product stored under a string id is not found by an [ObjectId]
    filter. *)
Lemma matches_id_str `{RegexEngine} oid s r : matches [("_id", VOid oid)] (("_id", VStr s) :: r) = false.
Proof. rewrite matches_id. reflexivity. Qed.

(** C12: a product body may carry its own [_id] among its extra fields
    (the schema keeps them) and MongoDB stores the product under it.  In
    a store whose products have the store's [ObjectId]s, posting a
    product whose extra [_id] is the string [s] of an existing product's
    id answers 201 with the id [s], the one handed out before, and
    appends a second product whose id prints as [s]; [GET] of [s] still
    returns what it returned before (the earlier product).  The spec's
    "identifier (assigned by store)" does not hold, and two products show
    the same id. *)
Theorem create_product_own_id st p bs body :
  gw_wf st -> gw_up st = true -> In p (gw_docs "product" st) -> doc_id p = Some (VOid bs) ->
  dict_get "_id" (extra body) = Some (VStr (oid_str bs)) ->
  exists st',
    create_product (Some st) body = (Resp 201 (VDict [("id", VStr (oid_str bs))]), Some st') /\
    gw_docs "product" st' =
      (gw_docs "product" st ++ [("_id", VStr (oid_str bs)) :: dict_del "_id" (product_dump body)])%list /\
    get_product (Some st') (oid_str bs) = get_product (Some st) (oid_str bs).
Proof.
  intros Hwf Hup Hp Hbs Hid. rewrite <- product_dump_get_id in Hid.
  assert (Hfree : Forall (fun x => id_clash (VStr (oid_str bs)) x = false) (gw_docs "product" st)).
  { eapply List.Forall_impl; [|exact (gw_wf_ids "product" st Hwf)].
    intros x (id & Hx & _). unfold id_clash. rewrite Hx. reflexivity. }
  destruct (gw_insert_own_id "product" _ st _ Hup Hid eq_refl Hfree) as (st' & Hins & Hdocs & _ & Hup').
  exists st'. split; [|split; [exact Hdocs|]].
  - unfold create_product, create_product_body, create_document. rewrite Hins. reflexivity.
  - destruct (proj1 (List.Forall_forall _ _) (gw_wf_ids "product" st Hwf) p Hp) as (id & Hid' & Hb & Hlen).
    rewrite Hbs in Hid'. injection Hid' as <-.
    unfold get_product, get_product_body. cbn [product_collection bind_result].
    change (oid_str bs) with (str_value (VOid bs)). rewrite (parse_oid_str_value bs Hb Hlen). cbn [bind_result].
    rewrite (gw_find_one_ok _ _ _ Hup' (filter_error_id bs)), (gw_find_one_ok _ _ _ Hup (filter_error_id bs)).
    rewrite Hdocs, filter_app. cbn [List.filter]. rewrite matches_id_str, app_nil_r. reflexivity.
Qed.

(** C25: MongoDB's unique index refuses a second document with the same
    key: when a stored product's [_id] equals, as MongoDB compares keys
    ([1] and [1.0] are one key), the [_id] a new product body carries,
    [POST /api/products] answers 500 with pymongo's [DuplicateKeyError]
    ([str(e)]: the server's message, then [", full error: "] and its
    error document) and the store is unchanged. *)
Theorem create_product_dup_id st body v x :
  gw_up st = true -> dict_get "_id" (extra body) = Some v -> id_allowed v = true ->
  In x (gw_docs "product" st) -> id_clash v x = true ->
  exists m det,
    create_product (Some st) body = (Resp 500 (VDict [("detail", VStr (m ++ ", full error: " ++ det))]), Some st).
Proof.
  intros Hup Hid Ha Hx Hc. rewrite <- product_dump_get_id in Hid.
  destruct (gw_insert_dup "product" _ st v Hup Hid Ha (proj2 (List.Exists_exists _ _) (ex_intro _ x (conj Hx Hc))))
    as (m & det & Hins).
  exists m, det. unfold create_product, create_product_body, create_document. rewrite Hins. reflexivity.
Qed.

End Properties.

Lemma renderable_map_VStr l : renderable (VList (map VStr l)) = true.
Proof. induction l as [|x l IH]; [reflexivity|]. cbn [map]. autorewrite with shop. exact IH. Qed.

#[export] Hint Rewrite renderable_map_VStr : shop.

Section DiagnosticsProperties.
Context {St : Type} `{Gateway St}.

(** C30: [GET /test] never fails: it answers 200 with the six keys in their
    order, at most ten collection names, and [database_url] and
    [database_name] that only say whether the environment variables are
    set: the values written on lines 107-108 (among them the connected
    database's name) are always overwritten on lines 124-125. *)
Theorem test_database_reports_env env db :
  exists r, test_database env db = Resp 200 (VDict r) /\
    map fst r = ["backend"; "database"; "database_url"; "database_name";
                 "connection_status"; "collections"] /\
    dict_get "database_url" r =
      Some (VStr (if env_set env "DATABASE_URL" then "✅ Set" else "❌ Not Set")) /\
    dict_get "database_name" r =
      Some (VStr (if env_set env "DATABASE_NAME" then "✅ Set" else "❌ Not Set")) /\
    exists cs, dict_get "collections" r = Some (VList (map VStr cs)) /\ (List.length cs <= 10)%nat.
Proof.
  exists (test_database_body env db). unfold test_database, test_database_body, respond.
  destruct db as [st|]; [destruct (gw_collection_names st) as [cs|e]|]; cbn;
    autorewrite with shop.
  - do 4 (split; [reflexivity|]). exists (firstn 10 cs).
    split; [reflexivity | rewrite length_firstn; lia].
  - do 4 (split; [reflexivity|]). exists []. split; [reflexivity | simpl; lia].
  - do 4 (split; [reflexivity|]). exists []. split; [reflexivity | simpl; lia].
Qed.

End DiagnosticsProperties.

(** ** Witnesses on the store model *)

Local Set Warnings "-inexact-float".

Definition mug : Product := mkProduct "Mug" "A mug" "kitchen" 9.99 [("color", VStr "blue")].

Definition shop0 : store := empty_store "shop".

Lemma shop0_wf : store_wf shop0.
Proof. apply empty_store_wf. Qed.

Lemma shop0_room : store_room shop0.
Proof. unfold store_room. simpl. lia. Qed.

Definition one_product_store : store :=
  match store_insert "product" [("title", VStr "Mug")] (empty_store "shop") with
  | Ok (_, st) => st
  | Err _ => empty_store "shop"
  end.

Lemma get_product_missing_is_500_witness :
  get_product (Some shop0) "507f1f77bcf86cd799439011"
  = Resp 500 (VDict [("detail", VStr "404: Product not found")]).
Proof.
  apply (get_product_missing_is_500 shop0 _ sample_oid); [reflexivity | vm_compute; reflexivity |].
  intros Hin. exact Hin.
Defined.

Lemma get_product_malformed_is_500_witness :
  get_product (Some shop0) "xyz" = Resp 500 (VDict [("detail", VStr (invalid_id_msg "xyz"))]).
Proof. apply get_product_malformed_is_500; [reflexivity | intros [H _]; discriminate H]. Defined.

Lemma create_then_get_witness :
  exists pid st',
    create_product (Some shop0) mug = (Resp 201 (VDict [("id", VStr pid)]), Some st') /\
    get_product (Some st') pid = Resp 200 (VDict (("_id", VStr pid) :: product_dump mug)).
Proof.
  apply create_then_get; [exact shop0_wf | exact shop0_room | reflexivity | vm_compute; reflexivity | reflexivity].
Defined.

Lemma list_products_spec_witness :
  list_products_body (Some one_product_store) (Some "kitchen") (Some "kitch") 50 =
  Ok (items_value (apply_limit 50 (List.filter (spec_product_match (Some "kitchen") (Some "kitch"))
                                     (gw_docs "product" one_product_store)))).
Proof.
  apply (list_products_spec one_product_store); [reflexivity | discriminate | discriminate |].
  intros s Hs; injection Hs as <-; reflexivity.
Defined.

Definition mug_doc : dict := [("_id", VOid (oid_of_counter 0)); ("title", VStr "Mug")].

Lemma list_products_limit_witness :
  (List.length [mug_doc] <= Z.to_nat (Z.abs 1))%nat.
Proof.
  apply (list_products_limit one_product_store None None 1); [discriminate|].
  vm_compute. reflexivity.
Defined.

Lemma list_products_invalid_regex_witness :
  exists det, list_products (Some shop0) None (Some "(") 50 =
    Resp 500 (VDict [("detail", VStr ("Regular expression is invalid: " ++
                                      "missing closing parenthesis" ++ ", full error: " ++ det))]).
Proof. apply list_products_invalid_regex; [reflexivity | discriminate | reflexivity]. Defined.

Lemma create_order_persists_witness :
  exists id st',
    create_order CPython312 (Some shop0) scenario_order =
      (respond 201 (Ok (VDict [("id", VStr (oid_str id)); ("total", value_of_num (PFloat 28))])), Some st') /\
    gw_docs "order" st' = (gw_docs "order" shop0 ++
                           [("_id", VOid id) :: order_payload scenario_order (PFloat 25) (PFloat 28)])%list /\
    (forall c, c <> "order" -> gw_docs c st' = gw_docs c shop0) /\
    ~ In (Some (VOid id)) (map doc_id (gw_docs "order" shop0)) /\
    (renderable (value_of_num (PFloat 28)) = false ->
     fst (create_order CPython312 (Some shop0) scenario_order) = server_error).
Proof.
  apply create_order_persists; [exact shop0_wf | exact shop0_room | reflexivity |].
  vm_compute. reflexivity.
Defined.

Definition inf_order : Order := mkOrder [mkItem "p" 1e308 10] None None None.

(** An order whose total overflows to [inf] (one item of price [1e308]
    and quantity [10]) is stored, and the client gets a 500: rendering the
    response fails after the write, so a client that retries creates the
    order twice. *)
Example create_order_inf_total :
  fst (create_order CPython312 (Some shop0) inf_order) = server_error /\
  exists st', snd (create_order CPython312 (Some shop0) inf_order) = Some st' /\
              List.length (coll_docs "order" st') = 1%nat.
Proof. split; [vm_compute; reflexivity | eexists; split; [reflexivity | vm_compute; reflexivity]]. Qed.

Definition kitchen_store : store :=
  match store_insert "product" (product_dump mug) (empty_store "shop") with
  | Ok (_, st) => st
  | Err _ => empty_store "shop"
  end.

Definition kitchen_listing : value :=
  match list_products_body (Some kitchen_store) (Some "kitchen") (Some ".") 50 with
  | Ok v => v
  | Err _ => VNone
  end.

Lemma list_products_category_witness :
  exists ps, kitchen_listing = items_value ps /\
    Forall (fun p => dict_get "category" p = Some (VStr "kitchen")) ps /\
    incl ps (gw_docs "product" kitchen_store).
Proof.
  apply (list_products_category kitchen_store "kitchen" (Some ".") 50); [discriminate|].
  vm_compute. reflexivity.
Defined.

(** A product whose price is not finite: pydantic's [float] accepts
    [inf] (a JSON number such as [1e400] parses to it). *)
Definition inf_mug : Product := mkProduct "Mug" "A mug" "kitchen" PrimFloat.infinity [].

(** Such a product is created (201), but every later [GET] of it
    answers 500, since JSON rendering refuses non-finite floats: the store
    holds a product the API can no longer return. *)
Example get_product_inf_price :
  fst (create_product (Some shop0) inf_mug) =
    Resp 201 (VDict [("id", VStr (oid_str (oid_of_counter 0)))]) /\
  get_product (snd (create_product (Some shop0) inf_mug)) (oid_str (oid_of_counter 0)) =
    server_error.
Proof. split; vm_compute; reflexivity. Qed.

(** [n] insertions of the same product. *)
Fixpoint insert_n (n : nat) (d : dict) (st : store) : store :=
  match n with
  | O => st
  | S n' => match store_insert "product" d st with
            | Ok (_, st') => insert_n n' d st'
            | Err _ => st
            end
  end.

Definition shop51 : store := insert_n 51 (product_dump mug) shop0.

(** With the default [limit] of 50, [GET /api/products?category=kitchen]
    on a store holding 51 kitchen products returns the first 50 of them:
    the spec's property "list(category=C) includes every product of
    category C" does not hold for the default limit. *)
Example list_products_default_limit :
  List.length (coll_docs "product" shop51) = 51%nat /\
  Forall (fun p => dict_get "category" p = Some (VStr "kitchen")) (coll_docs "product" shop51) /\
  list_products_body (Some shop51) (Some "kitchen") None 50 =
    Ok (items_value (firstn 50 (coll_docs "product" shop51))).
Proof. split; [|split]; vm_compute; [reflexivity | repeat constructor | reflexivity]. Qed.

Definition shop_down : store := mkStore (colls shop0) (next_id shop0) false (db_name shop0).

Lemma handlers_store_down_500_witness :
  (exists m, list_products (Some shop_down) None (Some "mug") 50 = Resp 500 (VDict [("detail", VStr m)])) /\
  (exists m, get_product (Some shop_down) "000000000000000000000000" =
               Resp 500 (VDict [("detail", VStr m)])) /\
  (exists m, create_product (Some shop_down) mug = (Resp 500 (VDict [("detail", VStr m)]), Some shop_down)) /\
  (exists m, create_order CPython312 (Some shop_down) scenario_order =
               (Resp 500 (VDict [("detail", VStr m)]), Some shop_down)).
Proof. apply handlers_store_down_500. reflexivity. Defined.

Lemma kitchen_store_wf : store_wf kitchen_store.
Proof.
  destruct (store_insert_ok "product" (product_dump mug) (empty_store "shop") (empty_store_wf "shop"))
    as (st & Hins & _ & _ & _ & Hwf & _); [unfold store_room; simpl; lia | reflexivity | reflexivity |].
  unfold kitchen_store. rewrite Hins. exact Hwf.
Qed.

(** The kitchen mug again, with the string of the first mug's id as its
    own [_id]. *)
Definition clone_mug : Product :=
  mkProduct (title mug) (description mug) (category mug) (price mug)
            [("_id", VStr (oid_str (oid_of_counter 0)))].

Lemma create_product_own_id_witness :
  exists st',
    create_product (Some kitchen_store) clone_mug =
      (Resp 201 (VDict [("id", VStr (oid_str (oid_of_counter 0)))]), Some st') /\
    gw_docs "product" st' =
      (gw_docs "product" kitchen_store ++
       [("_id", VStr (oid_str (oid_of_counter 0))) :: dict_del "_id" (product_dump clone_mug)])%list /\
    get_product (Some st') (oid_str (oid_of_counter 0)) =
      get_product (Some kitchen_store) (oid_str (oid_of_counter 0)).
Proof.
  apply (create_product_own_id kitchen_store (("_id", VOid (oid_of_counter 0)) :: product_dump mug));
    [exact kitchen_store_wf | reflexivity | vm_compute; left; reflexivity | reflexivity | reflexivity].
Defined.

(** A mug whose body brings its own [_id]. *)
Definition own_id_mug (v : value) : Product := mkProduct "Mug" "A mug" "kitchen" 9.5%float [("_id", v)].

Definition int_id_store : store :=
  match store_insert "product" (product_dump (own_id_mug (VInt 1))) shop0 with
  | Ok (_, st) => st
  | Err _ => shop0
  end.

Lemma create_product_dup_id_witness :
  exists m det, create_product (Some int_id_store) (own_id_mug (VFloat 1%float)) =
    (Resp 500 (VDict [("detail", VStr (m ++ ", full error: " ++ det))]), Some int_id_store).
Proof.
  apply (create_product_dup_id int_id_store _ (VFloat 1%float)
           (("_id", VInt 1) :: dict_del "_id" (product_dump (own_id_mug (VInt 1)))));
    [reflexivity | reflexivity | reflexivity | vm_compute; left; reflexivity | vm_compute; reflexivity].
Defined.

Lemma list_then_get_witness :
  exists ps, kitchen_listing = items_value ps /\
    Forall (fun p => exists id, doc_id p = Some (VOid id) /\
              get_product_body (Some kitchen_store) (str_value (VOid id)) = Ok (VDict (stringify_id p))) ps.
Proof.
  apply (list_then_get kitchen_store (Some "kitchen") (Some ".") 50); [exact kitchen_store_wf|].
  vm_compute. reflexivity.
Defined.
