(* ===== verification/Server.v ===== *)
(** * Routing and sessions of requests

    [src/main.py] registers each handler on its route with the decorators
    [@app.get] and [@app.post] (lines 30, 35, 57, 66, 78, 93).  [request]
    lists the routes with their parameters, [handle] dispatches a request
    to its handler, and [serve] runs a sequence of requests against the
    database, threading the store from one request to the next: the
    handlers keep no state of their own, the store is the only state that
    survives a request (spec section 5).

    The theorem is about sessions on the store model of [Store]: the
    identifiers the API hands out in a session whose product bodies bring
    no [_id] of their own are pairwise distinct and new
    ([serve_ids_unique]). *)

From Stdlib Require Import ZArith List String Ascii Bool Lia Floats.
From S2P Require Import Prelude Python ObjectId PyRepr Regex Filter Pricing Query Store Api.
Import ListNotations.
Open Scope string_scope.
Open Scope shop_scope.

Inductive request : Type :=
| GetRoot                                             (* GET / *)
| ListProducts (category q : option string) (limit : Z) (* GET /api/products *)
| CreateProduct (body : CreateProductBody)            (* POST /api/products *)
| GetProduct (product_id : string)                    (* GET /api/products/{id} *)
| CreateOrder (body : CreateOrderBody)                (* POST /api/orders *)
| TestDatabase.                                       (* GET /test *)

Section Routing.
Context {St : Type} `{Gateway St} `{RegexEngine}.
Variable v : pyversion.
Variable env : string -> option string.

(** One request: its response and the database afterwards. *)
Definition handle (db : option St) (r : request) : response * option St :=
  match r with
  | GetRoot => (read_root, db)
  | ListProducts c q n => (list_products db c q n, db)
  | CreateProduct b => create_product db b
  | GetProduct pid => (get_product db pid, db)
  | CreateOrder b => create_order v db b
  | TestDatabase => (test_database env db, db)
  end.

(** A session: the requests one after the other. *)
Fixpoint serve (db : option St) (rs : list request) : list response * option St :=
  match rs with
  | [] => ([], db)
  | r :: rs' =>
      let (resp, db1) := handle db r in
      let (resps, db2) := serve db1 rs' in
      (resp :: resps, db2)
  end.

End Routing.

(** The request does not choose the [_id] of what it creates: a product
    body without an [_id] among its extra fields (an order never carries
    one: [Order] drops the fields it does not declare). *)
Definition own_id_free (r : request) : bool :=
  match r with
  | CreateProduct b => negb (dict_mem "_id" (extra b))
  | _ => true
  end.

(** The identifier a client reads from a [201] response. *)
Definition created_id (r : response) : option string :=
  if Z.eqb (status r) 201 then
    match body r with
    | VDict ((k, VStr s) :: _) => if String.eqb k "id" then Some s else None
    | _ => None
    end
  else None.

Fixpoint created_ids (l : list response) : list string :=
  match l with
  | [] => []
  | r :: l' => match created_id r with Some s => s :: created_ids l' | None => created_ids l' end
  end.

(** ** Lemmas *)

Lemma created_id_not_201 r : status r <> 201%Z -> created_id r = None.
Proof. unfold created_id. intros Hs. apply Z.eqb_neq in Hs. rewrite Hs. reflexivity. Qed.

Lemma created_id_respond_201 s rest :
  created_id (respond 201 (Ok (VDict (("id", VStr s) :: rest)))) = None \/
  created_id (respond 201 (Ok (VDict (("id", VStr s) :: rest)))) = Some s.
Proof. unfold respond. destruct (renderable _); [right | left]; reflexivity. Qed.

Lemma respond_reraise_no_id c (r : py value) :
  c <> 201%Z -> created_id (respond c (reraise_500 r)) = None.
Proof.
  intros Hc. apply created_id_not_201.
  destruct r as [a|e]; cbn [reraise_500]; unfold respond; [destruct (renderable a)|]; cbn; lia.
Qed.

Lemma respond_ok_no_id c (a : value) : c <> 201%Z -> created_id (respond c (Ok a)) = None.
Proof. intros Hc. apply created_id_not_201. unfold respond. destruct (renderable a); cbn; lia. Qed.

(** A request that does not choose an [_id] leaves the store as it was,
    or performs one insertion: the counter's id, and the response carries
    that id or no id. *)
Lemma handle_step v env r st resp db' :
  own_id_free r = true -> handle v env (Some st) r = (resp, db') ->
  exists st', db' = Some st' /\
    (forall c, exists l, coll_docs c st' = (coll_docs c st ++ l)%list) /\
    ((next_id st' = next_id st /\ created_id resp = None) \/
     (next_id st' = (next_id st + 1)%Z /\
      (created_id resp = None \/ created_id resp = Some (oid_str (oid_of_counter (next_id st)))))).
Proof.
  assert (Hsame : forall resp, created_id resp = None ->
    exists st', Some st = Some st' /\
      (forall c, exists l, coll_docs c st' = (coll_docs c st ++ l)%list) /\
      ((next_id st' = next_id st /\ created_id resp = None) \/
       (next_id st' = (next_id st + 1)%Z /\
        (created_id resp = None \/ created_id resp = Some (oid_str (oid_of_counter (next_id st))))))).
  { intros resp0 Hr. exists st. split; [reflexivity | split; [|left; auto]].
    intros c. exists []. rewrite app_nil_r. reflexivity. }
  assert (Hnew : forall c d id st1 resp, dict_mem "_id" d = false -> store_insert c d st = Ok (id, st1) ->
    created_id resp = None \/ created_id resp = Some (str_value id) ->
    exists st', Some st1 = Some st' /\
      (forall c, exists l, coll_docs c st' = (coll_docs c st ++ l)%list) /\
      ((next_id st' = next_id st /\ created_id resp = None) \/
       (next_id st' = (next_id st + 1)%Z /\
        (created_id resp = None \/ created_id resp = Some (oid_str (oid_of_counter (next_id st))))))).
  { intros c d id st1 resp0 Hd Hi Hr. destruct (store_insert_next _ _ _ _ _ Hd Hi) as (-> & Hn & Hc).
    exists st1. split; [reflexivity | split; [exact Hc | right; split; [exact Hn | exact Hr]]]. }
  destruct r as [|c q n|b|pid|b|]; cbn [handle own_id_free]; intros Hfree Hh.
  - injection Hh as <- <-. apply Hsame. reflexivity.
  - injection Hh as <- <-. apply Hsame.
    apply respond_reraise_no_id. discriminate.
  - unfold create_product, create_product_body, create_document in Hh.
    cbn [gw_insert store_gateway] in Hh.
    destruct (store_insert "product" (product_dump b) st) as [[id st1]|e] eqn:Hi;
      cbn [reraise_500] in Hh; injection Hh as <- <-.
    + apply (Hnew _ _ _ _ _ (product_dump_own_id b Hfree) Hi);
        solve [right; reflexivity | apply created_id_respond_201].
    + apply Hsame. reflexivity.
  - injection Hh as <- <-. apply Hsame.
    apply respond_reraise_no_id. discriminate.
  - unfold create_order, create_order_body in Hh.
    destruct (order_totals v b) as [[sub tot]|e]; cbn [bind_result fst snd] in Hh.
    + unfold create_document in Hh. cbn [gw_insert store_gateway] in Hh.
      destruct (store_insert "order" (order_payload b sub tot) st) as [[id st1]|e] eqn:Hi;
        cbn [reraise_500] in Hh; injection Hh as <- <-.
      * apply (Hnew _ _ _ _ _ (order_payload_no_id b sub tot) Hi);
          solve [right; reflexivity | apply created_id_respond_201].
      * apply Hsame. reflexivity.
    + cbn [reraise_500] in Hh. injection Hh as <- <-. apply Hsame. reflexivity.
  - injection Hh as <- <-. apply Hsame, respond_ok_no_id. discriminate.
Qed.

(** Along a session the ids handed out are the counter values met on the
    way, each used once, and the collections only grow at their end. *)
Lemma serve_counters v env rs : forall st resps db',
  Forall (fun r => own_id_free r = true) rs -> serve v env (Some st) rs = (resps, db') ->
  exists st' ks, db' = Some st' /\
    created_ids resps = map (fun k => oid_str (oid_of_counter k)) ks /\
    NoDup ks /\ Forall (fun k => (next_id st <= k < next_id st')%Z) ks /\
    (next_id st <= next_id st' <= next_id st + Z.of_nat (List.length rs))%Z /\
    forall c, exists l, coll_docs c st' = (coll_docs c st ++ l)%list.
Proof.
  induction rs as [|r rs IH]; intros st resps db' Hfree Hs; cbn [serve] in Hs.
  - injection Hs as <- <-. exists st, []. cbn [List.length].
    do 4 (split; [first [reflexivity | constructor] |]). split; [lia|].
    intros c; exists []; rewrite app_nil_r; reflexivity.
  - destruct (handle v env (Some st) r) as [resp db1] eqn:Hh.
    inversion Hfree as [|? ? Hr0 Hfree']; subst.
    destruct (handle_step v env r st resp db1 Hr0 Hh) as (st1 & -> & Hc1 & Hstep).
    destruct (serve v env (Some st1) rs) as [resps' db2] eqn:Hr. injection Hs as <- <-.
    destruct (IH st1 resps' db2 Hfree' Hr) as (st' & ks & -> & Hids & Hnd & Hb & Hn & Hc).
    assert (Happ : forall c, exists l, coll_docs c st' = (coll_docs c st ++ l)%list).
    { intros c. destruct (Hc1 c) as [l1 E1], (Hc c) as [l2 E2].
      exists (l1 ++ l2)%list. rewrite E2, E1, app_assoc. reflexivity. }
    exists st'. cbn [created_ids List.length].
    destruct Hstep as [[Hn1 Hid] | [Hn1 [Hid|Hid]]]; rewrite Hid.
    + exists ks. rewrite Hn1 in Hb, Hn. do 4 (split; [first [reflexivity | assumption]|]). split; [lia | exact Happ].
    + exists ks. do 3 (split; [first [reflexivity | assumption]|]).
      split; [eapply List.Forall_impl; [|exact Hb]; cbn; lia|]. split; [lia | exact Happ].
    + exists (next_id st :: ks). cbn [map]. rewrite Hids. do 2 (split; [reflexivity|]).
      split; [constructor; [|exact Hnd]|].
      { intros Hin. apply (proj1 (List.Forall_forall _ _) Hb) in Hin. lia. }
      split; [constructor; [lia | eapply List.Forall_impl; [|exact Hb]; cbn; lia]|].
      split; [lia | exact Happ].
Qed.


(** Distinct counter values below [2^96] print as distinct ids. *)
Lemma oid_str_counter_inj a b :
  (0 <= a < 2 ^ 96)%Z -> (0 <= b < 2 ^ 96)%Z ->
  oid_str (oid_of_counter a) = oid_str (oid_of_counter b) -> a = b.
Proof.
  intros Ha Hb E. apply oid_of_counter_inj; [exact Ha | exact Hb |].
  apply (f_equal fromhex) in E. unfold oid_str in E.
  rewrite !fromhex_hexlify in E by apply be_bytes_bytes. congruence.
Qed.

(** ** Properties of sessions *)


(** C11: the identifiers a session hands out ([{"id": ...}] of the [201]
    responses of [POST /api/products] and [POST /api/orders]) are pairwise
    distinct, and none is the id of a document already stored, as long as
    the store is well formed and its 96-bit counter does not run out
    during the session and no product body of the session brings its own
    [_id] (with one, see [create_product_own_id]). *)
Theorem serve_ids_unique v env st rs resps db' :
  store_wf st -> (next_id st + Z.of_nat (List.length rs) <= 2 ^ 96)%Z ->
  Forall (fun r => own_id_free r = true) rs ->
  serve v env (Some st) rs = (resps, db') ->
  NoDup (created_ids resps) /\
  forall s c d, In s (created_ids resps) -> In d (coll_docs c st) ->
    option_map str_value (doc_id d) <> Some s.
Proof.
  intros (_ & Hnext & Hdocs) Hroom Hfree Hs.
  destruct (serve_counters v env rs st resps db' Hfree Hs) as (st' & ks & -> & Hids & Hnd & Hb & Hn & _).
  pose proof (proj1 (List.Forall_forall _ _) Hb) as Hk. rewrite Hids. split.
  - apply NoDup_map_in; [|exact Hnd]. intros a b Ha Hb' E.
    apply Hk in Ha; apply Hk in Hb'. apply oid_str_counter_inj in E; [exact E | lia | lia].
  - intros s c d Hs' Hd. apply in_map_iff in Hs' as (k & <- & Hin). apply Hk in Hin.
    destruct (proj1 (List.Forall_forall _ _) (Hdocs c) d Hd) as (k' & Hk' & ->).
    cbn [option_map str_value]. intros E.
    assert (E' : oid_str (oid_of_counter k') = oid_str (oid_of_counter k)) by congruence.
    apply oid_str_counter_inj in E'; lia.
Qed.

(** A session on an empty shop: a product, an order, a listing and a
    second product. *)
Definition session : list request :=
  [CreateProduct mug; CreateOrder scenario_order; ListProducts None None 50; CreateProduct mug].

Definition session_result : list response * option store :=
  serve CPython312 (fun _ => None) (Some shop0) session.

Lemma serve_ids_unique_witness :
  NoDup (created_ids (fst session_result)) /\
  forall s c d, In s (created_ids (fst session_result)) -> In d (coll_docs c shop0) ->
    option_map str_value (doc_id d) <> Some s.
Proof.
  apply (serve_ids_unique CPython312 (fun _ => None) shop0 session _ (snd session_result));
    [exact shop0_wf | vm_compute; discriminate | repeat constructor | vm_compute; reflexivity].
Defined.

(** The session hands out three ids, one per creation. *)
Example session_three_ids : List.length (created_ids (fst session_result)) = 3%nat.
Proof. vm_compute. reflexivity. Qed.


