(* ===== verification/Pydantic.v ===== *)
(** * pydantic's lax validation of scalar values

    The validators pydantic-core applies, in lax Python mode, to the
    values FastAPI hands it: the text of a query parameter, or what
    [json.loads] made of a request body.  An [int] from a string
    ([pyd_int], [str_as_int]); a [float] from a string ([pyd_float_str]:
    Rust's [str::parse::<f64>] on the trimmed text, then on the text with
    its underscores removed, rounded to binary64 once); the error kinds
    with FastAPI's type and message ([verr_kind], [verror]); and the
    validators of a decoded value [v_str], [v_float] and [v_int].  The
    theorems: [str(n)] read back as an [int] ([pyd_int_lax]) and as a
    [float] ([pyd_float_str_of_int]). *)

From Stdlib Require Import ZArith List String Ascii Bool Lia DecimalString Floats.
From S2P Require Import Prelude Python PyString PyRepr.
Import ListNotations.
Open Scope string_scope.
Open Scope shop_scope.

(** ** pydantic's lax [int] from a string ([str_as_int] of pydantic-core)

    The text is trimmed of Rust whitespace ([num_strip]) and read as an optional sign
    and digits with single underscores between them (the syntax of
    [int()]); failing that, a text ending in a point and one or more zeros
    is read without them ([strip_decimal_zeros]).  The value is accepted
    when [str] of it has at most 4300 characters. *)
Inductive int_error : Type := IntParsing | IntParsingSize.

(** The point and zeros at the end of [50.0], [-3.000]: the text before
    the first point when all that follows it is one or more zeros. *)
Fixpoint strip_decimal_zeros (s : string) : option string :=
  match s with
  | EmptyString => None
  | String c r =>
      if Ascii.eqb c "." then
        if negb (String.eqb r "") && forallb (Ascii.eqb "0") (list_ascii_of_string r)
        then Some "" else None
      else option_map (String c) (strip_decimal_zeros r)
  end.

Definition max_int_str_len : nat := 4300.

Definition int_size_ok (n : Z) : bool := (String.length (str_Z n) <=? max_int_str_len)%nat.

Section Pydantic.
(** Which of [int_parsing] and [int_parsing_size] pydantic-core reports
    for a well-formed literal whose value is too long depends on how the
    literal is spelled (leading zeros, underscores) in a way this model
    leaves open: it is a parameter of the validation. *)
Variable oversize : string -> int_error.

Definition pyd_int (s : string) : result Z int_error :=
  let t := num_strip s in
  let sized n := if int_size_ok n then Ok n else Err (oversize t) in
  match int_signed t with
  | Some n => sized n
  | None =>
      match strip_decimal_zeros t with
      | Some t' => match int_signed t' with Some n => sized n | None => Err IntParsing end
      | None => Err IntParsing
      end
  end.

End Pydantic.

Definition int_error_type (e : int_error) : string :=
  match e with
  | IntParsing => "int_parsing"
  | IntParsingSize => "int_parsing_size"
  end.

Definition int_error_msg (e : int_error) : string :=
  match e with
  | IntParsing => "Input should be a valid integer, unable to parse string as an integer"
  | IntParsingSize => "Unable to parse input string as an integer, exceeded maximum size"
  end.

(** A run of [k] zeros, the decimal part of [50.000]. *)
Definition zeros (k : nat) : string := string_of_list_ascii (repeat "0"%char k).

(** ** [float] from a string ([str_as_float] of pydantic-core)

    Rust's [str::parse::<f64>] of the trimmed text ([rust_f64]): an
    optional sign, then [inf], [infinity] or [nan] in any case, or decimal
    digits with an optional point and an optional exponent; failing that,
    the same parse of the untrimmed text with its underscores removed,
    when none is at an end of it and no two are in a row
    ([strip_underscores]).  The
    decimal value is rounded to the nearest binary64, ties to even
    ([decimal_to_float]). *)

(** The longest run of decimal digits at the start of a text: the value
    [acc] extended by them, how many there are, and the rest. *)
Fixpoint digit_prefix (s : string) (acc : Z) (n : nat) : Z * nat * string :=
  match s with
  | String c r =>
      match digit_val c with
      | Some d => digit_prefix r (acc * 10 + d)%Z (S n)
      | None => (acc, n, s)
      end
  | EmptyString => (acc, n, s)
  end.

(** An optional sign: whether it is [-], and the rest. *)
Definition split_sign (s : string) : bool * string :=
  match s with
  | String c r => if Ascii.eqb c "-" then (true, r) else if Ascii.eqb c "+" then (false, r) else (false, s)
  | EmptyString => (false, s)
  end.

(** The digits after [e]: an optional sign and at least one digit. *)
Definition parse_exponent (s : string) : option Z :=
  let '(neg, r) := split_sign s in
  let '(v, n, rest) := digit_prefix r 0%Z 0 in
  if (n =? 0)%nat || negb (String.eqb rest "") then None
  else Some (if neg then - v else v)%Z.

(** [digits [. digits] [e exponent]] with a digit before or after the
    point: the integer of all the digits and the power of ten it is
    scaled by. *)
Definition parse_decimal (s : string) : option (Z * Z) :=
  let '(a, na, r1) := digit_prefix s 0%Z 0 in
  let '(m, nb, r2) :=
    match r1 with
    | String c r => if Ascii.eqb c "." then digit_prefix r a 0 else (a, 0%nat, r1)
    | EmptyString => (a, 0%nat, r1)
    end in
  if (na + nb =? 0)%nat then None
  else match r2 with
       | EmptyString => Some (m, - Z.of_nat nb)%Z
       | String c r =>
           if Ascii.eqb c "e" || Ascii.eqb c "E"
           then option_map (fun e => (m, e - Z.of_nat nb)%Z) (parse_exponent r)
           else None
       end.

(** [str::parse::<f64>] of a text as it is. *)
Definition rust_f64 (t : string) : option float :=
  let '(neg, u) := split_sign t in
  let l := lower u in
  if String.eqb l "inf" || String.eqb l "infinity" then
    Some (if neg then PrimFloat.neg_infinity else PrimFloat.infinity)
  else if String.eqb l "nan" then Some PrimFloat.nan
  else option_map (fun me => decimal_to_float neg (fst me) (snd me)) (parse_decimal u).

Definition starts_us (s : string) : bool :=
  match s with String c _ => Ascii.eqb c "_" | EmptyString => false end.

Fixpoint remove_underscores (s : string) : string :=
  match s with
  | EmptyString => EmptyString
  | String c r => if Ascii.eqb c "_" then remove_underscores r else String c (remove_underscores r)
  end.

(** [strip_underscores]: no underscore at either end and no two in a
    row; then all of them are dropped. *)
Definition strip_underscores (s : string) : option string :=
  if starts_us s || starts_us (rev_string s) || contains_ci "__" s then None
  else Some (remove_underscores s).

Definition pyd_float_str (s : string) : option float :=
  match rust_f64 (num_strip s) with
  | Some f => Some f
  | None =>
      match strip_underscores s with
      | Some s' => rust_f64 s'
      | None => None
      end
  end.

(** ** The errors of a validation

    The kinds of error the validators of the schemas raise, with the
    [type] and [msg] pydantic reports for each. *)
Inductive verr_kind : Type :=
| Missing
| ModelAttributesType
| ListType
| StringType
| FloatType
| FloatParsing
| IntType
| IntFromFloat
| FiniteNumber
| IntErr (e : int_error).

Definition kind_type (k : verr_kind) : string :=
  match k with
  | Missing => "missing"
  | ModelAttributesType => "model_attributes_type"
  | ListType => "list_type"
  | StringType => "string_type"
  | FloatType => "float_type"
  | FloatParsing => "float_parsing"
  | IntType => "int_type"
  | IntFromFloat => "int_from_float"
  | FiniteNumber => "finite_number"
  | IntErr e => int_error_type e
  end.

Definition kind_msg (k : verr_kind) : string :=
  match k with
  | Missing => "Field required"
  | ModelAttributesType => "Input should be a valid dictionary or object to extract fields from"
  | ListType => "Input should be a valid list"
  | StringType => "Input should be a valid string"
  | FloatType => "Input should be a valid number"
  | FloatParsing => "Input should be a valid number, unable to parse string as a number"
  | IntType => "Input should be a valid integer"
  | IntFromFloat => "Input should be a valid integer, got a number with a fractional part"
  | FiniteNumber => "Input should be a finite number"
  | IntErr e => int_error_msg e
  end.

(** An entry of [exc.errors()]: its type, its location, its message and
    the input that failed. *)
Definition verror (k : verr_kind) (loc : list value) (input : value) : value :=
  VDict [("type", VStr (kind_type k)); ("loc", VList loc);
         ("msg", VStr (kind_msg k)); ("input", input)].

(** ** [int] from a [float] ([float_as_int]): a finite float without
    fractional part, of magnitude below [2 ^ 63] (an [i64]). *)
Definition int_of_float (f : float) : result Z verr_kind :=
  match FloatOps.Prim2SF f with
  | SpecFloat.S754_zero _ => Ok 0%Z
  | SpecFloat.S754_infinity _ | SpecFloat.S754_nan => Err FiniteNumber
  | SpecFloat.S754_finite neg m e =>
      let mag :=
        if (0 <=? e)%Z then Some (Zpos m * 2 ^ e)%Z
        else if Z.eqb (Z.modulo (Zpos m) (2 ^ (- e))) 0 then Some (Zpos m / 2 ^ (- e))%Z
        else None in
      match mag with
      | None => Err IntFromFloat
      | Some a => if (2 ^ 63 <=? a)%Z then Err (IntErr IntParsingSize)
                  else Ok (if neg then - a else a)%Z
      end
  end.

(** ** The validators of the scalar fields, in lax Python mode *)

Section Validators.
Variable oversize : string -> int_error.

(** [str]: only a string. *)
Definition v_str (x : value) : result string verr_kind :=
  match x with VStr s => Ok s | _ => Err StringType end.

(** [float]: a float, an [int] that [float()] converts, a [bool], or a
    string [pyd_float_str] reads. *)
Definition v_float (x : value) : result float verr_kind :=
  match x with
  | VFloat f => Ok f
  | VInt z => match float_of_int z with Ok f => Ok f | Err _ => Err FloatType end
  | VBool b => Ok (if b then 1 else 0)%float
  | VStr s => match pyd_float_str s with Some f => Ok f | None => Err FloatParsing end
  | _ => Err FloatType
  end.

(** [int]: an [int], a [bool], a float [int_of_float] accepts, or a
    string [pyd_int] reads. *)
Definition v_int (x : value) : result Z verr_kind :=
  match x with
  | VInt z => Ok z
  | VBool b => Ok (if b then 1 else 0)%Z
  | VFloat f => int_of_float f
  | VStr s => match pyd_int oversize s with Ok n => Ok n | Err e => Err (IntErr e) end
  | _ => Err IntType
  end.

End Validators.

(** ** Lemmas on pydantic's [int] *)

Lemma forallb_zeros (f : ascii -> bool) k :
  f "0"%char = true -> forallb f (list_ascii_of_string (zeros k)) = true.
Proof.
  intros Hf. unfold zeros. rewrite list_ascii_of_string_of_list_ascii.
  induction k as [|k IH]; [reflexivity | cbn [repeat forallb]; rewrite Hf, IH; reflexivity].
Qed.

Lemma zeros_all k :
  negb (String.eqb (zeros (S k)) "") && forallb (Ascii.eqb "0") (list_ascii_of_string (zeros (S k))) = true.
Proof. rewrite forallb_zeros by reflexivity. reflexivity. Qed.

Lemma has_dot_str_Z n : has_char "." (str_Z n) = false.
Proof.
  unfold has_char. apply not_true_is_false. intros (d & Hd & Hdot)%existsb_exists.
  apply Ascii.eqb_eq in Hdot. subst d.
  pose proof (proj1 (forallb_forall _ _) (str_Z_chars n) "."%char Hd) as H.
  vm_compute in H. discriminate.
Qed.

(** A text without a point followed by [.0...0] loses the zeros. *)
Lemma strip_decimal_zeros_app x k :
  has_char "." x = false -> strip_decimal_zeros (x ++ String "." (zeros (S k))) = Some x.
Proof.
  induction x as [|c x IH]; unfold has_char in *; cbn [list_ascii_of_string existsb]; intros H.
  - rewrite string_app_nil_l. cbn -[zeros]. rewrite zeros_all. reflexivity.
  - apply orb_false_iff in H as [Hc H]. rewrite string_app_cons. cbn [strip_decimal_zeros].
    rewrite Ascii.eqb_sym, Hc, (IH H). reflexivity.
Qed.

(** pydantic reads the text inside the whitespace around it. *)
Lemma pyd_int_padded o w1 s w2 :
  forallb is_num_space (list_ascii_of_string w1) = true ->
  forallb is_num_space (list_ascii_of_string w2) = true ->
  s <> EmptyString -> no_space_by is_num_space s = true ->
  pyd_int o (w1 ++ s ++ w2) = pyd_int o s.
Proof.
  intros H1 H2 Hs Hn. unfold pyd_int, num_strip.
  rewrite strip_by_padded, (strip_by_no_space _ s) by assumption. reflexivity.
Qed.

Lemma pyd_int_sized o s n : pyd_int o s = Ok n -> int_size_ok n = true.
Proof.
  unfold pyd_int. cbv zeta.
  destruct (int_signed _) as [m|];
    [|destruct (strip_decimal_zeros _) as [t'|]; [destruct (int_signed t') as [m|]|]];
    try discriminate; destruct (int_size_ok m) eqn:E; try discriminate; intros [= <-]; exact E.
Qed.

Lemma uint_acc_bound u acc :
  (0 <= acc -> uint_acc u acc < (acc + 1) * 10 ^ Z.of_nat (String.length (NilEmpty.string_of_uint u)))%Z.
Proof.
  revert acc; induction u; intros acc Hacc; cbn [uint_acc NilEmpty.string_of_uint String.length];
    [cbn; lia | ..];
    rewrite Nat2Z.inj_succ, Z.pow_succ_r by lia;
    (eapply Z.lt_le_trans; [apply IHu; lia |]);
    pose proof (Z.pow_nonneg 10 (Z.of_nat (String.length (NilEmpty.string_of_uint u)))); nia.
Qed.

(** A positive [int] whose [str] has [L] digits is below [10 ^ L]. *)
Lemma pos_digits_bound p :
  (Zpos p < 10 ^ Z.of_nat (String.length (NilEmpty.string_of_uint (Pos.to_uint p))))%Z.
Proof.
  pose proof (uint_acc_bound (Pos.to_uint p) 0 (Z.le_refl 0)) as Hb.
  rewrite uint_acc_of_uint, of_uint_to_uint in Hb. lia.
Qed.

Lemma int_size_ok_bounds n : int_size_ok n = true -> (- 10 ^ 4299 < n < 10 ^ 4300)%Z.
Proof.
  unfold int_size_ok, max_int_str_len, str_Z. intros H%Nat.leb_le.
  assert (Hp : forall k : nat, (k <= 4300)%nat -> (0 < 10 ^ Z.of_nat k <= 10 ^ 4300)%Z)
    by (intros k Hk; split; [apply Z.pow_pos_nonneg | apply Z.pow_le_mono_r]; lia).
  pose proof (Z.pow_pos_nonneg 10 4299 ltac:(lia) ltac:(lia)) as H4299.
  destruct n as [|p|p]; cbn [Z.to_int NilEmpty.string_of_int String.length] in H; [lia | |].
  - pose proof (pos_digits_bound p). specialize (Hp _ H). lia.
  - pose proof (pos_digits_bound p).
    assert (10 ^ Z.of_nat (String.length (NilEmpty.string_of_uint (Pos.to_uint p))) <= 10 ^ 4299)%Z
      by (apply Z.pow_le_mono_r; lia).
    specialize (Hp 0%nat ltac:(lia)). lia.
Qed.

Lemma pyd_int_str_Z o n : int_size_ok n = true -> pyd_int o (str_Z n) = Ok n.
Proof.
  intros Hn. unfold pyd_int, num_strip. rewrite strip_by_no_space by apply no_num_space_str_Z.
  rewrite int_signed_str_Z. cbv beta iota zeta. rewrite Hn. reflexivity.
Qed.

Lemma no_space_dotted n k : no_space_by is_num_space (str_Z n ++ String "." (zeros k)) = true.
Proof.
  pose proof (no_num_space_str_Z n) as Hn. unfold no_space_by in *.
  rewrite list_ascii_of_string_app, forallb_app, Hn. cbn [list_ascii_of_string forallb].
  rewrite forallb_zeros by reflexivity. reflexivity.
Qed.

(** ** Lemmas on pydantic's [float] *)

Lemma digit_prefix_uint u acc n :
  digit_prefix (NilEmpty.string_of_uint u) acc n =
    (uint_acc u acc, (n + String.length (NilEmpty.string_of_uint u))%nat, EmptyString).
Proof.
  revert acc n; induction u; intros acc n; simpl; [rewrite Nat.add_0_r; reflexivity | ..];
    rewrite IHu, Nat.add_succ_r; do 3 f_equal; lia.
Qed.

Lemma lower_uint u : lower (NilEmpty.string_of_uint u) = NilEmpty.string_of_uint u.
Proof. induction u; simpl; [reflexivity | rewrite IHu; reflexivity ..]. Qed.

(** A printed positive [int] is read as the integer it spells, scaled by
    [10 ^ 0]; it is not [inf], [infinity] nor [nan]. *)
Lemma rust_f64_uint neg p :
  let u := NilEmpty.string_of_uint (Pos.to_uint p) in
  option_map (fun me => decimal_to_float neg (fst me) (snd me)) (parse_decimal u) =
    Some (decimal_to_float neg (Zpos p) 0) /\
  (String.eqb (lower u) "inf" || String.eqb (lower u) "infinity") = false /\
  String.eqb (lower u) "nan" = false.
Proof.
  cbv zeta. rewrite lower_uint. pose proof (DecimalPos.Unsigned.to_uint_nonnil p) as Hnn.
  assert (Hd : parse_decimal (NilEmpty.string_of_uint (Pos.to_uint p)) = Some (Zpos p, 0%Z)).
  { unfold parse_decimal. rewrite digit_prefix_uint, uint_acc_of_uint, of_uint_to_uint.
    destruct (Pos.to_uint p); [congruence | reflexivity ..]. }
  rewrite Hd. split; [reflexivity|]. destruct (Pos.to_uint p); [congruence | split; reflexivity ..].
Qed.

(** The decimal [m * 10 ^ 0] of a nonzero [m] is rounded as
    [binary_normalize] rounds the integer. *)
Lemma decimal_to_float_int neg p :
  decimal_to_float neg (Zpos p) 0 =
    FloatOps.SF2Prim (SpecFloat.binary_normalize FloatOps.prec FloatOps.emax
                        (if neg then Zneg p else Zpos p) 0 false).
Proof.
  unfold decimal_to_float. cbn [Z.eqb].
  replace (Z.of_nat (String.length (str_Z (Zpos p))) + 0 <=? -324)%Z with false
    by (symmetry; apply Z.leb_gt; lia).
  rewrite Z.mul_1_r. destruct neg; reflexivity.
Qed.

(** [pyd_float_str] of [str(n)]: the rounding of [n] that [float(n)]
    uses. *)
Lemma pyd_float_str_Z n :
  pyd_float_str (str_Z n) =
    Some (FloatOps.SF2Prim (SpecFloat.binary_normalize FloatOps.prec FloatOps.emax n 0 false)).
Proof.
  unfold pyd_float_str, num_strip. rewrite strip_by_no_space by apply no_num_space_str_Z.
  destruct n as [|p|p]; [reflexivity | |].
  - unfold str_Z, rust_f64. cbn [Z.to_int NilEmpty.string_of_int].
    destruct (rust_f64_uint false p) as (H1 & H2 & H3).
    assert (Hs : split_sign (NilEmpty.string_of_uint (Pos.to_uint p)) =
                 (false, NilEmpty.string_of_uint (Pos.to_uint p))).
    { pose proof (DecimalPos.Unsigned.to_uint_nonnil p).
      destruct (Pos.to_uint p); [congruence | reflexivity ..]. }
    rewrite Hs, H2, H3, H1, decimal_to_float_int. reflexivity.
  - unfold str_Z, rust_f64. cbn [Z.to_int NilEmpty.string_of_int split_sign Ascii.eqb].
    destruct (rust_f64_uint true p) as (H1 & H2 & H3).
    cbn -[lower parse_decimal decimal_to_float NilEmpty.string_of_uint].
    rewrite H2, H3, H1, decimal_to_float_int. reflexivity.
Qed.

(** ** Theorems *)

(** C23: pydantic's lax [int] accepts [str(n)] with whitespace around it
    and also followed by a point and zeros ([" 50.00 "] is [50]), for
    every [n] whose [str] has at most 4300 characters. *)
Theorem pyd_int_lax o n w1 w2 k :
  int_size_ok n = true ->
  forallb is_num_space (list_ascii_of_string w1) = true ->
  forallb is_num_space (list_ascii_of_string w2) = true ->
  pyd_int o (w1 ++ str_Z n ++ w2) = Ok n /\
  pyd_int o (w1 ++ (str_Z n ++ String "." (zeros (S k))) ++ w2) = Ok n.
Proof.
  intros Hn H1 H2.
  rewrite !pyd_int_padded by (assumption || apply str_Z_nonempty || apply no_num_space_str_Z
                             || apply no_space_dotted || (destruct (str_Z n); discriminate)).
  split; [apply pyd_int_str_Z, Hn|].
  unfold pyd_int, num_strip. rewrite strip_by_no_space by apply no_space_dotted.
  rewrite int_signed_str_Z_dot, strip_decimal_zeros_app by apply has_dot_str_Z.
  rewrite int_signed_str_Z. cbv beta iota zeta. rewrite Hn. reflexivity.
Qed.

(** C24: pydantic's [float] of the text [str(n)] of an integer is the
    float [float(n)]: the same correctly rounded binary64 when [float(n)]
    succeeds, and an infinity (no error) where [float(n)] raises
    [OverflowError]. *)
Theorem pyd_float_str_of_int n :
  (forall f, float_of_int n = Ok f -> pyd_float_str (str_Z n) = Some f) /\
  (is_ok (float_of_int n) = false ->
     exists s, pyd_float_str (str_Z n) = Some (FloatOps.SF2Prim (SpecFloat.S754_infinity s))).
Proof.
  rewrite pyd_float_str_Z. unfold float_of_int.
  destruct (SpecFloat.binary_normalize _ _ n 0 false) as [s|s| |s m e];
    (split; [intros f H | intros H]; cbn in H; try discriminate;
     solve [injection H as <-; reflexivity | eauto]).
Qed.

(** ** Witnesses *)

Lemma pyd_int_lax_witness :
  pyd_int (fun _ => IntParsingSize) (" " ++ str_Z 50 ++ "  ") = Ok 50%Z /\
  pyd_int (fun _ => IntParsingSize) (" " ++ (str_Z 50 ++ String "." (zeros 2)) ++ "  ") = Ok 50%Z.
Proof. apply pyd_int_lax; reflexivity. Defined.


Lemma pyd_float_str_of_int_witness :
  pyd_float_str (str_Z 3) = Some 3%float /\
  exists s, pyd_float_str (str_Z (2 ^ 1024)) = Some (FloatOps.SF2Prim (SpecFloat.S754_infinity s)).
Proof.
  split.
  - apply (proj1 (pyd_float_str_of_int 3)). vm_compute. reflexivity.
  - apply (proj2 (pyd_float_str_of_int (2 ^ 1024))). vm_compute. reflexivity.
Defined.

(** ** Lemmas on the float validators *)

(** A float that is not finite is an infinity or a NaN. *)
Lemma nonfinite_sf f : PrimFloat.is_finite f = false ->
  match FloatOps.Prim2SF f with SpecFloat.S754_infinity _ | SpecFloat.S754_nan => True | _ => False end.
Proof.
  unfold PrimFloat.is_finite, PrimFloat.is_nan, PrimFloat.is_infinity.
  rewrite !FloatAxioms.eqb_spec, FloatAxioms.abs_spec.
  change (FloatOps.Prim2SF infinity) with (SpecFloat.S754_infinity false).
  destruct (FloatOps.Prim2SF f) as [s|s| |s m e]; cbn; try discriminate; try tauto.
  unfold SpecFloat.SFeqb, SpecFloat.SFcompare. rewrite Z.compare_refl.
  change (PosDef.Pos.compare_cont Eq m m) with (Pos.compare m m). rewrite Pos.compare_refl.
  destruct s; discriminate.
Qed.

(** [int] rejects [inf], [-inf] and [nan] as [finite_number]. *)
Lemma v_int_nonfinite oversize f :
  PrimFloat.is_finite f = false -> v_int oversize (VFloat f) = Err FiniteNumber.
Proof.
  intros Hf. cbn [v_int]. unfold int_of_float.
  generalize (nonfinite_sf f Hf). destruct (FloatOps.Prim2SF f); tauto || reflexivity.
Qed.
