(* ===== verification/Schemas.v ===== *)
(** * The request bodies of [POST /api/products] and [POST /api/orders]

    Lines 22-27 declare the bodies as the models [Product] and [Order] of
    [schemas.py], which is not under [src/]: their fields are the spec's
    (section 3), with the types of the records of [Api] and [Pricing].
    FastAPI hands pydantic what [json.loads] made of the body (a JSON
    object has distinct keys) and pydantic validates it in lax Python
    mode: every declared field with the validators of [Pydantic], all the
    errors of a body together, in the order of the fields, each located
    under ["body"] (and ["items", i] for the [i]-th item of an order).  A
    [Product] keeps the fields it does not declare as given
    ([extra="allow"]), an [OrderItem] and an [Order] drop them.  An
    absent or [null] body is a missing field ["body"]. *)

From Stdlib Require Import ZArith List String Ascii Bool Lia Floats.
From S2P Require Import Prelude Python PyString Pricing Api Pydantic.
Import ListNotations.
Open Scope string_scope.
Open Scope shop_scope.

(** Two parts of a model validated side by side: both values, or the
    errors of both in order. *)
Definition both {A B : Type} (ra : result A (list value)) (rb : result B (list value))
  : result (A * B) (list value) :=
  match ra, rb with
  | Ok a, Ok b => Ok (a, b)
  | Err e1, Err e2 => Err (e1 ++ e2)%list
  | Err e, Ok _ | Ok _, Err e => Err e
  end.

(** ** The fields of a model *)

Section Fields.
(** Where the model sits in the body, its items, and the object as
    received (the input of a missing-field error). *)
Variable loc : list value.
Variable d : dict.
Variable whole : value.

(** A required field. *)
Definition field {A : Type} (v : value -> result A verr_kind) (name : string) : result A (list value) :=
  match dict_get name d with
  | None => Err [verror Missing (loc ++ [VStr name])%list whole]
  | Some x => match v x with Ok a => Ok a | Err k => Err [verror k (loc ++ [VStr name])%list x] end
  end.

(** A field [Optional[...] = None]: absent or [null] is [None]. *)
Definition opt_field {A : Type} (v : value -> result A verr_kind) (name : string)
  : result (option A) (list value) :=
  match dict_get name d with
  | None | Some VNone => Ok None
  | Some x => match v x with Ok a => Ok (Some a) | Err k => Err [verror k (loc ++ [VStr name])%list x] end
  end.

End Fields.

(** ** [Product] *)

Definition product_fields : list string := ["title"; "description"; "category"; "price"].

Definition is_product_field (k : string) : bool := existsb (String.eqb k) product_fields.

(** [__pydantic_extra__]: the other fields, in the order received. *)
Definition product_extra (d : dict) : dict := filter (fun kv => negb (is_product_field (fst kv))) d.

Definition validate_product (loc : list value) (x : value) : result Product (list value) :=
  match x with
  | VDict d =>
      match both (field loc d x v_str "title")
             (both (field loc d x v_str "description")
                (both (field loc d x v_str "category") (field loc d x v_float "price"))) with
      | Ok (t, (ds, (c, p))) => Ok (mkProduct t ds c p (product_extra d))
      | Err es => Err es
      end
  | _ => Err [verror ModelAttributesType loc x]
  end.

(** ** [OrderItem] and [Order] *)

Section Orders.
Variable oversize : string -> int_error.

Definition validate_item (loc : list value) (x : value) : result OrderItem (list value) :=
  match x with
  | VDict d =>
      match both (field loc d x v_str "product_id")
             (both (field loc d x v_float "price") (field loc d x (v_int oversize) "quantity")) with
      | Ok (pid, (pr, q)) => Ok (mkItem pid pr q)
      | Err es => Err es
      end
  | _ => Err [verror ModelAttributesType loc x]
  end.

(** [List[OrderItem]]: every item, the errors of all of them. *)
Fixpoint validate_items (loc : list value) (i : Z) (xs : list value) : result (list OrderItem) (list value) :=
  match xs with
  | [] => Ok []
  | x :: r =>
      match both (validate_item (loc ++ [VInt i])%list x) (validate_items loc (i + 1) r) with
      | Ok (a, l) => Ok (a :: l)
      | Err es => Err es
      end
  end.

Definition items_field (loc : list value) (d : dict) (whole : value) : result (list OrderItem) (list value) :=
  match dict_get "items" d with
  | None => Err [verror Missing (loc ++ [VStr "items"])%list whole]
  | Some (VList xs) => validate_items (loc ++ [VStr "items"])%list 0 xs
  | Some x => Err [verror ListType (loc ++ [VStr "items"])%list x]
  end.

Definition validate_order (loc : list value) (x : value) : result Order (list value) :=
  match x with
  | VDict d =>
      match both (items_field loc d x)
             (both (opt_field loc d v_float "shipping")
                (both (opt_field loc d v_float "subtotal") (opt_field loc d v_float "total"))) with
      | Ok (its, (sh, (sub, tot))) => Ok (mkOrder its sh sub tot)
      | Err es => Err es
      end
  | _ => Err [verror ModelAttributesType loc x]
  end.

End Orders.

(** FastAPI's body parameter: an absent or [null] body is missing, any
    other value is validated at location ["body"]. *)
Definition validate_body {A : Type} (validate : list value -> value -> result A (list value)) (x : value)
  : result A (list value) :=
  match x with
  | VNone => Err [verror Missing [VStr "body"] VNone]
  | _ => validate [VStr "body"] x
  end.

(** An error of either part is among the errors of both. *)
Lemma both_err_l {A B : Type} (ra : result A (list value)) (rb : result B (list value)) es x :
  ra = Err es -> In x es -> exists es', both ra rb = Err es' /\ In x es'.
Proof.
  intros -> Hx. destruct rb as [b|es2]; cbn; eexists; split; try reflexivity; [exact Hx|].
  apply in_or_app. left. exact Hx.
Qed.

Lemma both_err_r {A B : Type} (ra : result A (list value)) (rb : result B (list value)) es x :
  rb = Err es -> In x es -> exists es', both ra rb = Err es' /\ In x es'.
Proof.
  intros -> Hx. destruct ra as [a|es1]; cbn; eexists; split; try reflexivity; [exact Hx|].
  apply in_or_app. right. exact Hx.
Qed.

Lemma field_err {A : Type} loc d whole (v : value -> result A verr_kind) name x k :
  dict_get name d = Some x -> v x = Err k ->
  field loc d whole v name = Err [verror k (loc ++ [VStr name])%list x].
Proof. intros Hd Hv. unfold field. rewrite Hd, Hv. reflexivity. Qed.

(** A bad item makes the list of items fail with its error. *)
Lemma validate_items_err o loc xs i x e :
  nth_error xs i = Some x ->
  forall j, (exists es, validate_item o (loc ++ [VInt (j + Z.of_nat i)])%list x = Err es /\ In e es) ->
  exists es, validate_items o loc j xs = Err es /\ In e es.
Proof.
  revert i; induction xs as [|y xs IH]; intros [|i] Hn j (es & Hes & He); cbn in Hn; try discriminate.
  - injection Hn as ->. rewrite Z.add_0_r in Hes. cbn [validate_items].
    destruct (both_err_l _ (validate_items o loc (j + 1) xs) _ _ Hes He) as (es' & -> & He').
    eauto.
  - destruct (IH i Hn (j + 1)%Z) as (es1 & H1 & He1).
    { exists es. split; [|exact He]. rewrite <- Hes. do 4 f_equal. lia. }
    cbn [validate_items].
    destruct (both_err_r (validate_item o (loc ++ [VInt j])%list y) _ _ _ H1 He1) as (es' & -> & He').
    eauto.
Qed.

(** An item whose [quantity] pydantic rejects makes the whole order fail,
    with that error at [loc + ["items", i, "quantity"]] among the errors. *)
Lemma validate_order_quantity_err o loc b its i it x k :
  dict_get "items" b = Some (VList its) -> nth_error its i = Some (VDict it) ->
  dict_get "quantity" it = Some x -> v_int o x = Err k ->
  exists es, validate_order o loc (VDict b) = Err es /\
             In (verror k (loc ++ [VStr "items"; VInt (Z.of_nat i); VStr "quantity"])%list x) es.
Proof.
  intros Hits Hi Hq Hk. set (e := verror k _ x).
  set (l := ((loc ++ [VStr "items"]) ++ [VInt (0 + Z.of_nat i)])%list).
  assert (Hitem : exists es, validate_item o l (VDict it) = Err es /\ In e es).
  { cbn [validate_item].
    destruct (both_err_r (field l it (VDict it) v_float "price") _ _ e
                (field_err l it (VDict it) (v_int o) _ _ _ Hq Hk)) as (es1 & H1 & He1).
    { subst e l. rewrite <- !app_assoc. left. reflexivity. }
    destruct (both_err_r (field l it (VDict it) v_str "product_id") _ _ _ H1 He1) as (es2 & -> & He2).
    eauto. }
  destruct (validate_items_err o _ its i (VDict it) e Hi 0 Hitem) as (es & Hes & He).
  cbn [validate_order]. unfold items_field at 1. rewrite Hits.
  destruct (both_err_l _ (both (opt_field loc b v_float "shipping")
                             (both (opt_field loc b v_float "subtotal") (opt_field loc b v_float "total")))
              _ _ Hes He) as (es' & -> & He').
  eauto.
Qed.
