(* ===== verification/Params.v ===== *)
(** * The query parameters of [GET /api/products] and their validation

    [list_products] (line 36) declares [category: Optional[str] = None],
    [q: Optional[str] = None] and [limit: int = 50].  Before the handler
    runs, Starlette reads the query string ([QueryParams], which is
    [urllib.parse.parse_qsl(qs, keep_blank_values=True)] on the raw bytes
    read as Latin-1: [parse_qsl]) and FastAPI takes each parameter from it
    ([request_params_to_args]): the last value of a repeated name, the
    default when the name is absent, the value as it is otherwise (an
    empty string included).  [category] and [q] are strings and always
    valid; [limit] goes through pydantic's lax [int] validation of a
    string ([pyd_int]).  A failure is a [RequestValidationError], which
    FastAPI's handler answers with [422] and the list of errors, without
    running [list_products] ([dispatch]); the answer is a bare [500]
    instead when the error list does not render as JSON.

    [raw_request] is a request as it arrives (the query string of the
    listing not yet read, the JSON bodies of the two [POST] routes not yet
    validated); [resolve] turns it into the [Server.request] the handlers
    take, validating the bodies with [Schemas].

    Percent escapes are decoded to single bytes; Python then decodes them
    as UTF-8, which is exact for the ASCII texts the development models. *)

From Stdlib Require Import ZArith List String Ascii Bool Lia DecimalString Floats.
From S2P Require Import Prelude Python PyString ObjectId PyRepr Regex Filter Pricing Query Store Api Server Pydantic Schemas.
Import ListNotations.
Open Scope string_scope.
Open Scope shop_scope.

(** ** [urllib.parse.parse_qsl(qs, keep_blank_values=True)] *)

(** [name_value.partition("=")] without the separator: a field without
    [=] has the value [""]. *)
Fixpoint partition_eq (s : string) : string * string :=
  match s with
  | EmptyString => ("", "")
  | String c r =>
      if Ascii.eqb c "=" then ("", r)
      else let '(n, v) := partition_eq r in (String c n, v)
  end.

(** The value of a hexadecimal digit of either case ([_hextobyte]). *)
Definition hex_val (c : ascii) : option nat :=
  let n := nat_of_ascii c in
  if (48 <=? n)%nat && (n <=? 57)%nat then Some (n - 48)%nat
  else if (65 <=? n)%nat && (n <=? 70)%nat then Some (n - 55)%nat
  else if (97 <=? n)%nat && (n <=? 102)%nat then Some (n - 87)%nat
  else None.

(** [unquote_to_bytes]: [%] and two hexadecimal digits is the byte they
    spell; any other [%] is kept. *)
Fixpoint unquote (s : string) : string :=
  match s with
  | EmptyString => EmptyString
  | String c r =>
      if Ascii.eqb c "%" then
        match r with
        | String h1 (String h2 r') =>
            match hex_val h1, hex_val h2 with
            | Some a, Some b => String (ascii_of_nat (16 * a + b)) (unquote r')
            | _, _ => String c (unquote r)
            end
        | _ => String c (unquote r)
        end
      else String c (unquote r)
  end.

(** [s.replace("+", " ")]. *)
Fixpoint plus_to_space (s : string) : string :=
  match s with
  | EmptyString => EmptyString
  | String c r => String (if Ascii.eqb c "+" then " "%char else c) (plus_to_space r)
  end.

Definition unquote_plus (s : string) : string := unquote (plus_to_space s).

(** One field [name=value] of a query string: an empty field is skipped,
    a blank value kept. *)
Definition qs_field (nv : string) : list (string * string) :=
  if String.eqb nv "" then []
  else let '(n, v) := partition_eq nv in [(unquote_plus n, unquote_plus v)].

(** The fields of a query string in order. *)
Definition parse_qsl (qs : string) : list (string * string) :=
  if String.eqb qs "" then [] else flat_map qs_field (split_on "&" qs).

(** [QueryParams.get(name)]: its [dict] keeps the last value of a name. *)
Fixpoint qp_get (k : string) (qp : list (string * string)) : option string :=
  match qp with
  | [] => None
  | (k', v) :: rest =>
      match qp_get k rest with
      | Some w => Some w
      | None => if String.eqb k k' then Some v else None
      end
  end.

(** ** FastAPI: the parameters of [list_products] and the [422] answer *)

(** An entry of [exc.errors()] for a query parameter: its location is
    [("query", alias)] and its input the text received. *)
Definition query_error (alias : string) (e : int_error) (input : string) : value :=
  verror (IntErr e) [VStr "query"; VStr alias] (VStr input).

(** [request_validation_exception_handler]:
    [JSONResponse(status_code=422, content={"detail": jsonable_encoder(exc.errors())})].
    The response renders its content when it is built, inside the
    exception handler: an input that JSON cannot render (a non-finite
    float) makes it raise, and the exception leaves the application as a
    failed rendering does ([server_error]). *)
Definition validation_error_response (errs : list value) : response :=
  let content := VDict [("detail", VList errs)] in
  if renderable content then Resp 422 content else server_error.

(** A request as it reaches the routes: the listing with its raw query
    string, the two [POST] routes with what [json.loads] made of their
    body ([VNone] for an absent body); the other routes take no query
    parameter. *)
Inductive raw_request : Type :=
| RawGetRoot
| RawListProducts (query_string : string)
| RawCreateProduct (body : value)
| RawGetProduct (product_id : string)
| RawCreateOrder (body : value)
| RawTestDatabase.

Section Resolve.
Variable oversize : string -> int_error.

(** [_get_multidict_value] and the validation of an [int] query parameter
    with a default: the default when the name is absent, else the value
    validated. *)
Definition int_query_param (alias : string) (default : Z) (qp : list (string * string))
  : result Z (list value) :=
  match qp_get alias qp with
  | None => Ok default
  | Some s =>
      match pyd_int oversize s with
      | Ok n => Ok n
      | Err e => Err [query_error alias e s]
      end
  end.

(** [request_params_to_args] for the signature of line 36: [category] and
    [q] are [None] when absent and the string received otherwise. *)
Definition list_products_args (qs : string) : result request (list value) :=
  let qp := parse_qsl qs in
  match int_query_param "limit" 50 qp with
  | Ok n => Ok (ListProducts (qp_get "category" qp) (qp_get "q" qp) n)
  | Err errs => Err errs
  end.

Definition resolve (r : raw_request) : result request (list value) :=
  match r with
  | RawGetRoot => Ok GetRoot
  | RawListProducts qs => list_products_args qs
  | RawCreateProduct b =>
      match validate_body validate_product b with Ok p => Ok (CreateProduct p) | Err es => Err es end
  | RawGetProduct pid => Ok (GetProduct pid)
  | RawCreateOrder b =>
      match validate_body (validate_order oversize) b with Ok o => Ok (CreateOrder o) | Err es => Err es end
  | RawTestDatabase => Ok TestDatabase
  end.

End Resolve.

Section Dispatch.
Context {St : Type} `{Gateway St} `{RegexEngine}.
Variable oversize : string -> int_error.
Variable v : pyversion.
Variable env : string -> option string.

(** FastAPI's route: the parameters are validated, then the handler runs;
    a validation error answers [422] and leaves the store alone. *)
Definition dispatch (db : option St) (r : raw_request) : response * option St :=
  match resolve oversize r with
  | Ok rq => handle v env db rq
  | Err errs => (validation_error_response errs, db)
  end.

End Dispatch.

(** Text with none of the characters a query string gives a meaning to. *)
Definition query_special (c : ascii) : bool := existsb (Ascii.eqb c) ["&"; "="; "+"; "%"]%char.

Definition query_plain (s : string) : bool :=
  forallb (fun c => negb (query_special c)) (list_ascii_of_string s).

(** ** Lemmas on the query string *)

(** The answer to a validation error is a [422] that renders, or the
    failed rendering. *)
Lemma validation_error_ok errs :
  In (status (validation_error_response errs)) [422; 500]%Z /\
  renderable (body (validation_error_response errs)) = true.
Proof.
  unfold validation_error_response. destruct (renderable _) eqn:E.
  - split; [cbn; tauto | exact E].
  - split; [cbn; tauto | reflexivity].
Qed.

Lemma split_on_nonempty sep s : split_on sep s <> [].
Proof.
  destruct s as [|c r]; cbn [split_on]; [discriminate|].
  destruct (split_on sep r); [discriminate|]. destruct (Ascii.eqb c sep); discriminate.
Qed.

Lemma split_on_app sep a b :
  split_on sep (a ++ String sep b) = (split_on sep a ++ split_on sep b)%list.
Proof.
  induction a as [|c a IH]; simpl.
  - pose proof (split_on_nonempty sep b). destruct (split_on sep b); [congruence|].
    rewrite Ascii.eqb_refl. reflexivity.
  - rewrite IH. pose proof (split_on_nonempty sep a).
    destruct (split_on sep a) as [|p ps]; [congruence|]. cbn [app].
    destruct (Ascii.eqb c sep); reflexivity.
Qed.

Lemma parse_qsl_fields qs : parse_qsl qs = flat_map qs_field (split_on "&" qs).
Proof. unfold parse_qsl. destruct (String.eqb_spec qs ""); [subst; reflexivity | reflexivity]. Qed.

(** Two query strings joined by [&] give their fields one after the other. *)
Lemma parse_qsl_app a b : parse_qsl (a ++ String "&" b) = (parse_qsl a ++ parse_qsl b)%list.
Proof. rewrite !parse_qsl_fields, split_on_app. apply flat_map_app. Qed.

(** The later fields of a query string take precedence. *)
Lemma qp_get_app k l1 l2 :
  qp_get k (l1 ++ l2) = match qp_get k l2 with Some w => Some w | None => qp_get k l1 end.
Proof.
  induction l1 as [|[k' v] l1 IH]; cbn [app qp_get]; [destruct (qp_get k l2); reflexivity|].
  rewrite IH. destruct (qp_get k l2); reflexivity.
Qed.

Lemma query_plain_cons c s :
  query_plain (String c s) = true ->
  Ascii.eqb c "&" = false /\ Ascii.eqb c "=" = false /\ Ascii.eqb c "+" = false /\
  Ascii.eqb c "%" = false /\ query_plain s = true.
Proof.
  unfold query_plain, query_special. cbn [list_ascii_of_string forallb existsb].
  intros H. apply andb_prop in H as [Hc H]. apply negb_true_iff in Hc. rewrite !orb_false_iff in Hc.
  tauto.
Qed.

Lemma split_on_plain s : query_plain s = true -> split_on "&" s = [s].
Proof.
  induction s as [|c s IH]; [reflexivity|]. intros (Ha & _ & _ & _ & H)%query_plain_cons.
  cbn [split_on]. rewrite (IH H), Ha. reflexivity.
Qed.

Lemma unquote_plus_plain s : query_plain s = true -> unquote_plus s = s.
Proof.
  unfold unquote_plus. induction s as [|c s IH]; [reflexivity|].
  intros (_ & _ & Hp & Hpc & H)%query_plain_cons. cbn [plus_to_space unquote]. rewrite Hp, Hpc.
  f_equal. exact (IH H).
Qed.

Lemma query_plain_str_Z n : query_plain (str_Z n) = true.
Proof. apply str_Z_forallb. digit_chars. Qed.

(** The field [limit=str(n)]. *)
Lemma parse_qsl_limit n : parse_qsl ("limit=" ++ str_Z n) = [("limit", str_Z n)].
Proof.
  rewrite parse_qsl_fields. simpl. rewrite split_on_plain by apply query_plain_str_Z.
  cbn -[str_Z unquote_plus]. change ("" ++ str_Z n)%string with (str_Z n).
  rewrite (unquote_plus_plain (str_Z n)) by apply query_plain_str_Z. reflexivity.
Qed.

(** An error whose input JSON cannot render makes the whole answer the
    failed rendering. *)
Lemma renderable_list_in e l : In e l -> renderable e = false -> renderable (VList l) = false.
Proof.
  induction l as [|y l IH]; [intros []|]. intros [->|Hin] He; rewrite renderable_list_cons.
  - rewrite He. reflexivity.
  - rewrite (IH Hin He). apply andb_false_r.
Qed.

Lemma validation_error_unrenderable errs e :
  In e errs -> renderable e = false -> validation_error_response errs = server_error.
Proof.
  intros Hin He. unfold validation_error_response.
  rewrite renderable_dict_cons, (renderable_list_in e errs Hin He). reflexivity.
Qed.

Lemma renderable_verror k loc x :
  renderable (verror k loc x) = renderable (VList loc) && renderable x.
Proof. unfold verror. autorewrite with shop. reflexivity. Qed.

(** ** Theorems *)

(** C20: a [limit] that pydantic rejects makes [GET /api/products]
    answer [422] with FastAPI's error list: one entry of type
    [int_parsing] (or [int_parsing_size]) located at [("query",
    "limit")] with the text received.  The handler does not run: the
    store is untouched, and even with no database the answer is the
    [422], not the handler's [500]. *)
Theorem list_products_bad_limit_422 {St : Type} `{Gateway St} `{RegexEngine} oversize v env
    (db : option St) qs s e :
  qp_get "limit" (parse_qsl qs) = Some s -> pyd_int oversize s = Err e ->
  dispatch oversize v env db (RawListProducts qs) =
    (validation_error_response [query_error "limit" e s], db).
Proof.
  intros Hq He. unfold dispatch. cbn [resolve]. unfold list_products_args, int_query_param.
  rewrite Hq, He. reflexivity.
Qed.

(** C21: whatever query string [qs] comes first, appending
    [&limit=str(n)] for an integer [n] whose [str] has at most 4300
    characters makes the handler run with limit [n]: the last value of a
    repeated parameter wins and pydantic reads back what [str] prints,
    while [category] and [q] are the ones [qs] carries. *)
Theorem list_products_limit_last oversize qs n :
  int_size_ok n = true ->
  resolve oversize (RawListProducts (qs ++ "&limit=" ++ str_Z n)) =
    Ok (ListProducts (qp_get "category" (parse_qsl qs)) (qp_get "q" (parse_qsl qs)) n).
Proof.
  intros Hn. cbn [resolve]. unfold list_products_args, int_query_param.
  change ("&limit=" ++ str_Z n)%string with (String "&" ("limit=" ++ str_Z n)).
  rewrite parse_qsl_app, parse_qsl_limit, !qp_get_app. cbn -[str_Z parse_qsl pyd_int].
  rewrite pyd_int_str_Z by exact Hn. reflexivity.
Qed.

(** C22: the [limit] [list_products] receives, its default [50]
    included, lies strictly between [-10^4299] and [10^4300]: the bound
    pydantic puts on the length of [str] of an [int]; there is no other
    bound on it (spec: "no explicit upper bound enforced"). *)
Theorem list_products_limit_bounds oversize qs c q n :
  resolve oversize (RawListProducts qs) = Ok (ListProducts c q n) ->
  (- 10 ^ 4299 < n < 10 ^ 4300)%Z.
Proof.
  cbn [resolve]. unfold list_products_args, int_query_param.
  destruct (qp_get "limit" (parse_qsl qs)) as [s|].
  - destruct (pyd_int oversize s) as [m|] eqn:E; [|discriminate]. intros [= _ _ <-].
    apply int_size_ok_bounds, (pyd_int_sized _ _ _ E).
  - intros [= _ _ <-]. split; [|apply (Z.lt_trans _ (10 ^ 2))]; [|reflexivity | apply Z.pow_lt_mono_r]; lia.
Qed.

(** C26: an order whose [i]-th item has a [quantity] pydantic's [int]
    rejects (a string that is no integer, a float with a fractional part,
    a list, ...) is not created: [POST /api/orders] answers FastAPI's
    validation error, whose list holds that error located at
    [("body", "items", i, "quantity")] with the value received, and the
    store is left as it was. *)
Theorem create_order_bad_quantity {St : Type} `{Gateway St} `{RegexEngine} oversize v env
    (db : option St) b its i it x k :
  dict_get "items" b = Some (VList its) -> nth_error its i = Some (VDict it) ->
  dict_get "quantity" it = Some x -> v_int oversize x = Err k ->
  exists errs, dispatch oversize v env db (RawCreateOrder (VDict b)) = (validation_error_response errs, db) /\
    In (verror k [VStr "body"; VStr "items"; VInt (Z.of_nat i); VStr "quantity"] x) errs.
Proof.
  intros Hits Hi Hq Hk.
  destruct (validate_order_quantity_err oversize [VStr "body"] b its i it x k Hits Hi Hq Hk) as (es & He & Hin).
  exists es. split; [|exact Hin]. unfold dispatch. cbn [resolve validate_body]. rewrite He. reflexivity.
Qed.

(** ** Witnesses *)

Lemma list_products_bad_limit_422_witness :
  dispatch (fun _ => IntParsingSize) CPython312 (fun _ => None) (@None store)
           (RawListProducts "category=mugs&limit=abc") =
    (validation_error_response [query_error "limit" IntParsing "abc"], None).
Proof. apply list_products_bad_limit_422; reflexivity. Defined.

Lemma list_products_limit_last_witness :
  resolve (fun _ => IntParsingSize) (RawListProducts ("limit=5&category=mugs" ++ "&limit=" ++ str_Z 7)) =
    Ok (ListProducts (Some "mugs") None 7).
Proof. rewrite (list_products_limit_last _ _ 7 eq_refl). reflexivity. Defined.

Lemma list_products_limit_bounds_witness :
  resolve (fun _ => IntParsingSize) (RawListProducts "limit=-7.0") = Ok (ListProducts None None (-7)) /\
  (- 10 ^ 4299 < -7 < 10 ^ 4300)%Z.
Proof.
  split; [reflexivity|].
  apply (list_products_limit_bounds (fun _ => IntParsingSize) "limit=-7.0" None None). reflexivity.
Defined.

Lemma create_order_bad_quantity_witness :
  exists errs,
    dispatch (fun _ => IntParsingSize) CPython312 (fun _ => None) (@None store)
      (RawCreateOrder (VDict [("items", VList [VDict [("product_id", VStr "p"); ("price", VFloat 2%float);
                                                      ("quantity", VFloat 2.5%float)]])])) =
      (validation_error_response errs, None) /\
    In (verror IntFromFloat [VStr "body"; VStr "items"; VInt 0; VStr "quantity"] (VFloat 2.5%float)) errs.
Proof. eapply create_order_bad_quantity with (i := 0%nat); reflexivity. Defined.
