(* ===== verification/Cors.v ===== *)
(** * The CORS middleware of the application

    [src/main.py] lines 13-19 install Starlette's [CORSMiddleware] in
    front of every route:
<<
app.add_middleware(
    CORSMiddleware,
    allow_origins=["*"],
    allow_credentials=True,
    allow_methods=["*"],
    allow_headers=["*"],
)
>>
    This file models the middleware as Starlette 0.46 implements it
    ([starlette/middleware/cors.py]): the constructor [cors_init] that
    turns the options into the headers it will add, the dispatch
    [cors_call] (requests without [Origin] pass through, preflight
    requests are answered by the middleware itself, other responses get
    the CORS headers), over the case-insensitive header lists of
    [starlette.datastructures] ([hget], [hset]).  [app_cors] is the
    configuration of lines 13-19; the [allow_origin_regex] option, which
    [main.py] leaves unset, is left out.

    The wrapped application returns a response or the exception that
    escapes it; an exception passes through the middleware untouched (its
    [send] only sees responses), which [App] uses for the stack's 500s.

    The theorems show what this configuration grants: a cross-origin
    request that carries cookies gets its own origin echoed back with
    [Access-Control-Allow-Credentials: true], so any web site can read the
    API's responses with the user's credentials
    ([cors_credentials_any_origin]); every preflight with a standard
    method succeeds without reaching the application ([cors_preflight]). *)

From Stdlib Require Import ZArith List String Ascii Bool Lia.
From S2P Require Import Prelude Python PyString.
Import ListNotations.
Open Scope string_scope.
Open Scope shop_scope.

(** ** Header lists

    An ASGI message carries its headers as a list of (name, value) pairs,
    names in lower case.  Header names are ASCII. *)

Definition headers : Type := list (string * string).

(** [Headers.__getitem__] / [get]: the first entry named [key.lower()]. *)
Fixpoint hget (k : string) (h : headers) : option string :=
  match h with
  | [] => None
  | (k', v) :: r => if String.eqb k' (lower k) then Some v else hget k r
  end.

(** [key in headers]. *)
Definition hmem (k : string) (h : headers) : bool :=
  match hget k h with Some _ => true | None => false end.

(** The entries not named [k] (the duplicates [__setitem__] deletes). *)
Definition hremove (k : string) (h : headers) : headers :=
  filter (fun kv => negb (String.eqb (fst kv) k)) h.

(** [MutableHeaders.__setitem__]: the first entry named [key.lower()]
    gets the value and the later ones are deleted; without one, the
    entry is appended. *)
Fixpoint hset_found (k v : string) (h : headers) : option headers :=
  match h with
  | [] => None
  | (k', v') :: r =>
      if String.eqb k' k then Some ((k, v) :: hremove k r)
      else option_map (cons (k', v')) (hset_found k v r)
  end.

Definition hset (k v : string) (h : headers) : headers :=
  match hset_found (lower k) v h with
  | Some h' => h'
  | None => (h ++ [(lower k, v)])%list
  end.

(** [MutableHeaders.update(d)] with a Python dict [d] (insertion order). *)
Definition hupdate (d : list (string * string)) (h : headers) : headers :=
  fold_left (fun acc kv => hset (fst kv) (snd kv) acc) d h.

(** [MutableHeaders.add_vary_header]. *)
Definition add_vary_header (vary : string) (h : headers) : headers :=
  let vary := match hget "vary" h with
              | Some existing => existing ++ ", " ++ vary
              | None => vary
              end in
  hset "vary" vary h.

(** [d[k] = v] on a Python [dict] of strings (case-sensitive keys). *)
Fixpoint sdict_set (k v : string) (d : list (string * string)) : list (string * string) :=
  match d with
  | [] => [(k, v)]
  | (k', v') :: r => if String.eqb k' k then (k, v) :: r else (k', v') :: sdict_set k v r
  end.

(** Python's [sorted] on a set of strings: insertion into an ordered
    list without duplicates ([String.compare] is code-point order). *)
Fixpoint insert_uniq (x : string) (l : list string) : list string :=
  match l with
  | [] => [x]
  | y :: r =>
      match String.compare x y with
      | Lt => x :: l
      | Eq => l
      | Gt => y :: insert_uniq x r
      end
  end.

Definition sorted_set (l : list string) : list string := fold_right insert_uniq [] l.

Definition str_in (x : string) (l : list string) : bool := existsb (String.eqb x) l.

(** ** The middleware *)

(** The keyword arguments of [CORSMiddleware], with its defaults for
    those [main.py] does not pass. *)
Record cors_options : Type := mkCorsOptions {
  allow_origins : list string;
  allow_methods : list string;
  allow_headers : list string;
  allow_credentials : bool;
  expose_headers : list string;
  max_age : Z
}.

(** Lines 13-19. *)
Definition app_cors : cors_options :=
  {| allow_origins := ["*"]; allow_credentials := true; allow_methods := ["*"];
     allow_headers := ["*"]; expose_headers := []; max_age := 600 |}.

Definition ALL_METHODS : list string := ["DELETE"; "GET"; "HEAD"; "OPTIONS"; "PATCH"; "POST"; "PUT"].
Definition SAFELISTED_HEADERS : list string :=
  ["Accept"; "Accept-Language"; "Content-Language"; "Content-Type"].

(** The attributes [CORSMiddleware.__init__] computes. *)
Record cors_state : Type := mkCorsState {
  c_allow_origins : list string;
  c_allow_methods : list string;
  c_allow_headers : list string;
  c_allow_all_origins : bool;
  c_allow_all_headers : bool;
  c_preflight_explicit_allow_origin : bool;
  c_simple_headers : list (string * string);
  c_preflight_headers : list (string * string)
}.

Definition cors_init (o : cors_options) : cors_state :=
  let methods := if str_in "*" (allow_methods o) then ALL_METHODS else allow_methods o in
  let all_origins := str_in "*" (allow_origins o) in
  let all_headers := str_in "*" (allow_headers o) in
  let explicit := negb all_origins || allow_credentials o in
  let simple := (
    (if all_origins then [("Access-Control-Allow-Origin", "*")] else []) ++
    (if allow_credentials o then [("Access-Control-Allow-Credentials", "true")] else []) ++
    (match expose_headers o with
     | [] => []
     | hs => [("Access-Control-Expose-Headers", join ", " hs)]
     end))%list in
  let hdrs := sorted_set (SAFELISTED_HEADERS ++ allow_headers o)%list in
  let preflight := (
    (if explicit then [("Vary", "Origin")] else [("Access-Control-Allow-Origin", "*")]) ++
    [("Access-Control-Allow-Methods", join ", " methods);
     ("Access-Control-Max-Age", str_Z (max_age o))] ++
    (if negb all_headers then [("Access-Control-Allow-Headers", join ", " hdrs)] else []) ++
    (if allow_credentials o then [("Access-Control-Allow-Credentials", "true")] else []))%list in
  {| c_allow_origins := allow_origins o; c_allow_methods := methods;
     c_allow_headers := map lower hdrs; c_allow_all_origins := all_origins;
     c_allow_all_headers := all_headers; c_preflight_explicit_allow_origin := explicit;
     c_simple_headers := simple; c_preflight_headers := preflight |}.

Definition is_allowed_origin (c : cors_state) (origin : string) : bool :=
  c_allow_all_origins c || str_in origin (c_allow_origins c).

(** Response bodies: the handlers' JSON values and the middleware's own
    plain text. *)
Inductive body : Type :=
| BJson (v : value)
| BText (s : string).

Record http_response : Type := mkHttpResponse {
  status : Z;
  hdrs : headers;
  body_of : body
}.

(** [PlainTextResponse(content, status_code, headers)]: [init_headers]
    lowercases the given names and adds [content-length] and
    [content-type] when they are not given. *)
Definition plain_text (code : Z) (content : string) (d : list (string * string)) : http_response :=
  let raw := map (fun kv => (lower (fst kv), snd kv)) d in
  let keys := map fst raw in
  let raw := if str_in "content-length" keys then raw
             else (raw ++ [("content-length", str_Z (Z.of_nat (String.length content)))])%list in
  let raw := if str_in "content-type" keys then raw
             else (raw ++ [("content-type", "text/plain; charset=utf-8")])%list in
  {| status := code; hdrs := raw; body_of := BText content |}.

(** [preflight_response], for the request's [origin] and
    [access-control-request-method] (present, as [__call__] checked). *)
Definition preflight_response (c : cors_state) (rq : headers) (origin meth : string)
  : http_response :=
  let d0 := c_preflight_headers c in
  let '(d1, f1) :=
    if is_allowed_origin c origin then
      (if c_preflight_explicit_allow_origin c
       then sdict_set "Access-Control-Allow-Origin" origin d0 else d0, [])
    else (d0, ["origin"]) in
  let f2 := if str_in meth (c_allow_methods c) then f1 else (f1 ++ ["method"])%list in
  let '(d3, f3) :=
    match hget "access-control-request-headers" rq with
    | Some req =>
        if c_allow_all_headers c then (sdict_set "Access-Control-Allow-Headers" req d1, f2)
        else if forallb (fun h => str_in (strip h) (c_allow_headers c)) (split_comma (lower req))
        then (d1, f2) else (d1, (f2 ++ ["headers"])%list)
    | None => (d1, f2)
    end in
  match f3 with
  | [] => plain_text 200 "OK" d3
  | _ => plain_text 400 ("Disallowed CORS " ++ join ", " f3) d3
  end.

(** [allow_explicit_origin]. *)
Definition allow_explicit_origin (h : headers) (origin : string) : headers :=
  add_vary_header "Origin" (hset "Access-Control-Allow-Origin" origin h).

(** [send] on the [http.response.start] message of the application's
    response: status and body are the application's. *)
Definition cors_send (c : cors_state) (rq : headers) (origin : string) (r : http_response)
  : http_response :=
  let h := hupdate (c_simple_headers c) (hdrs r) in
  let h := if c_allow_all_origins c && hmem "cookie" rq then allow_explicit_origin h origin
           else if negb (c_allow_all_origins c) && is_allowed_origin c origin
           then allow_explicit_origin h origin else h in
  {| status := status r; hdrs := h; body_of := body_of r |}.

(** An HTTP request as the middleware sees it: the method, the headers and
    the rest of the request, which only the application reads. *)
Record http_request (R : Type) : Type := mkHttpRequest {
  method : string;
  req_headers : headers;
  route : R
}.
Arguments mkHttpRequest {R}.
Arguments method {R}.
Arguments req_headers {R}.
Arguments route {R}.

Section Middleware.
Context {R St E : Type}.

(** The wrapped application: its response, or the exception that escapes
    it, and the state afterwards. *)
Variable app : http_request R -> St -> result http_response E * St.

(** [CORSMiddleware.__call__].  An exception of the application passes
    through: [send] never sees a response to add headers to. *)
Definition cors_call (c : cors_state) (rq : http_request R) (st : St)
  : result http_response E * St :=
  match hget "origin" (req_headers rq) with
  | None => app rq st
  | Some origin =>
      match hget "access-control-request-method" (req_headers rq) with
      | Some meth =>
          if String.eqb (method rq) "OPTIONS"
          then (Ok (preflight_response c (req_headers rq) origin meth), st)
          else let '(r, st') := app rq st in
               (r' <- r ;; Ok (cors_send c (req_headers rq) origin r'), st')
      | None =>
          let '(r, st') := app rq st in
          (r' <- r ;; Ok (cors_send c (req_headers rq) origin r'), st')
      end
  end.

End Middleware.

(** ** Lemmas on header lists *)

Lemma hget_app k (h l : headers) : hget k (h ++ l)%list = match hget k h with Some x => Some x | None => hget k l end.
Proof.
  induction h as [|[k' v'] r IH]; [reflexivity|]. cbn [app hget].
  destruct (String.eqb k' (lower k)); [reflexivity | exact IH].
Qed.

Lemma hget_hremove k K h : K <> lower k -> hget k (hremove K h) = hget k h.
Proof.
  intros Hne. induction h as [|[k' v'] r IH]; [reflexivity|]. unfold hremove in *. cbn [filter fst hget].
  destruct (String.eqb_spec k' K) as [->|Hk]; cbn [negb].
  - rewrite IH. apply String.eqb_neq in Hne. rewrite Hne. reflexivity.
  - cbn [hget]. rewrite IH. reflexivity.
Qed.

(** After [headers[k2] = v], [headers[k]] is [v] when the names agree up
    to case, and unchanged otherwise. *)
Lemma hget_hset_same k k2 v h : lower k = lower k2 -> hget k (hset k2 v h) = Some v.
Proof.
  intros Hk. unfold hset. rewrite <- Hk. destruct (hset_found (lower k) v h) as [h'|] eqn:Hf.
  - revert h' Hf. induction h as [|[k' v'] r IH]; intros h' Hf; cbn [hset_found] in Hf; [discriminate|].
    destruct (String.eqb k' (lower k)) eqn:E.
    + injection Hf as <-. cbn [hget]. rewrite String.eqb_refl. reflexivity.
    + destruct (hset_found (lower k) v r) as [h''|]; cbn in Hf; [|discriminate].
      injection Hf as <-. cbn [hget]. rewrite E. apply IH. reflexivity.
  - rewrite hget_app. replace (hget k h) with (@None string).
    + cbn. rewrite String.eqb_refl. reflexivity.
    + induction h as [|[k' v'] r IH]; [reflexivity|]. cbn [hset_found] in Hf. cbn [hget].
      destruct (String.eqb k' (lower k)); [discriminate|].
      destruct (hset_found (lower k) v r); [discriminate | apply IH; reflexivity].
Qed.

Lemma hget_hset_other k k2 v h : lower k2 <> lower k -> hget k (hset k2 v h) = hget k h.
Proof.
  intros Hk. unfold hset. destruct (hset_found (lower k2) v h) as [h'|] eqn:Hf.
  - revert h' Hf. induction h as [|[k' v'] r IH]; intros h' Hf; cbn [hset_found] in Hf; [discriminate|].
    destruct (String.eqb_spec k' (lower k2)) as [->|Hne].
    + injection Hf as <-. cbn [hget]. pose proof Hk as Hb. apply String.eqb_neq in Hb. rewrite Hb.
      apply hget_hremove. exact Hk.
    + destruct (hset_found (lower k2) v r) as [h''|]; cbn in Hf; [|discriminate].
      injection Hf as <-. cbn [hget]. rewrite (IH h'' eq_refl). reflexivity.
  - rewrite hget_app. destruct (hget k h); [reflexivity|]. cbn.
    apply String.eqb_neq in Hk. rewrite Hk. reflexivity.
Qed.

(** Rewrites [hget] through [hset] on literal header names. *)
Ltac hget_simpl :=
  repeat first
    [ rewrite hget_hset_same by reflexivity
    | rewrite hget_hset_other by (apply String.eqb_neq; reflexivity) ].

(** ** What the configuration of lines 13-19 grants *)

Definition main_cors : cors_state := cors_init app_cors.

Lemma main_cors_eq :
  main_cors =
  {| c_allow_origins := ["*"];
     c_allow_methods := ALL_METHODS;
     c_allow_headers := ["*"; "accept"; "accept-language"; "content-language"; "content-type"];
     c_allow_all_origins := true; c_allow_all_headers := true;
     c_preflight_explicit_allow_origin := true;
     c_simple_headers := [("Access-Control-Allow-Origin", "*"); ("Access-Control-Allow-Credentials", "true")];
     c_preflight_headers :=
       [("Vary", "Origin");
        ("Access-Control-Allow-Methods", "DELETE, GET, HEAD, OPTIONS, PATCH, POST, PUT");
        ("Access-Control-Max-Age", "600"); ("Access-Control-Allow-Credentials", "true")] |}.
Proof. vm_compute. reflexivity. Qed.

(** The middleware answers a non-preflight request with the application's
    result, headers added to a response. *)
Lemma cors_call_simple {R St E : Type} (app : http_request R -> St -> result http_response E * St)
    c rq st origin :
  hget "origin" (req_headers rq) = Some origin ->
  (method rq <> "OPTIONS" \/ hget "access-control-request-method" (req_headers rq) = None) ->
  cors_call app c rq st =
    (r <- fst (app rq st) ;; Ok (cors_send c (req_headers rq) origin r), snd (app rq st)).
Proof.
  intros Ho Hm. unfold cors_call. rewrite Ho. destruct (app rq st) as [r st'].
  destruct (hget "access-control-request-method" (req_headers rq)) as [m|]; [|reflexivity].
  destruct Hm as [Hm|Hm]; [|discriminate]. apply String.eqb_neq in Hm. rewrite Hm. reflexivity.
Qed.

(** The headers [send] gives a response under the configuration of lines
    13-19. *)
Lemma cors_send_main rq origin r0 :
  let r := cors_send main_cors rq origin r0 in
  status r = status r0 /\ body_of r = body_of r0 /\
  hget "access-control-allow-origin" (hdrs r) = Some (if hmem "cookie" rq then origin else "*") /\
  hget "access-control-allow-credentials" (hdrs r) = Some "true".
Proof.
  cbv zeta. unfold cors_send. rewrite main_cors_eq. cbn [c_simple_headers c_allow_all_origins
    hupdate fold_left fst snd status hdrs body_of andb negb].
  do 2 (split; [reflexivity|]).
  destruct (hmem "cookie" rq); unfold allow_explicit_origin, add_vary_header;
    hget_simpl; split; reflexivity.
Qed.

(** C33: every cross-origin request that is not a preflight reaches the
    application, and its store change, status and body are the
    application's; a response gets [Access-Control-Allow-Credentials: true]
    and, when the request carries a cookie, the request's own [Origin] as
    [Access-Control-Allow-Origin]: whatever the site that sends it, the
    browser lets that site read the response of a credentialed request.
    An exception of the application passes through unchanged. *)
Theorem cors_credentials_any_origin {R St E : Type}
    (app : http_request R -> St -> result http_response E * St) rq st origin :
  hget "origin" (req_headers rq) = Some origin ->
  (method rq <> "OPTIONS" \/ hget "access-control-request-method" (req_headers rq) = None) ->
  let res := cors_call app main_cors rq st in
  snd res = snd (app rq st) /\
  match fst (app rq st), fst res with
  | Ok r0, Ok r =>
      status r = status r0 /\ body_of r = body_of r0 /\
      hget "access-control-allow-origin" (hdrs r) =
        Some (if hmem "cookie" (req_headers rq) then origin else "*") /\
      hget "access-control-allow-credentials" (hdrs r) = Some "true"
  | Err e0, Err e => e = e0
  | _, _ => False
  end.
Proof.
  intros Ho Hm. cbv zeta. rewrite (cors_call_simple app main_cors rq st origin Ho Hm).
  cbn [fst snd]. split; [reflexivity|].
  destruct (fst (app rq st)) as [r0|e0]; cbn [bind_result]; [apply cors_send_main | reflexivity].
Qed.

(** C34: a preflight request ([OPTIONS] with [Origin] and
    [Access-Control-Request-Method]) is answered by the middleware
    itself: the application does not run and the state is unchanged.  From
    any origin, the answer is [200] for a standard method and [400]
    otherwise, and it echoes the origin with
    [Access-Control-Allow-Credentials: true] and the requested headers. *)
Theorem cors_preflight {R St E : Type} (app : http_request R -> St -> result http_response E * St)
    rq st origin meth :
  hget "origin" (req_headers rq) = Some origin ->
  hget "access-control-request-method" (req_headers rq) = Some meth ->
  method rq = "OPTIONS" ->
  exists r, cors_call app main_cors rq st = (Ok r, st) /\
  status r = (if str_in meth ALL_METHODS then 200 else 400)%Z /\
  hget "access-control-allow-origin" (hdrs r) = Some origin /\
  hget "access-control-allow-credentials" (hdrs r) = Some "true" /\
  hget "access-control-allow-headers" (hdrs r) = hget "access-control-request-headers" (req_headers rq).
Proof.
  intros Ho Hm Hopt. unfold cors_call. rewrite Ho, Hm, Hopt. cbn [String.eqb].
  eexists; split; [reflexivity|].
  rewrite main_cors_eq. unfold preflight_response, is_allowed_origin.
  cbn [c_allow_all_origins c_preflight_explicit_allow_origin c_preflight_headers c_allow_methods
    c_allow_all_headers orb].
  destruct (hget "access-control-request-headers" (req_headers rq)) as [x|];
    destruct (str_in meth ALL_METHODS); vm_compute; repeat split.
Qed.

(** ** Witnesses *)

(** An application that answers [200] with [null] and counts requests. *)
Definition counter_app (rq : http_request unit) (n : nat) : result http_response unit * nat :=
  (Ok (mkHttpResponse 200 [("content-type", "application/json")] (BJson VNone)), S n).

Definition evil_get : http_request unit :=
  mkHttpRequest "GET" [("origin", "https://evil.example"); ("cookie", "session=1")] tt.

Lemma cors_credentials_any_origin_witness :
  snd (cors_call counter_app main_cors evil_get 0) = snd (counter_app evil_get 0) /\
  match fst (counter_app evil_get 0), fst (cors_call counter_app main_cors evil_get 0) with
  | Ok r0, Ok r =>
      status r = status r0 /\ body_of r = body_of r0 /\
      hget "access-control-allow-origin" (hdrs r) =
        Some (if hmem "cookie" (req_headers evil_get) then "https://evil.example" else "*") /\
      hget "access-control-allow-credentials" (hdrs r) = Some "true"
  | Err e0, Err e => e = e0
  | _, _ => False
  end.
Proof.
  apply (cors_credentials_any_origin counter_app evil_get 0 "https://evil.example");
    [reflexivity | left; discriminate].
Defined.

Definition evil_preflight : http_request unit :=
  mkHttpRequest "OPTIONS" [("origin", "https://evil.example");
                           ("access-control-request-method", "DELETE");
                           ("access-control-request-headers", "X-Token")] tt.

Lemma cors_preflight_witness :
  exists r, cors_call counter_app main_cors evil_preflight 0 = (Ok r, 0) /\
  status r = (if str_in "DELETE" ALL_METHODS then 200 else 400)%Z /\
  hget "access-control-allow-origin" (hdrs r) = Some "https://evil.example" /\
  hget "access-control-allow-credentials" (hdrs r) = Some "true" /\
  hget "access-control-allow-headers" (hdrs r) =
    hget "access-control-request-headers" (req_headers evil_preflight).
Proof.
  apply (cors_preflight counter_app evil_preflight 0 "https://evil.example" "DELETE");
    reflexivity.
Defined.
