(* ===== verification/App.v ===== *)
(** * The application as the HTTP server runs it, and its entry point

    Starlette stacks the application of [src/main.py] as
    [ServerErrorMiddleware] (outermost), the CORS middleware of lines 13-19
    ([Cors]), then the routes ([Params.dispatch]: the parameters of a
    request as it arrives are validated, a failure answering [422], then
    [Server.handle] runs the handler).  [route_app] is the inner
    application: a route's result becomes a JSON response, except
    [Api.server_error], which [Api] builds exactly when an exception
    escapes the route (a result that cannot be rendered as JSON): that
    exception leaves the route.  It passes through the CORS middleware and
    [ServerErrorMiddleware] turns it into a plain-text [500] ([asgi]).
    [content-length], which depends on the rendered JSON, is not modelled.
    The same path is taken by a [422] whose error list holds a non-finite
    float, such as an order item with quantity [Infinity].

    The entry point (lines 130-133) reads the port with
    [int(os.getenv("PORT", 8000))] ([entry_port]); [uvicorn.run] itself is
    I/O and is not modelled. *)

From Stdlib Require Import ZArith List String Ascii Bool Lia Floats.
From S2P Require Import Prelude Python PyString ObjectId PyRepr Regex Filter Pricing Query Store Api Server Pydantic Schemas Params Cors.
Import ListNotations.
Open Scope string_scope.
Open Scope shop_scope.

(** [JSONResponse(content, status_code)] of a handler's response. *)
Definition json_response (r : response) : http_response :=
  {| Cors.status := Api.status r; hdrs := [("content-type", "application/json")];
     body_of := BJson (Api.body r) |}.

Definition is_server_error (r : response) : bool :=
  match r with
  | Resp 500 (VStr s) => String.eqb s "Internal Server Error"
  | _ => false
  end.

(** What leaves the route: a response, or the exception of a failed
    rendering. *)
Definition route_result (r : response) : result http_response unit :=
  if is_server_error r then Err tt else Ok (json_response r).

(** [ServerErrorMiddleware] without debug: an exception becomes
    [PlainTextResponse("Internal Server Error", status_code=500)]. *)
Definition server_error_middleware (x : result http_response unit) : http_response :=
  match x with
  | Ok r => r
  | Err _ => plain_text 500 "Internal Server Error" []
  end.

Section App.
Context {St : Type} `{Gateway St} `{RegexEngine}.
Variable oversize : string -> int_error.
Variable v : pyversion.
Variable env : string -> option string.

Definition route_app (rq : http_request raw_request) (db : option St)
  : result http_response unit * option St :=
  let '(r, db') := dispatch oversize v env db (route rq) in (route_result r, db').

(** The application with its middleware stack (lines 11-19 and the
    routes). *)
Definition asgi (rq : http_request raw_request) (db : option St) : http_response * option St :=
  let '(x, db') := cors_call route_app main_cors rq db in (server_error_middleware x, db').

End App.

(** Lines 130-132: [port = int(os.getenv("PORT", 8000))]; the default is
    the [int] [8000], which [int] returns unchanged. *)
Definition entry_port (env : string -> option string) : py Z :=
  match env "PORT" with
  | None => Ok 8000%Z
  | Some s => py_int s
  end.

(** A session of HTTP requests, the store threaded from one to the next. *)
Section Sessions.
Context {St : Type} `{Gateway St} `{RegexEngine}.
Variable oversize : string -> int_error.
Variable v : pyversion.
Variable env : string -> option string.

Fixpoint asgi_serve (db : option St) (rqs : list (http_request raw_request))
  : list http_response * option St :=
  match rqs with
  | [] => ([], db)
  | rq :: rest =>
      let '(r, db1) := asgi oversize v env rq db in
      let '(rs, db2) := asgi_serve db1 rest in
      (r :: rs, db2)
  end.

End Sessions.

(** ** Lemmas on the handlers' responses *)

Lemma reraise_500_shape {A : Type} (x : py A) :
  (exists a, reraise_500 x = Ok a) \/ (exists m, reraise_500 x = Err (HTTPException 500 m)).
Proof. destruct x as [a|e]; [left | right]; eauto. Qed.

(** [respond] only gives its status or [500] when the error it gets is a
    [500]. *)
Lemma respond_status code (r : py value) :
  (forall s d, r = Err (HTTPException s d) -> s = 500%Z) ->
  Api.status (respond code r) = code \/ Api.status (respond code r) = 500%Z.
Proof.
  intros Hr. unfold respond. destruct r as [a|[]]; try (right; reflexivity).
  - destruct (renderable a); [left | right]; reflexivity.
  - right. cbn. eapply Hr. reflexivity.
Qed.

Lemma respond_reraise_status code (x : py value) :
  Api.status (respond code (reraise_500 x)) = code \/ Api.status (respond code (reraise_500 x)) = 500%Z.
Proof.
  apply respond_status. destruct (reraise_500_shape x) as [[a ->]|[m ->]]; congruence.
Qed.

(** [respond] always gives a body JSON can render. *)
Lemma respond_renderable code (r : py value) : renderable (Api.body (respond code r)) = true.
Proof. unfold respond. destruct r as [a|[]]; try reflexivity. destruct (renderable a) eqn:E; exact E || reflexivity. Qed.

Lemma handle_renderable {St : Type} `{Gateway St} `{RegexEngine} v env (db : option St) r :
  renderable (Api.body (fst (handle v env db r))) = true.
Proof.
  destruct r; cbn [handle fst]; try apply respond_renderable; [reflexivity | ..].
  - unfold create_product. destruct (create_product_body db body) as [[a st']|e]; apply respond_renderable.
  - unfold create_order. destruct (create_order_body v db body) as [[a st']|e]; apply respond_renderable.
Qed.

Lemma status_in c x : c = 200%Z \/ c = 201%Z -> x = c \/ x = 500%Z -> In x [200; 201; 500]%Z.
Proof. cbn. intuition congruence. Qed.

Lemma respond_ok_in c (a : value) :
  c = 200%Z \/ c = 201%Z -> In (Api.status (respond c (Ok a))) [200; 201; 500]%Z.
Proof. intros Hc. apply (status_in c); [exact Hc | apply respond_status; discriminate]. Qed.

(** The two [POST] handlers answer [201] or a [reraise_500] error. *)
Ltac created_201 :=
  match goal with |- context [reraise_500 ?x] => destruct (reraise_500_shape x) as [[[a st'] ->]|[m ->]] end;
  [apply respond_ok_in; right; reflexivity | cbn; tauto].

(** A handler answers [200], [201] or [500]. *)
Lemma handle_status {St : Type} `{Gateway St} `{RegexEngine} v env (db : option St) r :
  In (Api.status (fst (handle v env db r))) [200; 201; 500]%Z.
Proof.
  destruct r; cbn [handle fst].
  - cbn. tauto.
  - apply (status_in 200%Z); [left; reflexivity | apply respond_reraise_status].
  - unfold create_product, create_product_body. created_201.
  - apply (status_in 200%Z); [left; reflexivity | apply respond_reraise_status].
  - unfold create_order, create_order_body. created_201.
  - apply respond_ok_in. left; reflexivity.
Qed.

(** A route answers [200], [201], [422] or [500], with a body JSON can
    render. *)
Lemma dispatch_ok {St : Type} `{Gateway St} `{RegexEngine} o v env (db : option St) r :
  In (Api.status (fst (dispatch o v env db r))) [200; 201; 422; 500]%Z /\
  renderable (Api.body (fst (dispatch o v env db r))) = true.
Proof.
  unfold dispatch. destruct (resolve o r) as [rq|errs] eqn:E.
  - split; [|apply handle_renderable]. pose proof (handle_status v env db rq). cbn in *. tauto.
  - destruct (validation_error_ok errs) as [Hs Hr]. split; [cbn in *; tauto | exact Hr].
Qed.

(** What the server may send: a status among [200], [201], [400], [422]
    and [500], and a body that is JSON it can render, or text. *)
Definition http_ok (r : http_response) : Prop :=
  In (Cors.status r) [200; 201; 400; 422; 500]%Z /\
  match body_of r with BJson v => renderable v = true | BText _ => True end.

Lemma preflight_ok c rq origin meth : http_ok (preflight_response c rq origin meth).
Proof.
  unfold preflight_response.
  repeat match goal with |- context [match ?x with _ => _ end] => destruct x end;
    split; cbn; tauto.
Qed.

Lemma route_result_ok {St : Type} `{Gateway St} `{RegexEngine} o v env (db : option St) r :
  forall x, route_result (fst (dispatch o v env db r)) = Ok x -> http_ok x.
Proof.
  intros x. unfold route_result. destruct (is_server_error _); [discriminate|]. intros [= <-].
  destruct (dispatch_ok o v env db r) as [Hs Hr].
  split; [|exact Hr]. cbn [json_response Cors.status]. cbn in Hs |- *. tauto.
Qed.

(** Every response of the stack is one the server can send. *)
Lemma asgi_ok {St : Type} `{Gateway St} `{RegexEngine} o v env rq (db : option St) :
  http_ok (fst (asgi o v env rq db)).
Proof.
  assert (Hx : forall x, x = fst (route_app o v env rq db) -> http_ok (server_error_middleware x)).
  { intros x ->. unfold route_app. pose proof (route_result_ok o v env db (route rq)) as Hr.
    destruct (dispatch o v env db (route rq)) as [r db']. cbn [fst] in *.
    destruct (route_result r) as [a|[]]; [apply Hr; reflexivity | split; cbn; tauto]. }
  assert (Hs : forall o', http_ok (server_error_middleware
                 (r' <- fst (route_app o v env rq db) ;; Ok (cors_send main_cors (req_headers rq) o' r')))).
  { intros o'. specialize (Hx _ eq_refl). destruct (fst (route_app o v env rq db)); [exact Hx | exact Hx]. }
  unfold asgi, cors_call.
  destruct (hget "origin" (req_headers rq)) as [o'|].
  - destruct (hget "access-control-request-method" (req_headers rq)) as [m|];
      [destruct (String.eqb (method rq) "OPTIONS"); [apply preflight_ok|] |];
      specialize (Hs o'); destruct (route_app o v env rq db); exact Hs.
  - specialize (Hx _ eq_refl). destruct (route_app o v env rq db). exact Hx.
Qed.

(** A failed rendering of a cross-origin request that is not a
    preflight leaves the application as an exception: the client gets
    [ServerErrorMiddleware]'s bare plain-text [500], which [CORSMiddleware]
    never saw. *)
Lemma asgi_server_error {St : Type} `{Gateway St} `{RegexEngine} o v env
    (rq : http_request raw_request) (db : option St) origin :
  hget "origin" (req_headers rq) = Some origin ->
  (method rq <> "OPTIONS" \/ hget "access-control-request-method" (req_headers rq) = None) ->
  is_server_error (fst (dispatch o v env db (route rq))) = true ->
  asgi o v env rq db = (plain_text 500 "Internal Server Error" [], snd (dispatch o v env db (route rq))).
Proof.
  intros Ho Hm. unfold asgi.
  rewrite (cors_call_simple (route_app o v env) main_cors rq db origin Ho Hm).
  unfold route_app. destruct (dispatch o v env db (route rq)) as [r db']. cbn [fst snd].
  intros Hs. unfold route_result. rewrite Hs. reflexivity.
Qed.

(** ** Theorems *)

(** C35: for a cross-origin request that is not a preflight, a result that
    cannot be rendered as JSON (e.g. a product with a non-finite price)
    reaches the client as a plain-text [500] without
    [Access-Control-Allow-Origin], so a browser page sees a CORS failure
    instead of the error; every other response, the [HTTPException(500)]s
    of the handlers included, keeps its status and gets the CORS headers.
    The store change is the handler's in both cases. *)
Theorem asgi_render_error_no_cors {St : Type} `{Gateway St} `{RegexEngine} o v env
    (rq : http_request raw_request) (db : option St) origin :
  hget "origin" (req_headers rq) = Some origin ->
  (method rq <> "OPTIONS" \/ hget "access-control-request-method" (req_headers rq) = None) ->
  let r := fst (dispatch o v env db (route rq)) in
  let res := asgi o v env rq db in
  snd res = snd (dispatch o v env db (route rq)) /\
  (is_server_error r = true ->
     Cors.status (fst res) = 500%Z /\ hget "access-control-allow-origin" (hdrs (fst res)) = None) /\
  (is_server_error r = false ->
     Cors.status (fst res) = Api.status r /\
     hget "access-control-allow-origin" (hdrs (fst res)) =
       Some (if hmem "cookie" (req_headers rq) then origin else "*")).
Proof.
  intros Ho Hm. cbv zeta. unfold asgi.
  rewrite (cors_call_simple (route_app o v env) main_cors rq db origin Ho Hm).
  unfold route_app. destruct (dispatch o v env db (route rq)) as [r db']. cbn [fst snd].
  split; [reflexivity|]. unfold route_result.
  destruct (is_server_error r); cbn [bind_result server_error_middleware].
  - split; [intros _; split; reflexivity | discriminate].
  - split; [discriminate|]. intros _.
    destruct (cors_send_main (req_headers rq) origin (json_response r)) as (Hs & _ & Ho' & _).
    split; [exact Hs | exact Ho'].
Qed.

(** C36: the port of the entry point: [8000] when [PORT] is unset; [n]
    when [PORT] holds [str(n)] for an integer [n] of at most 4300 digits
    (Python's [int] reads back what [str] prints); and the [ValueError] of
    CPython's digit limit, so no server, for a longer one. *)
Theorem entry_port_str env :
  (env "PORT" = None -> entry_port env = Ok 8000%Z) /\
  (forall n, env "PORT" = Some (str_Z n) ->
     (String.length (str_Z (Z.abs n)) <= max_str_digits)%nat -> entry_port env = Ok n) /\
  (forall n, env "PORT" = Some (str_Z n) ->
     (max_str_digits < String.length (str_Z (Z.abs n)))%nat ->
     entry_port env = Err (ValueError (int_limit_msg (String.length (str_Z (Z.abs n)))))).
Proof.
  unfold entry_port. split; [intros ->; reflexivity|].
  split; intros n ->; [apply py_int_str_Z | apply py_int_str_Z_limit].
Qed.

(** C27: an order from another origin whose [i]-th item has an infinite
    or NaN [quantity] (JSON's [Infinity] or [NaN], which [json.loads]
    accepts) fails validation, and the [422] that should report it
    cannot be rendered, the input of the error being that float: the
    client gets the bare plain-text [500] of [ServerErrorMiddleware],
    without [Access-Control-Allow-Origin], and the store is unchanged. *)
Theorem create_order_nonfinite_500 {St : Type} `{Gateway St} `{RegexEngine} o v env
    (db : option St) hs origin b its i it f :
  hget "origin" hs = Some origin ->
  dict_get "items" b = Some (VList its) -> nth_error its i = Some (VDict it) ->
  dict_get "quantity" it = Some (VFloat f) -> PrimFloat.is_finite f = false ->
  let res := asgi o v env (mkHttpRequest "POST" hs (RawCreateOrder (VDict b))) db in
  res = (plain_text 500 "Internal Server Error" [], db) /\
  hget "access-control-allow-origin" (hdrs (fst res)) = None.
Proof.
  intros Ho Hits Hi Hq Hf. cbv zeta.
  destruct (validate_order_quantity_err o [VStr "body"] b its i it _ _ Hits Hi Hq (v_int_nonfinite o f Hf))
    as (es & He & Hin).
  assert (Hd : dispatch o v env db (RawCreateOrder (VDict b)) = (server_error, db)).
  { unfold dispatch. cbn [resolve validate_body]. rewrite He. f_equal.
    apply (validation_error_unrenderable _ _ Hin). rewrite renderable_verror, renderable_float, Hf.
    apply andb_false_r. }
  assert (Hm : method (mkHttpRequest "POST" hs (RawCreateOrder (VDict b))) <> "OPTIONS") by discriminate.
  pose proof (asgi_server_error o v env (mkHttpRequest "POST" hs (RawCreateOrder (VDict b))) db origin
                Ho (or_introl Hm)) as Ha.
  cbn [route fst] in Ha. rewrite Hd in Ha. rewrite (Ha eq_refl). split; reflexivity.
Qed.

(** ** Witnesses *)

(** pydantic's [int_parsing_size] for every literal that is too long. *)
Definition oversize_size (_ : string) : int_error := IntParsingSize.

(** The store after creating the product of price [inf] of [Api]. *)
Definition inf_shop : option store := snd (create_product (Some shop0) inf_mug).

Definition get_inf_mug : http_request raw_request :=
  mkHttpRequest "GET" [("origin", "https://shop.example")]
                (RawGetProduct (oid_str (oid_of_counter 0))).

Lemma asgi_render_error_no_cors_witness :
  is_server_error (fst (dispatch oversize_size CPython312 (fun _ => None) inf_shop (route get_inf_mug))) = true /\
  Cors.status (fst (asgi oversize_size CPython312 (fun _ => None) get_inf_mug inf_shop)) = 500%Z /\
  hget "access-control-allow-origin" (hdrs (fst (asgi oversize_size CPython312 (fun _ => None) get_inf_mug inf_shop)))
    = None.
Proof.
  assert (Hs : is_server_error (fst (dispatch oversize_size CPython312 (fun _ => None) inf_shop (route get_inf_mug))) = true)
    by (vm_compute; reflexivity).
  split; [exact Hs|].
  apply (proj1 (proj2 (asgi_render_error_no_cors oversize_size CPython312 (fun _ => None) get_inf_mug inf_shop
                         "https://shop.example" eq_refl (or_intror eq_refl)))).
  exact Hs.
Defined.

Lemma entry_port_str_witness :
  entry_port (fun k => if String.eqb k "PORT" then Some (str_Z 8080) else None) = Ok 8080%Z.
Proof. apply (proj1 (proj2 (entry_port_str _)) 8080%Z); [reflexivity | vm_compute; lia]. Defined.

(** The type of what the server sends: whatever the request and the
    store, the body of the response is a JSON value that renders (the
    handlers' values pass through [respond], which replaces a value that
    does not render) or the text of a preflight answer or of
    [ServerErrorMiddleware]. *)
Theorem asgi_body_json {St : Type} `{Gateway St} `{RegexEngine} o v env rq (db : option St) :
  match body_of (fst (asgi o v env rq db)) with
  | BJson x => renderable x = true
  | BText _ => True
  end.
Proof. apply (proj2 (asgi_ok o v env rq db)). Qed.

(** C37: every request of a session gets exactly one response, in order,
    with a status among [200], [201], [400], [422] and [500]: no request is
    left unanswered, and the [404] of [get_product] never reaches the
    client. *)
Theorem asgi_serve_answers {St : Type} `{Gateway St} `{RegexEngine} o v env (db : option St) rqs :
  List.length (fst (asgi_serve o v env db rqs)) = List.length rqs /\
  Forall (fun r => In (Cors.status r) [200; 201; 400; 422; 500]%Z) (fst (asgi_serve o v env db rqs)).
Proof.
  revert db; induction rqs as [|rq rqs IH]; intros db; [split; [reflexivity | constructor]|].
  cbn [asgi_serve]. pose proof (asgi_ok o v env rq db) as [Hs _].
  destruct (asgi o v env rq db) as [r db1]. specialize (IH db1).
  destruct (asgi_serve o v env db1 rqs) as [rs db2]. cbn [fst List.length] in *.
  destruct IH as [Hl Hf]. split; [rewrite Hl; reflexivity | constructor; assumption].
Qed.

Definition inf_order_request : http_request raw_request :=
  mkHttpRequest "POST" [("origin", "https://shop.example")]
    (RawCreateOrder (VDict [("items", VList [VDict [("product_id", VStr "p"); ("price", VFloat 2%float);
                                                      ("quantity", VFloat PrimFloat.infinity)]])])).

Lemma create_order_nonfinite_500_witness :
  asgi oversize_size CPython312 (fun _ => None) inf_order_request (Some shop0) =
    (plain_text 500 "Internal Server Error" [], Some shop0) /\
  hget "access-control-allow-origin"
    (hdrs (fst (asgi oversize_size CPython312 (fun _ => None) inf_order_request (Some shop0)))) = None.
Proof.
  unfold inf_order_request.
  apply (create_order_nonfinite_500 oversize_size CPython312 (fun _ => None) (Some shop0)
           [("origin", "https://shop.example")] "https://shop.example"
           [("items", VList [VDict [("product_id", VStr "p"); ("price", VFloat 2%float);
                                    ("quantity", VFloat PrimFloat.infinity)]])]
           [VDict [("product_id", VStr "p"); ("price", VFloat 2%float); ("quantity", VFloat PrimFloat.infinity)]]
           0 [("product_id", VStr "p"); ("price", VFloat 2%float); ("quantity", VFloat PrimFloat.infinity)]
           PrimFloat.infinity); reflexivity.
Defined.
